(** * ElasticsearchService (src/index.ts): query compilation, cursors and result projection

    A shallow embedding of the search service of src/index.ts, and the
    statements proved about it.  Definitions come first:

    - [Str]: the string primitives the service calls (literal patterns with
      the [i] flag, [split], [charAt]);
    - [Js]: the dynamically typed values the service builds its request
      bodies from, with truthiness, lodash's [isEmpty] and [get], and
      conditional object spread;
    - [Json] and [Base64]: [JSON.stringify], [JSON.parse] and the base64
      codec of Node's [Buffer], which together make the pagination cursor;
    - [Kobp]: the errors of the kobp package, what a call may throw, and
      computations that print on the console and return or throw;
    - [Es]: the service itself over its collaborators (the engine client,
      the hash, the serializer and the deserializer, the entity manager),
      which are the variables of its sections: the searches
      ([listProducts], [listBrands]), the terms
      ([trackUserSearchedKeywords], [updateDomainBoostedKeywords],
      [getDomainBoostedKeywords], [popularTerms], [boostedTerms],
      [deletePopularTerms], [deleteBoostedTerms]), the bulk updates
      ([saveProducts], [syncBrands] and the five stock methods), the
      products by SKU, and the configuration of an index ([configIndex]),
      whose calls to the engine are recorded in order;
    - [Sample]: stand-ins for the collaborators, with a few requests and
      responses.

    Then the facts: [StrFacts], [JsonFacts], [Base64Facts] and [EsFacts],
    the last of which holds the statements C1 to C10 and the further
    statements X1 to X30.

    Modelling choices.  Strings are byte strings holding UTF-8 text, so
    [Buffer.from(s, 'utf8')] is the identity on them, and
    [Buffer.from(s, 'base64')] reads the UTF-16 code units of the text,
    each by its low byte; a byte sequence that
    is no UTF-8 stays as it is where [toString('utf8')] would write U+FFFD,
    which changes no character below 128 and so not whether a text is
    JSON.  A number inside a value is its literal; the numeric options
    ([size], [minPrice], [maxPrice]) and counts are integers.  The options
    and the engine's responses are records after the interfaces the source
    declares for them, with [option] where the source guards a read; a
    response the source declares no interface for is a value, read as the
    source reads it, and the response of a bulk request is the array of
    its items.  The assignment to [options.sortBy] (lines 651-657) is not
    visible to the caller in the model. *)

From Stdlib Require Import Bool Ascii String List ZArith Lia DecimalString.
Import ListNotations.
Local Open Scope list_scope.
Local Open Scope string_scope.

(* ================================================================== *)
(** ** String primitives *)

Module Str.

(** The double quote and the backslash. *)
Definition dquote : ascii := Eval cbv in ascii_of_nat 34.
Definition bslash : ascii := Eval cbv in ascii_of_nat 92.

Definition is_upper (c : ascii) : bool :=
  let n := nat_of_ascii c in (65 <=? n)%nat && (n <=? 90)%nat.

(** ASCII case folding.  A pattern with the [i] flag and without the [u]
    flag never identifies a non-ASCII character with an ASCII one, so for
    the ASCII patterns of the service this is the canonicalisation the
    regular expression engine applies. *)
Definition fold (c : ascii) : ascii :=
  if is_upper c then ascii_of_nat (nat_of_ascii c + 32) else c.

Fixpoint fold_string (s : string) : string :=
  match s with
  | EmptyString => EmptyString
  | String c s' => String (fold c) (fold_string s')
  end.

Fixpoint prefix_i (p s : string) : bool :=
  match p, s with
  | EmptyString, _ => true
  | String _ _, EmptyString => false
  | String a p', String b s' => Ascii.eqb (fold a) (fold b) && prefix_i p' s'
  end.

(** [/p/i.test(s)] for a pattern [p] made of literal characters. *)
Fixpoint test_i (p s : string) : bool :=
  prefix_i p s ||
  match s with
  | EmptyString => false
  | String _ s' => test_i p s'
  end.

(** [s.charAt(0) === c]. *)
Definition charAt0_is (c : ascii) (s : string) : bool :=
  match s with
  | String a _ => Ascii.eqb a c
  | EmptyString => false
  end.

(** [s.startsWith(p)]. *)
Fixpoint has_prefix (p s : string) : bool :=
  match p, s with
  | EmptyString, _ => true
  | String _ _, EmptyString => false
  | String a p', String b s' => Ascii.eqb a b && has_prefix p' s'
  end.

(** [s.split(sep)] for a non-empty separator: [cur] is the part being
    read and [skip] the number of separator characters still to pass. *)
Fixpoint split_from (sep : string) (skip : nat) (cur s : string) : list string :=
  match s with
  | EmptyString => [cur]
  | String c s' =>
      match skip with
      | S k => split_from sep k cur s'
      | O =>
          if has_prefix sep s
          then cur :: split_from sep (String.length sep - 1) EmptyString s'
          else split_from sep 0 (cur ++ String c EmptyString) s'
      end
  end.

Definition split (sep s : string) : list string := split_from sep 0 EmptyString s.

(** [parts.join(sep)]. *)
Definition join (sep : string) (parts : list string) : string := String.concat sep parts.

(** Occurrence of a literal as a substring. *)
Fixpoint occurs (p s : string) : bool :=
  has_prefix p s ||
  match s with
  | EmptyString => false
  | String _ s' => occurs p s'
  end.

End Str.

(* ================================================================== *)
(** ** JavaScript values *)

Module Js.

(** A number is carried as its decimal literal, the text [JSON.stringify]
    prints for it: the service never computes with the numbers that cross
    a request body or a cursor, it only forwards them. *)
#[local] Unset Elimination Schemes.
Inductive value : Type :=
| VUndefined
| VNull
| VBool (b : bool)
| VNum (lit : string)
| VStr (s : string)
| VArr (xs : list value)
| VObj (fields : list (string * value)).
#[local] Set Elimination Schemes.

(** The literal of an integer. *)
Definition lit (z : Z) : string := NilZero.string_of_int (Z.to_int z).

Definition num (z : Z) : value := VNum (lit z).

Definition is_nonzero_digit (c : ascii) : bool :=
  let n := nat_of_ascii c in (49 <=? n)%nat && (n <=? 57)%nat.

(** A literal denotes zero when its mantissa has no digit but 0. *)
Fixpoint lit_is_zero (l : string) : bool :=
  match l with
  | EmptyString => true
  | String c l' =>
      if Ascii.eqb c "e" || Ascii.eqb c "E" then true
      else if is_nonzero_digit c then false
      else lit_is_zero l'
  end.

(** ToBoolean. *)
Definition truthy (v : value) : bool :=
  match v with
  | VUndefined | VNull => false
  | VBool b => b
  | VNum l => negb (lit_is_zero l)
  | VStr s => negb (s =? "")
  | VArr _ | VObj _ => true
  end.

(** lodash's [isEmpty]: no own enumerable key, no element, no character;
    every other primitive is empty. *)
Definition isEmpty (v : value) : bool :=
  match v with
  | VObj nil => true
  | VObj _ => false
  | VArr nil => true
  | VArr _ => false
  | VStr s => s =? ""
  | _ => true
  end.

(** [{ k: v }]. *)
Definition obj1 (k : string) (v : value) : value := VObj [(k, v)].

(** [...(cond && { fields })]: spreading [false] adds nothing. *)
Definition spread_when (cond : bool) (fields : list (string * value))
  : list (string * value) :=
  if cond then fields else [].

(** [o.k] on an object; [undefined] when the key is missing. *)
Fixpoint lookup (k : string) (fields : list (string * value)) : value :=
  match fields with
  | [] => VUndefined
  | (k', v) :: rest => if k' =? k then v else lookup k rest
  end.

Definition field (k : string) (v : value) : value :=
  match v with
  | VObj fs => lookup k fs
  | _ => VUndefined
  end.

Definition has_key (k : string) (v : value) : bool :=
  match v with
  | VObj fs => existsb (fun kv => fst kv =? k) fs
  | _ => false
  end.

(** lodash's [get(o, path)] along a path of keys. *)
Fixpoint get (path : list string) (v : value) : value :=
  match path with
  | [] => v
  | k :: rest => get rest (field k v)
  end.

(** The elements of an array value. *)
Definition elements (v : value) : list value :=
  match v with
  | VArr xs => xs
  | _ => []
  end.

(** Truthiness of the optional fields of a typed options object. *)
Definition truthy_str (o : option string) : bool :=
  match o with
  | Some s => negb (s =? "")
  | None => false
  end.

Definition truthy_num (o : option Z) : bool :=
  match o with
  | Some z => negb (z =? 0)%Z
  | None => false
  end.

(** [xs && xs.length]. *)
Definition truthy_list {A : Type} (o : option (list A)) : bool :=
  match o with
  | Some (_ :: _) => true
  | _ => false
  end.

Definition of_opt_num (o : option Z) : value :=
  match o with
  | Some z => num z
  | None => VUndefined
  end.

Definition elems_of {A : Type} (o : option (list A)) : list A :=
  match o with
  | Some l => l
  | None => []
  end.

End Js.

(* ================================================================== *)
(** ** JSON text *)

Module Json.
Import Js.
Import Str.

Definition hex_digit (n : nat) : ascii :=
  if (n <? 10)%nat then ascii_of_nat (48 + n) else ascii_of_nat (87 + n).

(** The two-character escapes of QuoteJSONString, by the letter that
    follows the backslash. *)
Definition short_escape (c : ascii) : option ascii :=
  let n := nat_of_ascii c in
  if Ascii.eqb c dquote then Some dquote
  else if Ascii.eqb c bslash then Some bslash
  else if (n =? 8)%nat then Some "b"%char
  else if (n =? 9)%nat then Some "t"%char
  else if (n =? 10)%nat then Some "n"%char
  else if (n =? 12)%nat then Some "f"%char
  else if (n =? 13)%nat then Some "r"%char
  else None.

(** QuoteJSONString, one character at a time: a two-character escape,
    a four-digit unicode escape for the other control characters, the
    character itself otherwise. *)
Definition escape_char (c : ascii) : string :=
  let n := nat_of_ascii c in
  match short_escape c with
  | Some e => String bslash (String e EmptyString)
  | None =>
      if (n <? 32)%nat
      then String bslash
             (String "u" (String "0" (String "0"
                (String (hex_digit (n / 16)) (String (hex_digit (n mod 16)) EmptyString)))))
      else String c EmptyString
  end.

Fixpoint escape (s : string) : string :=
  match s with
  | EmptyString => EmptyString
  | String c s' => escape_char c ++ escape s'
  end.

Definition quote (s : string) : string :=
  String dquote (escape s ++ String dquote EmptyString).

(** [JSON.stringify(v)]; [None] is the [undefined] it returns for
    [undefined].  Inside an array [undefined] prints as [null]; a property
    whose value is [undefined] is left out. *)
Fixpoint stringify (v : value) : option string :=
  match v with
  | VUndefined => None
  | VNull => Some "null"
  | VBool true => Some "true"
  | VBool false => Some "false"
  | VNum l => Some l
  | VStr s => Some (quote s)
  | VArr xs =>
      Some ("[" ++ Str.join ","
              (map (fun x => match stringify x with Some t => t | None => "null" end) xs)
            ++ "]")
  | VObj fs =>
      Some ("{" ++ Str.join ","
              (flat_map (fun kv =>
                           match kv with
                           | (k, x) =>
                               match stringify x with
                               | Some t => [quote k ++ ":" ++ t]
                               | None => []
                               end
                           end) fs)
            ++ "}")
  end.

(** *** Reading JSON text *)

Definition is_ws (c : ascii) : bool :=
  let n := nat_of_ascii c in
  (n =? 32)%nat || (n =? 9)%nat || (n =? 10)%nat || (n =? 13)%nat.

Fixpoint skip_ws (s : string) : string :=
  match s with
  | String c s' => if is_ws c then skip_ws s' else s
  | EmptyString => EmptyString
  end.

Definition is_digit (c : ascii) : bool :=
  let n := nat_of_ascii c in (48 <=? n)%nat && (n <=? 57)%nat.

(** The number grammar as an automaton: an optional minus sign; a zero,
    or a non-zero digit and more digits; optionally a point and one or
    more digits; optionally an exponent mark, a sign and one or more
    digits. *)
Inductive num_state : Type :=
| NStart | NMinus | NZero | NInt | NDot | NFrac | NE | NESign | NExp.

Definition is_e (c : ascii) : bool := Ascii.eqb c "e" || Ascii.eqb c "E".
Definition is_sign (c : ascii) : bool := Ascii.eqb c "+" || Ascii.eqb c "-".

Definition num_step (st : num_state) (c : ascii) : option num_state :=
  match st with
  | NStart =>
      if Ascii.eqb c "-" then Some NMinus
      else if Ascii.eqb c "0" then Some NZero
      else if is_digit c then Some NInt else None
  | NMinus =>
      if Ascii.eqb c "0" then Some NZero
      else if is_digit c then Some NInt else None
  | NZero =>
      if Ascii.eqb c "." then Some NDot
      else if is_e c then Some NE else None
  | NInt =>
      if is_digit c then Some NInt
      else if Ascii.eqb c "." then Some NDot
      else if is_e c then Some NE else None
  | NDot => if is_digit c then Some NFrac else None
  | NFrac =>
      if is_digit c then Some NFrac
      else if is_e c then Some NE else None
  | NE =>
      if is_sign c then Some NESign
      else if is_digit c then Some NExp else None
  | NESign => if is_digit c then Some NExp else None
  | NExp => if is_digit c then Some NExp else None
  end.

Definition num_final (st : num_state) : bool :=
  match st with
  | NZero | NInt | NFrac | NExp => true
  | _ => false
  end.

(** Reads the longest run the automaton follows; the run must end in a
    final state. *)
Fixpoint scan_num (st : num_state) (s : string) : option (string * string) :=
  match s with
  | String c s' =>
      match num_step st c with
      | Some st' =>
          match scan_num st' s' with
          | Some (l, r) => Some (String c l, r)
          | None => None
          end
      | None => if num_final st then Some (EmptyString, s) else None
      end
  | EmptyString => if num_final st then Some (EmptyString, EmptyString) else None
  end.

Definition scan_number (s : string) : option (string * string) := scan_num NStart s.

(** A numeric literal of JSON. *)
Definition is_number (l : string) : bool :=
  match scan_number l with
  | Some (_, EmptyString) => true
  | _ => false
  end.

Definition hex_value (c : ascii) : option N :=
  let n := N_of_ascii c in
  if (48 <=? n)%N && (n <=? 57)%N then Some (n - 48)%N
  else if (97 <=? n)%N && (n <=? 102)%N then Some (n - 87)%N
  else if (65 <=? n)%N && (n <=? 70)%N then Some (n - 55)%N
  else None.

Definition hex4 (a b c d : ascii) : option N :=
  match hex_value a, hex_value b, hex_value c, hex_value d with
  | Some x, Some y, Some z, Some w => Some (((x * 16 + y) * 16 + z) * 16 + w)%N
  | _, _, _, _ => None
  end.

Definition byte (n : N) : string := String (ascii_of_N n) EmptyString.

(** The UTF-8 bytes of a code point (of a lone surrogate too). *)
Definition utf8 (n : N) : string :=
  if (n <? 128)%N then byte n
  else if (n <? 2048)%N then byte (192 + n / 64) ++ byte (128 + n mod 64)
  else if (n <? 65536)%N
       then byte (224 + n / 4096) ++ byte (128 + (n / 64) mod 64) ++ byte (128 + n mod 64)
  else byte (240 + n / 262144) ++ byte (128 + (n / 4096) mod 64)
       ++ byte (128 + (n / 64) mod 64) ++ byte (128 + n mod 64).

Definition is_high (n : N) : bool := (55296 <=? n)%N && (n <=? 56319)%N.
Definition is_low (n : N) : bool := (56320 <=? n)%N && (n <=? 57343)%N.

(** The low surrogate escape a text starts with, if any. *)
Definition low_escape (s : string) : option N :=
  match s with
  | String b (String u (String h1 (String h2 (String h3 (String h4 _))))) =>
      if Ascii.eqb b bslash && Ascii.eqb u "u"
      then match hex4 h1 h2 h3 h4 with
           | Some lo => if is_low lo then Some lo else None
           | None => None
           end
      else None
  | _ => None
  end.

Definition unescape (e : ascii) : option ascii :=
  if Ascii.eqb e dquote then Some dquote
  else if Ascii.eqb e bslash then Some bslash
  else if Ascii.eqb e "/" then Some "/"%char
  else if Ascii.eqb e "b" then Some (ascii_of_nat 8)
  else if Ascii.eqb e "t" then Some (ascii_of_nat 9)
  else if Ascii.eqb e "n" then Some (ascii_of_nat 10)
  else if Ascii.eqb e "f" then Some (ascii_of_nat 12)
  else if Ascii.eqb e "r" then Some (ascii_of_nat 13)
  else None.

Definition cons_char (c : ascii) (r : option (string * string)) : option (string * string) :=
  match r with
  | Some (t, rest) => Some (String c t, rest)
  | None => None
  end.

Definition cons_text (p : string) (r : option (string * string)) : option (string * string) :=
  match r with
  | Some (t, rest) => Some (p ++ t, rest)
  | None => None
  end.

(** The characters of a string literal after its opening quote, up to the
    closing quote: the text they denote and what follows the literal. *)
Fixpoint parse_chars (s : string) : option (string * string) :=
  match s with
  | EmptyString => None
  | String c r =>
      if Ascii.eqb c dquote then Some (EmptyString, r)
      else if Ascii.eqb c bslash then
        match r with
        | EmptyString => None
        | String e r1 =>
            match unescape e with
            | Some ch => cons_char ch (parse_chars r1)
            | None =>
                if Ascii.eqb e "u" then
                  match r1 with
                  | String h1 (String h2 (String h3 (String h4 r2))) =>
                      match hex4 h1 h2 h3 h4 with
                      | None => None
                      | Some n =>
                          match (if is_high n then low_escape r2 else None), r2 with
                          | Some lo,
                            String _ (String _ (String _ (String _ (String _ (String _ r3))))) =>
                              cons_text
                                (utf8 (65536 + (n - 55296) * 1024 + (lo - 56320))%N)
                                (parse_chars r3)
                          | _, _ => cons_text (utf8 n) (parse_chars r2)
                          end
                      end
                  | _ => None
                  end
                else None
            end
        end
      else if (nat_of_ascii c <? 32)%nat then None
      else cons_char c (parse_chars r)
  end.

(** What follows a literal word, when the text starts with it. *)
Fixpoint strip_prefix (p s : string) : option string :=
  match p, s with
  | EmptyString, _ => Some s
  | String _ _, EmptyString => None
  | String a p', String b s' => if Ascii.eqb a b then strip_prefix p' s' else None
  end.

(** A repeated key keeps its first place and takes its last value. *)
Definition add_member (k : string) (v : value) (rest : list (string * value))
  : list (string * value) :=
  if existsb (fun kv => fst kv =? k) rest
  then (k, lookup k (rev rest)) :: filter (fun kv => negb (fst kv =? k)) rest
  else (k, v) :: rest.

(** Recursive descent; every call spends one unit of [fuel] and reads at
    least one character. *)
Fixpoint parse_value (fuel : nat) (s : string) : option (value * string) :=
  match fuel with
  | O => None
  | S f =>
      match skip_ws s with
      | EmptyString => None
      | String c r =>
          if Ascii.eqb c dquote then
            match parse_chars r with
            | Some (t, r') => Some (VStr t, r')
            | None => None
            end
          else if Ascii.eqb c "[" then
            match skip_ws r with
            | String c' r' =>
                if Ascii.eqb c' "]" then Some (VArr [], r')
                else match parse_elems f r with
                     | Some (xs, r'') => Some (VArr xs, r'')
                     | None => None
                     end
            | EmptyString => None
            end
          else if Ascii.eqb c "{" then
            match skip_ws r with
            | String c' r' =>
                if Ascii.eqb c' "}" then Some (VObj [], r')
                else match parse_members f r with
                     | Some (fs, r'') => Some (VObj fs, r'')
                     | None => None
                     end
            | EmptyString => None
            end
          else if Ascii.eqb c "n" then
            match strip_prefix "null" (String c r) with
            | Some r' => Some (VNull, r')
            | None => None
            end
          else if Ascii.eqb c "t" then
            match strip_prefix "true" (String c r) with
            | Some r' => Some (VBool true, r')
            | None => None
            end
          else if Ascii.eqb c "f" then
            match strip_prefix "false" (String c r) with
            | Some r' => Some (VBool false, r')
            | None => None
            end
          else
            match scan_number (String c r) with
            | Some (l, r') => Some (VNum l, r')
            | None => None
            end
      end
  end

with parse_elems (fuel : nat) (s : string) : option (list value * string) :=
  match fuel with
  | O => None
  | S f =>
      match parse_value f s with
      | Some (v, r) =>
          match skip_ws r with
          | String c r' =>
              if Ascii.eqb c "," then
                match parse_elems f r' with
                | Some (vs, r'') => Some (v :: vs, r'')
                | None => None
                end
              else if Ascii.eqb c "]" then Some ([v], r')
              else None
          | EmptyString => None
          end
      | None => None
      end
  end

with parse_members (fuel : nat) (s : string) : option (list (string * value) * string) :=
  match fuel with
  | O => None
  | S f =>
      match skip_ws s with
      | String q r0 =>
          if Ascii.eqb q dquote then
            match parse_chars r0 with
            | Some (k, r1) =>
                match skip_ws r1 with
                | String c1 r2 =>
                    if Ascii.eqb c1 ":" then
                      match parse_value f r2 with
                      | Some (v, r3) =>
                          match skip_ws r3 with
                          | String c r' =>
                              if Ascii.eqb c "," then
                                match parse_members f r' with
                                | Some (fs, r'') => Some (add_member k v fs, r'')
                                | None => None
                                end
                              else if Ascii.eqb c "}" then Some ([(k, v)], r')
                              else None
                          | EmptyString => None
                          end
                      | None => None
                      end
                    else None
                | EmptyString => None
                end
            | None => None
            end
          else None
      | EmptyString => None
      end
  end.

(** [JSON.parse(text)]; [None] is a SyntaxError.  The fuel is the length
    of the text, which no descent exhausts ([JsonFacts.parse_fuel]). *)
Definition parse (text : string) : option value :=
  match parse_value (S (String.length text)) text with
  | Some (v, r) =>
      match skip_ws r with
      | EmptyString => Some v
      | String _ _ => None
      end
  | None => None
  end.

(** The text of a value where a value must print: [null] stands for
    [undefined]. *)
Definition text (v : value) : string :=
  match stringify v with
  | Some t => t
  | None => "null"
  end.

(** The characters that may continue a numeric literal. *)
Definition num_char (c : ascii) : bool :=
  is_digit c || is_e c || is_sign c || Ascii.eqb c ".".

(** A text before which a numeric literal ends. *)
Definition ends_value (rest : string) : bool :=
  match rest with
  | EmptyString => true
  | String c _ => negb (num_char c)
  end.

(** The characters a value may start with. *)
Definition starts_value (c : ascii) : bool :=
  Ascii.eqb c dquote || Ascii.eqb c "[" || Ascii.eqb c "{" || Ascii.eqb c "n"
  || Ascii.eqb c "t" || Ascii.eqb c "f" || Ascii.eqb c "-" || is_digit c.

(** The calls a descent into a value makes. *)
Fixpoint weight (v : value) : nat :=
  match v with
  | VArr xs => S (fold_right (fun x n => S (weight x + n)) 0 xs)
  | VObj fs => S (fold_right (fun kv n => match kv with (_, x) => S (weight x + n) end) 0 fs)
  | _ => 1
  end.

(** JSON data: what [JSON.parse] can return and [JSON.stringify] prints
    in full.  No [undefined], numbers that are numeric literals, and no
    key twice in an object. *)
Fixpoint distinct (ks : list string) : bool :=
  match ks with
  | [] => true
  | k :: rest => negb (existsb (fun k' => k' =? k) rest) && distinct rest
  end.

Fixpoint is_json (v : value) : bool :=
  match v with
  | VUndefined => false
  | VNull | VBool _ | VStr _ => true
  | VNum l => is_number l
  | VArr xs => forallb is_json xs
  | VObj fs =>
      forallb (fun kv => match kv with (_, x) => is_json x end) fs
      && distinct (map fst fs)
  end.

(** *** What the round trip is stated with *)

(** The weight of the elements of an array and of the members of an
    object, the text of a member, and members that are JSON data. *)
Definition elems_weight (xs : list value) : nat :=
  fold_right (fun x n => S (weight x + n)) 0 xs.

Definition members_weight (fs : list (string * value)) : nat :=
  fold_right (fun kv n => match kv with (_, x) => S (weight x + n) end) 0 fs.

Definition member_text (kv : string * value) : string :=
  quote (fst kv) ++ ":" ++ text (snd kv).

Definition members_json (fs : list (string * value)) : bool :=
  forallb (fun kv => match kv with (_, x) => is_json x end) fs.

(** A value reads back from its text. *)
Definition reads_back (v : value) : Prop :=
  is_json v = true ->
  forall fuel rest, weight v <= fuel -> ends_value rest = true ->
  parse_value fuel (text v ++ rest) = Some (v, rest).

(** What a descent returns with some fuel it returns with any fuel that
    is at least the number of characters it read. *)
Definition adequate (f : nat) : Prop :=
  (forall s v r,
     parse_value f s = Some (v, r) ->
     String.length r < String.length s
     /\ forall f', String.length s - String.length r <= f' ->
                   parse_value f' s = Some (v, r))
  /\ (forall s vs r,
        parse_elems f s = Some (vs, r) ->
        String.length r < String.length s
        /\ forall f', String.length s - String.length r <= f' ->
                      parse_elems f' s = Some (vs, r))
  /\ (forall s fs r,
        parse_members f s = Some (fs, r) ->
        String.length r < String.length s
        /\ forall f', String.length s - String.length r <= f' ->
                      parse_members f' s = Some (fs, r)).

End Json.

(* ================================================================== *)
(** ** Base64, as [Buffer] reads and writes it *)

Module Base64.

(** Six bits, most significant first. *)
Definition sextet : Type := (bool * bool * bool * bool * bool * bool)%type.

Definition bit (b : bool) (w : nat) : nat := if b then w else 0.

Definition index (x : sextet) : nat :=
  match x with
  | (b5, b4, b3, b2, b1, b0) =>
      bit b5 32 + bit b4 16 + bit b3 8 + bit b2 4 + bit b1 2 + bit b0 1
  end.

Definition alphabet : string :=
  "ABCDEFGHIJKLMNOPQRSTUVWXYZabcdefghijklmnopqrstuvwxyz0123456789+/".

Definition digit (x : sextet) : ascii :=
  match String.get (index x) alphabet with
  | Some c => c
  | None => "="%char
  end.

Definition of_index (n : nat) : sextet :=
  (Nat.testbit n 5, Nat.testbit n 4, Nat.testbit n 3,
   Nat.testbit n 2, Nat.testbit n 1, Nat.testbit n 0).

(** The value of a character of the standard or of the URL-safe
    alphabet; [None] for every other character. *)
Definition value_of (c : ascii) : option sextet :=
  let n := nat_of_ascii c in
  if (65 <=? n)%nat && (n <=? 90)%nat then Some (of_index (n - 65))
  else if (97 <=? n)%nat && (n <=? 122)%nat then Some (of_index (n - 71))
  else if (48 <=? n)%nat && (n <=? 57)%nat then Some (of_index (n + 4))
  else if (n =? 43)%nat || (n =? 45)%nat then Some (of_index 62)
  else if (n =? 47)%nat || (n =? 95)%nat then Some (of_index 63)
  else None.

Definition pad : string := "=".

(** [buf.toString('base64')]: three bytes give four digits; one or two
    bytes left over give two or three digits and padding. *)
Fixpoint encode (bytes : string) : string :=
  match bytes with
  | EmptyString => EmptyString
  | String (Ascii a0 a1 a2 a3 a4 a5 a6 a7) EmptyString =>
      String (digit (a7, a6, a5, a4, a3, a2))
        (String (digit (a1, a0, false, false, false, false)) (pad ++ pad))
  | String (Ascii a0 a1 a2 a3 a4 a5 a6 a7)
      (String (Ascii b0 b1 b2 b3 b4 b5 b6 b7) EmptyString) =>
      String (digit (a7, a6, a5, a4, a3, a2))
        (String (digit (a1, a0, b7, b6, b5, b4))
           (String (digit (b3, b2, b1, b0, false, false)) pad))
  | String (Ascii a0 a1 a2 a3 a4 a5 a6 a7)
      (String (Ascii b0 b1 b2 b3 b4 b5 b6 b7)
         (String (Ascii c0 c1 c2 c3 c4 c5 c6 c7) rest)) =>
      String (digit (a7, a6, a5, a4, a3, a2))
        (String (digit (a1, a0, b7, b6, b5, b4))
           (String (digit (b3, b2, b1, b0, c7, c6))
              (String (digit (c5, c4, c3, c2, c1, c0)) (encode rest))))
  end.

(** The digits of a text up to its first padding character; a character
    that is no digit is passed over. *)
Fixpoint digits (s : string) : list sextet :=
  match s with
  | EmptyString => []
  | String c s' =>
      if Ascii.eqb c "=" then []
      else match value_of c with
           | Some x => x :: digits s'
           | None => digits s'
           end
  end.

Fixpoint bytes_of (l : list sextet) : string :=
  match l with
  | (a7, a6, a5, a4, a3, a2) :: (a1, a0, b7, b6, b5, b4)
      :: (b3, b2, b1, b0, c7, c6) :: (c5, c4, c3, c2, c1, c0) :: rest =>
      String (Ascii a0 a1 a2 a3 a4 a5 a6 a7)
        (String (Ascii b0 b1 b2 b3 b4 b5 b6 b7)
           (String (Ascii c0 c1 c2 c3 c4 c5 c6 c7) (bytes_of rest)))
  | [(a7, a6, a5, a4, a3, a2); (a1, a0, b7, b6, b5, b4); (b3, b2, b1, b0, _, _)] =>
      String (Ascii a0 a1 a2 a3 a4 a5 a6 a7)
        (String (Ascii b0 b1 b2 b3 b4 b5 b6 b7) EmptyString)
  | [(a7, a6, a5, a4, a3, a2); (a1, a0, _, _, _, _)] =>
      String (Ascii a0 a1 a2 a3 a4 a5 a6 a7) EmptyString
  | _ => EmptyString
  end.

(** A continuation byte of UTF-8, and the six bits it carries. *)
Definition continuation (c : ascii) : bool :=
  let n := N_of_ascii c in (128 <=? n)%N && (n <? 192)%N.

Definition payload (c : ascii) : N := (N_of_ascii c mod 64)%N.

Definition low_byte (unit : N) : ascii := ascii_of_N (unit mod 256).

(** The UTF-16 code units of a text, each by its low byte, which is all
    that [Buffer.from(text, 'base64')] reads of a code unit.  The text is
    UTF-8: a character of one, two or three bytes is one code unit, a
    character of four bytes is a pair of surrogates; a byte that starts no
    UTF-8 sequence, which no text has, counts as a code unit of its own. *)
Fixpoint low_bytes (text : string) : string :=
  match text with
  | EmptyString => EmptyString
  | String a rest =>
      let n := N_of_ascii a in
      match rest with
      | String b rest1 =>
          if (192 <=? n)%N && (n <? 224)%N && continuation b then
            String (low_byte ((n mod 32) * 64 + payload b)) (low_bytes rest1)
          else
            match rest1 with
            | String c rest2 =>
                if (224 <=? n)%N && (n <? 240)%N && continuation b && continuation c then
                  String (low_byte ((n mod 16) * 4096 + payload b * 64 + payload c))
                    (low_bytes rest2)
                else
                  match rest2 with
                  | String d rest3 =>
                      if (240 <=? n)%N && (n <? 248)%N
                         && continuation b && continuation c && continuation d
                      then
                        let point := ((n mod 8) * 262144 + payload b * 4096
                                      + payload c * 64 + payload d)%N in
                        let high := (55296 + (point - 65536) / 1024)%N in
                        let low := (56320 + (point - 65536) mod 1024)%N in
                        String (low_byte high) (String (low_byte low) (low_bytes rest3))
                      else String a (low_bytes rest)
                  | EmptyString => String a (low_bytes rest)
                  end
            | EmptyString => String a (low_bytes rest)
            end
      | EmptyString => String a EmptyString
      end
  end.

(** [Buffer.from(text, 'base64')]: never an error; the code units of the
    text are read by their low bytes, what is no base64 is dropped and
    decoding stops at the padding. *)
Definition decode (text : string) : string := bytes_of (digits (low_bytes text)).

End Base64.

(* ================================================================== *)
(** ** Errors, outcomes and the console *)

Module Kobp.

Inductive ClientErrorCode : Type := badRequest | notFound.
Inductive ServerErrorCode : Type := badGateway.

(** [KobpError.fromUserInput(code, message)] and
    [KobpError.fromServer(code, message, data?)] of the kobp package. *)
Inductive KobpError : Type :=
| fromUserInput (code : ClientErrorCode) (message : string)
| fromServer (code : ServerErrorCode) (message : string) (data : option string).

(** The error node of an Elasticsearch error response, as far as the
    service reads it: [error.root_cause] is a list of causes, each with a
    [type] and a [reason], and [error.caused_by] is one cause. *)
Record EsCause : Type := { type : option string; reason : option string }.

Record EsErrorNode : Type := {
  root_cause : option (list EsCause);
  caused_by : option EsCause
}.

(** [error.meta] of a client error: the response body as it prints, and
    its [error] node. *)
Record EsMeta : Type := {
  body : Js.value;
  body_error : option EsErrorNode
}.

(** What a call may throw or a promise reject with. *)
Inductive error : Type :=
| Kobp (e : KobpError)
| SyntaxError (message : string)
| TypeError (message : string)
| EngineError (message : string) (meta : option EsMeta).

Definition message_of (e : error) : string :=
  match e with
  | Kobp (fromUserInput _ m) => m
  | Kobp (fromServer _ m _) => m
  | SyntaxError m => m
  | TypeError m => m
  | EngineError m _ => m
  end.

Definition meta_of (e : error) : option EsMeta :=
  match e with
  | EngineError _ m => m
  | _ => None
  end.

Definition is_client_error (e : error) : bool :=
  match e with
  | Kobp (fromUserInput _ _) => true
  | _ => false
  end.

Definition is_server_error (e : error) : bool :=
  match e with
  | Kobp (fromServer _ _ _) => true
  | _ => false
  end.

Inductive outcome (A : Type) : Type :=
| Ok (a : A)
| Throw (e : error).
Arguments Ok {A} a.
Arguments Throw {A} e.

(** One console call: the stream and the arguments printed. *)
Inductive stream : Type := Log | Err.
Definition line : Type := (stream * list string)%type.

(** A computation: the console lines it prints, and how it ends. *)
Definition M (A : Type) : Type := (list line * outcome A)%type.

Definition ret {A : Type} (a : A) : M A := ([], Ok a).
Definition throw {A : Type} (e : error) : M A := ([], Throw e).
Definition lift {A : Type} (o : outcome A) : M A := ([], o).
Definition console_log (args : list string) : M unit := ([(Log, args)], Ok tt).
Definition console_error (args : list string) : M unit := ([(Err, args)], Ok tt).

Definition bind {A B : Type} (m : M A) (k : A -> M B) : M B :=
  match m with
  | (out, Ok a) => let (out', r) := k a in ((out ++ out')%list, r)
  | (out, Throw e) => (out, Throw e)
  end.

(** [try { m } catch (error) { handler(error) }], and [promise.catch(handler)]. *)
Definition catch {A : Type} (m : M A) (handler : error -> M A) : M A :=
  match m with
  | (out, Throw e) => let (out', r) := handler e in ((out ++ out')%list, r)
  | (out, Ok a) => (out, Ok a)
  end.

Definition printed {A : Type} (m : M A) : list line := fst m.
Definition result {A : Type} (m : M A) : outcome A := snd m.

End Kobp.

Notation "x <- m ;; k" := (Kobp.bind m (fun x => k))
  (at level 61, m at next level, right associativity).
Notation "m ;;; k" := (Kobp.bind m (fun _ => k))
  (at level 61, right associativity).

(* ================================================================== *)
(** ** The service *)

Module Es.
Import Js Kobp.

Definition PRODUCT_INDEX : string := "products".
Definition BRAND_INDEX : string := "brands".
Definition POPULAR_TERMS_INDEX : string := "queryterms".
Definition BOOSTED_TERMS_INDEX : string := "boostedterms".

(** [ScopeOption] is declared in logic/SearchManager, outside the source
    tree; these are the three properties the service reads from it. *)
Record ScopeOption : Type := {
  brandId : option string;
  category : option string;
  mallId : option string
}.

(** [ListProductsOptions extends ScopeOption]; the numeric options are
    integers. *)
Record ListProductsOptions : Type := {
  scope :> ScopeOption;
  keyword : option string;
  nextToken : option string;
  size : Z;
  categories : option (list string);
  minPrice : option Z;
  maxPrice : option Z;
  brands : option (list string);
  sortBy : option string;
  skus : option (list string);
  checkStatus : option bool;
  color : option (list string);
  pageSize : option Z
}.

(** *** The response of a search *)

(** A hit: [item._source], and [item.sort] ([undefined] when absent). *)
Record Hit : Type := { _source : Js.value; sort : Js.value }.

(** [hits.total]. *)
Record Totals : Type := { total_value : option Z; relation : option string }.

Record Bucket : Type := { key : string; doc_count : Z }.

(** [ProductListAggregrationResult]; a facet the request left out has no
    buckets in the response. *)
Module Agg.
Record t : Type := {
  priceMin : Js.value;
  priceMax : Js.value;
  brands : option (list Bucket);
  categorySlugs : option (list Bucket);
  colorSwatch : option (list Bucket)
}.
End Agg.

(** [ProductListSuggestResult]: each channel is a list of entries, and an
    entry is the list of its options, each read through its title in the
    channel's language. *)
Record ProductListSuggestResult : Type := {
  suggestionEn : list (list string);
  suggestionTh : list (list string)
}.

(** [BrandListSuggestResult]: an option is read through its brand id. *)
Record BrandListSuggestResult : Type := { suggestion : list (list string) }.

(** The body of a search response, for a suggest block of type [S]. *)
Record SearchBody (S : Type) : Type := {
  hits : option (list Hit);
  total : option Totals;
  aggregations : option Agg.t;
  suggest : option S
}.
Arguments hits {S} _.
Arguments total {S} _.
Arguments aggregations {S} _.
Arguments suggest {S} _.

(** *** The results *)

Record Total : Type := { value : Z; isEstimate : bool }.

Record Lang : Type := { en : option string; th : option string }.
Record Swatch : Type := { code : option string; label : Lang }.

(** [FilterableAttribute]. *)
Module Facets.
Record Price : Type := { priceMin : Js.value; priceMax : Js.value }.

(** Brands are (brandId, count) pairs and categories (slug, count) pairs. *)
Record t : Type := {
  brands : list (string * Z);
  categories : list (string * Z);
  price : Price;
  colorSwatch : list Swatch
}.
End Facets.

Module Products.
Record ListProductsResult (I : Type) : Type := {
  items : list I;
  nextToken : option string;
  total : Total;
  filterableAttributes : Facets.t;
  suggestionProduct : list string
}.
Arguments items {I} _.
Arguments nextToken {I} _.
Arguments total {I} _.
Arguments filterableAttributes {I} _.
Arguments suggestionProduct {I} _.
End Products.

Module Brands.
Record ListBrandsResult (I B : Type) : Type := {
  items : list I;
  nextToken : option string;
  total : Total;
  suggestionBrand : list B
}.
Arguments items {I B} _.
Arguments nextToken {I B} _.
Arguments total {I B} _.
Arguments suggestionBrand {I B} _.
End Brands.

(** *** Error handling (lines 156-186) *)

Definition undefined_text (o : option string) : string :=
  match o with
  | Some t => t
  | None => "undefined"
  end.

Definition _logElasticSearchError (error : error) : M unit :=
  match meta_of error with
  | Some meta => console_error ["ES ERR"; undefined_text (Json.stringify (body meta))]
  | None => ret tt
  end.

(** [[o.type, o.reason].filter(Boolean).join(': ')]. *)
Definition typeWithReason (o : EsCause) : string :=
  Str.join ": "
    (flat_map (fun x => if truthy_str x then [undefined_text x] else [])
       [type o; reason o]).

Definition _normalizeESErrorMessage (error : error) : string :=
  let normalizedErrorMessage := message_of error in
  match meta_of error with
  | Some meta =>
      match body_error meta with
      | Some esErrorNode =>
          match root_cause esErrorNode with
          | Some causes => Str.join ", " (map typeWithReason causes)
          | None =>
              match caused_by esErrorNode with
              | Some cause =>
                  if typeWithReason cause =? "" then normalizedErrorMessage
                  else typeWithReason cause
              | None => normalizedErrorMessage
              end
          end
      | None => normalizedErrorMessage
      end
  | None => normalizedErrorMessage
  end.

(** The error [_throwElasticSearchError] throws for [error]. *)
Definition gatewayError (error : error) : Kobp.error :=
  Kobp (fromServer badGateway "ElasticSearch encountered an error"
          (Some (_normalizeESErrorMessage error))).

Definition _throwElasticSearchError {A : Type} (error : error) : M A :=
  _logElasticSearchError error ;;;
  throw (gatewayError error).

(** How [try { ... } catch (error) { _throwElasticSearchError(error) }]
    ends, for the way its body ends. *)
Definition wrapped {A : Type} (o : outcome A) : outcome A :=
  match o with
  | Ok a => Ok a
  | Throw e => Throw (gatewayError e)
  end.

(** *** Scopes (lines 897-906) *)

Definition fromScopeToDomain (scope : ScopeOption) : string :=
  let dg_ds :=
    match brandId scope with
    | Some b => if truthy_str (brandId scope) then ("brand", b) else ("global", "")
    | None => ("global", "")
    end in
  Str.join ":" (filter (fun t => negb (t =? "")) [fst dg_ds; snd dg_ds]).

(** *** The cursor (lines 718 and 738) *)

(** [Buffer.from(JSON.stringify(sort), 'utf8').toString('base64') || null];
    [Buffer.from(undefined)] is a TypeError. *)
Definition encodeCursor (sortKeys : Js.value) : outcome (option string) :=
  match Json.stringify sortKeys with
  | Some text =>
      let token := Base64.encode text in
      Ok (if token =? "" then None else Some token)
  | None => Throw (TypeError "The first argument must be of type string")
  end.

(** *** Clauses of the query (lines 494-646) *)

Definition nested_match (path field text : string) : Js.value :=
  obj1 "nested"
    (VObj [("path", VStr path);
           ("query", obj1 "bool" (obj1 "must" (obj1 "match" (obj1 field (VStr text)))))]).

Definition any_of (clauses : list Js.value) : Js.value :=
  obj1 "bool" (VObj [("should", VArr clauses); ("minimum_should_match", num 1)]).

(** A facet: the terms aggregation on a field, largest bucket first. *)
Definition terms_facet (field : string) : Js.value :=
  obj1 "terms" (VObj [("field", VStr field); ("order", obj1 "_count" (VStr "desc"))]).

Definition terms_agg (name field : string) : list (string * Js.value) :=
  [(name, terms_facet field)].

Definition completion (prefix field : string) : Js.value :=
  VObj [("prefix", VStr prefix);
        ("completion", VObj [("field", VStr field); ("size", num 5)])].

Definition range (bound : string) (limit : Js.value) : Js.value :=
  obj1 "range" (obj1 "actualMinPrice" (obj1 bound limit)).

Definition term (field text : string) : Js.value := obj1 "term" (obj1 field (VStr text)).

Definition terms (field : string) (texts : list string) : Js.value :=
  obj1 "terms" (obj1 field (VArr (map VStr texts))).

(** Reading a compiled request: the three sections of its boolean query,
    its sort directive and its aggregations. *)
Definition should_of (requestBody : Js.value) : list Js.value :=
  elements (get ["query"; "bool"; "should"] requestBody).
Definition must_of (requestBody : Js.value) : list Js.value :=
  elements (get ["query"; "bool"; "must"] requestBody).
Definition filters_of (requestBody : Js.value) : list Js.value :=
  elements (get ["query"; "bool"; "filter"] requestBody).
Definition sort_of (requestBody : Js.value) : list Js.value :=
  elements (field "sort" requestBody).
Definition aggs_of (requestBody : Js.value) : Js.value := field "aggs" requestBody.

Definition is_range (clause : Js.value) : bool := has_key "range" clause.

(** Options that ask for no keyword and no filter. *)
Definition no_criteria (options : ListProductsOptions) : bool :=
  negb (truthy_list (skus options))
  && negb (truthy_str (keyword options))
  && negb (truthy_list (categories options))
  && negb (truthy_list (color options))
  && negb (truthy_num (minPrice options) || truthy_num (maxPrice options))
  && negb (truthy_str (mallId options))
  && negb (truthy_str (brandId options))
  && negb (truthy_str (category options))
  && negb (truthy_list (brands options)).

(** The hit callback of [listProducts] (lines 730-741) and of
    [listBrands] (lines 862-873), which differ in the item they return:
    [index] is the position of the head of [arr] in the page, [len] the
    length of the page and [nextToken] the variable the callback
    assigns. *)
Fixpoint mapHits {I : Type} (toItem : Hit -> I) (size : Z) (len : nat) (index : nat)
  (arr : list Hit) (nextToken : option string) : outcome (list I * option string) :=
  match arr with
  | [] => Ok ([], nextToken)
  | item :: rest =>
      let continue (token : option string) :=
        match mapHits toItem size len (S index) rest token with
        | Ok (items, token') => Ok (toItem item :: items, token')
        | Throw e => Throw e
        end in
      if (Z.of_nat index =? Z.of_nat len - 1)%Z && (Z.of_nat len =? size)%Z then
        if negb (truthy (sort item)) then
          Throw (Kobp (fromServer badGateway "Sort is missing from query result!" None))
        else
          match encodeCursor (sort item) with
          | Ok token => continue token
          | Throw e => Throw e
          end
      else continue nextToken
  end.

(** [totals && totals.value || items.length] and
    [totals && totals?.relation !== 'eq'], for [totals] the reported total
    or the empty object. *)
Definition totalOf (totals : option Totals) (count : nat) : Total :=
  {| value :=
       match totals with
       | Some t => if truthy_num (total_value t) then
                     match total_value t with Some v => v | None => Z.of_nat count end
                   else Z.of_nat count
       | None => Z.of_nat count
       end;
     isEstimate :=
       match totals with
       | Some t => match relation t with
                   | Some r => negb (r =? "eq")
                   | None => true
                   end
       | None => true
       end |}.

(** The colour swatch of a bucket (lines 763-771). *)
Definition swatchOf (o : Bucket) : Swatch :=
  let colorLabel := Str.split "__" (key o) in
  {| code := nth_error colorLabel 0;
     label := {| en := nth_error colorLabel 1; th := nth_error colorLabel 2 |} |}.

(** [xs[0]] where the property that follows is read without a guard. *)
Definition first {A : Type} (xs : list A) : outcome A :=
  match xs with
  | x :: _ => Ok x
  | [] => Throw (TypeError "Cannot read properties of undefined (reading 'options')")
  end.

(** The suggestions of a product search (lines 774-777). *)
Definition suggestionsOf (suggestions : option ProductListSuggestResult)
  : outcome (list string) :=
  match suggestions with
  | Some s =>
      match first (suggestionEn s) with
      | Ok optionsEn =>
          if negb (Nat.eqb (List.length optionsEn) 0) then Ok optionsEn
          else first (suggestionTh s)
      | Throw e => Throw e
      end
  | None => Ok []
  end.

(** The facets of a product search (lines 746-773). *)
Definition facetsOf (aggregrations : option Agg.t) : Facets.t :=
  match aggregrations with
  | Some a =>
      {| Facets.brands := map (fun o => (key o, doc_count o)) (elems_of (Agg.brands a));
         Facets.categories :=
           map (fun o => (key o, doc_count o)) (elems_of (Agg.categorySlugs a));
         Facets.price :=
           {| Facets.priceMax := Agg.priceMax a; Facets.priceMin := Agg.priceMin a |};
         Facets.colorSwatch := map swatchOf (elems_of (Agg.colorSwatch a)) |}
  | None =>
      {| Facets.brands := [];
         Facets.categories := [];
         Facets.price := {| Facets.priceMax := num 999999; Facets.priceMin := num 0 |};
         Facets.colorSwatch := [] |}
  end.

(** *** Sorting (lines 647-663) *)

Definition sortField (sortBy : string) : outcome string :=
  if Str.test_i "createdAt" sortBy then Ok "createdAt"
  else if Str.test_i "price" sortBy then Ok "actualMinPrice"
  else if Str.test_i "discountPercent" sortBy then Ok "discountPercent"
  else if Str.test_i "id" sortBy then Ok "id"
  else Throw (Kobp (fromUserInput badRequest ("Unknown sort by option: " ++ sortBy))).

Definition sortNodeOf (options : ListProductsOptions) : outcome (list Js.value) :=
  let relevance := [obj1 "_score" (VStr "desc")] in
  let tiebreak := [obj1 "id" (VStr "asc")] in
  match sortBy options with
  | Some token =>
      if truthy_str (sortBy options) then
        let sortDir := if Str.charAt0_is "-" token then "desc" else "asc" in
        match sortField token with
        | Ok field => Ok (relevance ++ [obj1 field (VStr sortDir)] ++ tiebreak)%list
        | Throw e => Throw e
        end
      else Ok (relevance ++ tiebreak)%list
  | None => Ok (relevance ++ tiebreak)%list
  end.

(** *** Aggregations (lines 606-642 and 700-715) *)

Definition aggBrandIdOf (options : ListProductsOptions) : list (string * Js.value) :=
  if truthy_str (brandId options) then [] else terms_agg "brands" "annotatedBrand".

Definition aggCategoryOf (options : ListProductsOptions) : list (string * Js.value) :=
  if truthy_str (category options) then [] else terms_agg "categorySlugs" "categorySlugs".

Definition aggColorSwatchOf (filterableAttributeSlugs : list string)
  : list (string * Js.value) :=
  if existsb (fun slug => slug =? "colorSwatch") filterableAttributeSlugs
  then terms_agg "colorSwatch" "colorSlugs"
  else [].

Definition aggsOf (options : ListProductsOptions) (filterableAttributeSlugs : list string)
  : Js.value :=
  VObj (aggBrandIdOf options
        ++ [("priceMax", obj1 "max" (obj1 "field" (VStr "priceMax")));
            ("priceMin", obj1 "min" (obj1 "field" (VStr "priceMin")))]
        ++ aggCategoryOf options
        ++ aggColorSwatchOf filterableAttributeSlugs)%list.

Section Service.

(** The collaborators of the service. *)

(** [String.prototype.toLowerCase]. *)
Variable toLowerCase : string -> string.
(** [createHash('md5').update(text).digest('base64')]. *)
Variable md5_base64 : string -> string.
(** The message of the SyntaxError [JSON.parse] throws on a text. *)
Variable syntaxErrorMessage : string -> string.
(** cerialize's [Deserialize(doc, ProductModel)]. *)
Variable ProductModel : Type.
Variable Deserialize : Js.value -> ProductModel.
(** [DI.em.find(BrandEntity, { id: ids }, ...)]. *)
Variable BrandEntity : Type.
Variable em_find : list string -> outcome (list BrandEntity).
(** [this._client]: [update], and [search] on the products and on the
    brands index; each answers a request or rejects it. *)
Variable client_update : Js.value -> outcome unit.
Variable client_search : Js.value -> outcome (SearchBody ProductListSuggestResult).
Variable client_search_brands : Js.value -> outcome (SearchBody BrandListSuggestResult).

(** [JSON.parse(Buffer.from(token, 'base64').toString('utf8'))]. *)
Definition decodeCursor (token : string) : outcome Js.value :=
  let text := Base64.decode token in
  match Json.parse text with
  | Some v => Ok v
  | None => Throw (SyntaxError (syntaxErrorMessage text))
  end.

(** **** Term tracking (lines 208-258) *)

(** The argument of [this._client.update] at line 212. *)
Definition trackRequest (scope : ScopeOption) (typed : string) : Js.value :=
  let domain := fromScopeToDomain scope in
  let id := md5_base64 (toLowerCase (domain ++ "/" ++ typed)) in
  VObj [("index", VStr POPULAR_TERMS_INDEX);
        ("id", VStr id);
        ("body",
         VObj [("script", obj1 "source" (VStr "ctx._source.hit+=1"));
               ("upsert",
                VObj [("q", VStr (toLowerCase typed));
                      ("domain", VStr domain);
                      ("hit", num 1)])]);
        ("retry_on_conflict", num 3)].

Definition trackUserSearchedKeywords (scope : ScopeOption) (typed : string) : M unit :=
  catch (lift (client_update (trackRequest scope typed))) _logElasticSearchError.

(** The argument of [this._client.update] at line 240. *)
Definition boostRequest (scope : ScopeOption) (keyword : string) (score : Z) : Js.value :=
  let domain := fromScopeToDomain scope in
  let id := md5_base64 (toLowerCase (domain ++ "/" ++ keyword)) in
  VObj [("index", VStr BOOSTED_TERMS_INDEX);
        ("id", VStr id);
        ("body",
         VObj [("script",
                VObj [("source", VStr "ctx._source.score = params.score;");
                      ("params", obj1 "score" (num score))]);
               ("upsert",
                VObj [("q", VStr (toLowerCase keyword));
                      ("domain", VStr domain);
                      ("score", num score)])]);
        ("retry_on_conflict", num 3)].

Definition updateDomainBoostedKeywords (scope : ScopeOption) (keyword : string)
  (score : Z) : M unit :=
  console_log ["DOMAIN"; fromScopeToDomain scope] ;;;
  catch (lift (client_update (boostRequest scope keyword score)))
    _throwElasticSearchError.

(** **** The query of a product search (lines 485-689) *)

(** The clauses pushed on [queryMust]: SKUs, colours, price range. *)
Definition queryMustOf (options : ListProductsOptions) : list Js.value :=
  ((if truthy_list (skus options)
    then [any_of (flat_map
                    (fun item =>
                       [nested_match "byStore" "byStore.sku" (toLowerCase item);
                        nested_match "byStore.children" "byStore.children.sku"
                          (toLowerCase item)])
                    (elems_of (skus options)))]
    else [])
   ++ (if truthy_list (color options)
       then [any_of (map (fun item => obj1 "match" (obj1 "colorSwatchs" (VStr item)))
                       (elems_of (color options)))]
       else [])
   ++ (if truthy_num (minPrice options) || truthy_num (maxPrice options)
       then [range "gte" (of_opt_num (minPrice options));
             range "lte" (of_opt_num (maxPrice options))]
       else []))%list.

(** The clauses pushed on [queryShould]: keyword, categories. *)
Definition queryShouldOf (options : ListProductsOptions) : list Js.value :=
  ((match keyword options with
    | Some k =>
        if truthy_str (keyword options)
        then [obj1 "match_phrase_prefix" (obj1 "title.th" (VStr k));
              obj1 "match_phrase_prefix" (obj1 "title.en" (VStr k))]
        else []
    | None => []
    end)
   ++ (if truthy_list (categories options)
       then map (fun item => obj1 "match" (obj1 "categorySlugs" (VStr item)))
              (elems_of (categories options))
       else []))%list.

(** The clauses pushed on [queryBoolFilters]: mall, brand pin, category
    pin, brand set. *)
Definition queryBoolFiltersOf (options : ListProductsOptions) : list Js.value :=
  ((match mallId options with
    | Some m =>
        if truthy_str (mallId options)
        then [obj1 "nested"
                (VObj [("path", VStr "byStore");
                       ("query",
                        obj1 "bool"
                          (obj1 "must" (obj1 "match" (obj1 "byStore.mallId" (VStr m)))))])]
        else []
    | None => []
    end)
   ++ (match brandId options with
       | Some b => if truthy_str (brandId options) then [term "annotatedBrand" b] else []
       | None => []
       end)
   ++ (match category options with
       | Some c => if truthy_str (category options) then [term "categorySlugs" c] else []
       | None => []
       end)
   ++ (if truthy_list (brands options)
       then [terms "annotatedBrand" (elems_of (brands options))]
       else []))%list.

Definition suggestProductsOf (options : ListProductsOptions) : Js.value :=
  match keyword options with
  | Some k =>
      if truthy_str (keyword options)
      then VObj [("suggestionEn", completion k "titleSuggest.en");
                 ("suggestionTh", completion k "titleSuggest.th")]
      else VObj []
  | None => VObj []
  end.

Definition nonempty {A : Type} (xs : list A) : bool :=
  match xs with
  | [] => false
  | _ :: _ => true
  end.

Definition queryNodeOf (options : ListProductsOptions) : Js.value :=
  let queryShould := queryShouldOf options in
  let queryMust := queryMustOf options in
  let queryBoolFilters := queryBoolFiltersOf options in
  let queryBoolNode :=
    VObj (spread_when (nonempty queryShould)
            [("should", VArr queryShould); ("minimum_should_match", num 1)]
          ++ spread_when (nonempty queryMust) [("must", VArr queryMust)]
          ++ spread_when (nonempty queryBoolFilters) [("filter", VArr queryBoolFilters)])%list in
  if isEmpty queryBoolNode
  then obj1 "query_string" (obj1 "query" (VStr "*"))
  else obj1 "bool" queryBoolNode.

(** [requestBody] as line 690 declares it. *)
Definition requestBodyOf (options : ListProductsOptions)
  (filterableAttributeSlugs : list string) (sortNode : list Js.value) : Js.value :=
  let suggestProducts := suggestProductsOf options in
  VObj ([("size", num (size options)); ("query", queryNodeOf options)]
        ++ spread_when (negb (isEmpty suggestProducts)) [("suggest", suggestProducts)]
        ++ [("sort", VArr sortNode); ("aggs", aggsOf options filterableAttributeSlugs)])%list.

(** [o[k] = v] on an object that has no property [k] yet. *)
Definition set_new (k : string) (v : Js.value) (o : Js.value) : Js.value :=
  match o with
  | VObj fs => VObj (fs ++ [(k, v)])%list
  | _ => o
  end.

(** The request of a product search: the sort directive may throw, then
    the cursor (lines 648-719). *)
Definition compileRequest (options : ListProductsOptions)
  (filterableAttributeSlugs : list string) : outcome Js.value :=
  match sortNodeOf options with
  | Ok sortNode =>
      let requestBody := requestBodyOf options filterableAttributeSlugs sortNode in
      match nextToken options with
      | Some token =>
          if truthy_str (nextToken options) then
            match decodeCursor token with
            | Ok searchAfter => Ok (set_new "search_after" searchAfter requestBody)
            | Throw e => Throw e
            end
          else Ok requestBody
      | None => Ok requestBody
      end
  | Throw e => Throw e
  end.

(** **** [listProducts] (lines 482-792) *)

(** The argument of [this._client.search] at line 721. *)
Definition searchRequest (requestBody : Js.value) : Js.value :=
  VObj [("index", VStr PRODUCT_INDEX); ("body", requestBody)].

Definition listProducts (options : ListProductsOptions)
  (filterableAttributeSlugs : list string)
  : M (Products.ListProductsResult ProductModel) :=
  catch
    (requestBody <- lift (compileRequest options filterableAttributeSlugs) ;;
     console_log [undefined_text (Json.stringify requestBody); " requestBody2"] ;;;
     body <- lift (client_search (searchRequest requestBody)) ;;
     let hits := elems_of (hits body) in
     let totals := total body in
     mapped <- lift (mapHits (fun item => Deserialize (_source item))
                       (size options) (List.length hits) 0 hits None) ;;
     let filterableAttributes := facetsOf (aggregations body) in
     suggestionProduct <- lift (suggestionsOf (suggest body)) ;;
     ret {| Products.nextToken := snd mapped;
            Products.total := totalOf totals (List.length (fst mapped));
            Products.filterableAttributes := filterableAttributes;
            Products.suggestionProduct := suggestionProduct;
            Products.items := fst mapped |})
    _throwElasticSearchError.

(** **** [listBrands] (lines 799-895) *)

Definition brandRequestOf (options : ListProductsOptions) (searchAfter : Js.value)
  : Js.value :=
  let queryMatch :=
    match keyword options with
    | Some k =>
        if truthy_str (keyword options)
        then obj1 "match_phrase_prefix" (obj1 "title" (VStr k))
        else obj1 "match_all" (VObj [])
    | None => obj1 "match_all" (VObj [])
    end in
  let suggestMatch :=
    match keyword options with
    | Some k =>
        if truthy_str (keyword options)
        then obj1 "suggestion" (completion k "titleSuggest")
        else VObj []
    | None => VObj []
    end in
  VObj [("index", VStr BRAND_INDEX);
        ("body",
         VObj ([("size", num 24)]
               ++ spread_when (truthy queryMatch && negb (isEmpty queryMatch))
                    [("query", queryMatch)]
               ++ spread_when (truthy suggestMatch && negb (isEmpty suggestMatch))
                    [("suggest", suggestMatch)]
               ++ [("sort", VArr [obj1 "_score" (VStr "desc"); obj1 "id" (VStr "asc")])]
               ++ spread_when (truthy searchAfter && negb (isEmpty searchAfter))
                    [("search_after", searchAfter)])%list)].

Definition brandSuggestionsOf (suggestions : option BrandListSuggestResult)
  : outcome (list string) :=
  match suggestions with
  | Some s => first (suggestion s)
  | None => Ok []
  end.

(** [searchAfter] (lines 803 and 825-827): the empty object, or the
    decoded cursor. *)
Definition brandCursor (options : ListProductsOptions) : outcome Js.value :=
  match nextToken options with
  | Some token =>
      if truthy_str (nextToken options) then decodeCursor token else Ok (VObj [])
  | None => Ok (VObj [])
  end.

Definition listBrands (options : ListProductsOptions)
  : M (Brands.ListBrandsResult Js.value BrandEntity) :=
  catch
    (searchAfter <- lift (brandCursor options) ;;
     let requestBody := brandRequestOf options searchAfter in
     body <- lift (client_search_brands requestBody) ;;
     let hits := elems_of (hits body) in
     let totals := total body in
     mapped <- lift (mapHits (fun item => _source item)
                       (size options) (List.length hits) 0 hits None) ;;
     suggestion <- lift (brandSuggestionsOf (suggest body)) ;;
     brandsList <- lift (em_find suggestion) ;;
     ret {| Brands.nextToken := snd mapped;
            Brands.total := totalOf totals (List.length (fst mapped));
            Brands.suggestionBrand := brandsList;
            Brands.items := fst mapped |})
    _throwElasticSearchError.

End Service.

(** *** Supported indices (lines 30 and 83-85) *)

Definition ALL_INDICES : list string := ["products"; "queryterms"; "boostedterms"].

(** [xs.findIndex(p)], counting from [i]: the position of the first
    element [p] accepts, or -1. *)
Fixpoint findIndex_from {A : Type} (i : Z) (p : A -> bool) (xs : list A) : Z :=
  match xs with
  | [] => (-1)%Z
  | x :: rest => if p x then i else findIndex_from (i + 1)%Z p rest
  end.

Definition findIndex {A : Type} (p : A -> bool) (xs : list A) : Z := findIndex_from 0%Z p xs.

Definition isSupportedIndex (o : string) : bool :=
  Z.geb (findIndex (fun k => k =? o) ALL_INDICES) 0.

(** *** Untyped reads *)

Definition and_then {A B : Type} (o : outcome A) (k : A -> outcome B) : outcome B :=
  match o with
  | Ok a => k a
  | Throw e => Throw e
  end.

Definition nullish (v : Js.value) : bool :=
  match v with
  | VUndefined | VNull => true
  | _ => false
  end.

Definition cannot_read (v : Js.value) (k : string) : error :=
  TypeError ("Cannot read properties of "
             ++ (match v with VNull => "null" | _ => "undefined" end)
             ++ " (reading '" ++ k ++ "')").

(** [v.k], for the property names the service reads from a document or a
    response ([_source], [q], [sku], [id], [indexId], [update], [error]),
    none of which an array or a primitive has: a TypeError on [undefined]
    and on [null]. *)
Definition prop (k : string) (v : Js.value) : outcome Js.value :=
  match v with
  | VUndefined | VNull => Throw (cannot_read v k)
  | VObj fs => Ok (lookup k fs)
  | _ => Ok VUndefined
  end.

(** lodash's [get(o, path, defaultValue)]: the default stands in for
    [undefined] only. *)
Definition get_or (path : list string) (defaultValue : Js.value) (o : Js.value)
  : Js.value :=
  match get path o with
  | VUndefined => defaultValue
  | v => v
  end.

(** [a || b]. *)
Definition or_else (a b : Js.value) : Js.value := if truthy a then a else b.

(** [xs.map(f)] for a callback that may throw. *)
Fixpoint mapM {A B : Type} (f : A -> outcome B) (xs : list A) : outcome (list B) :=
  match xs with
  | [] => Ok []
  | x :: rest =>
      and_then (f x) (fun y => and_then (mapM f rest) (fun ys => Ok (y :: ys)))
  end.

(** [arr.map(f)] on a value named [name] in the source: only an array has
    a [map]. *)
Definition array_map (name : string) (f : Js.value -> outcome Js.value) (arr : Js.value)
  : outcome (list Js.value) :=
  match arr with
  | VArr xs => mapM f xs
  | VUndefined | VNull => Throw (cannot_read arr "map")
  | _ => Throw (TypeError (name ++ ".map is not a function"))
  end.

(** *** Terms (lines 260-392) *)

Inductive TermIndex : Type := queryterms | boostedterms.

Definition index_name (index : TermIndex) : string :=
  match index with
  | queryterms => "queryterms"
  | boostedterms => "boostedterms"
  end.

(** The argument of [this._client.search] at line 262. *)
Definition boostedKeywordsRequest (scope : ScopeOption) : Js.value :=
  let domain := fromScopeToDomain scope in
  VObj [("index", VStr BOOSTED_TERMS_INDEX);
        ("body",
         VObj [("size", num 1000);
               ("query", obj1 "bool" (obj1 "filter" (VArr [term "domain" domain])))])].

(** [sortNode] of [_queryTerms] (lines 296-309). *)
Definition termsSortNode (index : TermIndex) : list Js.value :=
  ([obj1 "_score" (VStr "desc")]
   ++ match index with
      | boostedterms => [obj1 "score" (VStr "desc")]
      | queryterms => [obj1 "hit" (VStr "desc")]
      end)%list.

(** The argument of [this._client.search] at line 311. *)
Definition termsRequest (index : TermIndex) (scope : ScopeOption) (typed : option string)
  : Js.value :=
  let domain := fromScopeToDomain scope in
  let sortNode := termsSortNode index in
  VObj [("index", VStr (index_name index));
        ("body",
         VObj ([("size", num 10);
                ("query",
                 obj1 "bool"
                   (VObj [("should",
                           VArr (filter truthy
                                   [match typed with
                                    | Some t => if truthy_str typed then term "q" t
                                                else VUndefined
                                    | None => VUndefined
                                    end]));
                          ("filter", VArr [term "domain" domain])]))]
               ++ spread_when (nonempty sortNode) [("sort", VArr sortNode)])%list)].

(** The argument of [this._client.deleteByQuery] at line 371, for the
    keywords the loop of line 355 walks. *)
Definition deleteTermsRequest (index : TermIndex) (scope : ScopeOption)
  (keywords : list string) : Js.value :=
  let domain := fromScopeToDomain scope in
  let queryMatch := map (fun k => obj1 "match" (obj1 "q" (VStr k))) keywords in
  let queryMust := [obj1 "bool" (obj1 "should" (VArr queryMatch));
                    obj1 "match" (obj1 "domain" (VStr domain))] in
  VObj [("index", VStr (index_name index));
        ("body",
         obj1 "query"
           (obj1 "bool" (VObj (spread_when (nonempty queryMust) [("must", VArr queryMust)]))))].

Section Terms.

(** [this._client.search] and [this._client.deleteByQuery]: each answers
    with the body of its response, or rejects. *)
Variable client_search_terms : Js.value -> outcome Js.value.
Variable client_deleteByQuery : Js.value -> outcome Js.value.

(** [getDomainBoostedKeywords] (lines 260-277); [result.body] is the
    answer of the search. *)
Definition getDomainBoostedKeywords (scope : ScopeOption) : M (list Js.value) :=
  body <- catch (lift (client_search_terms (boostedKeywordsRequest scope)))
            _throwElasticSearchError ;;
  let arr := get_or ["hits"; "hits"] (VArr []) body in
  lift (array_map "arr" (prop "_source") arr).

(** [_queryTerms] (lines 294-339). *)
Definition _queryTerms (index : TermIndex) (scope : ScopeOption) (typed : option string)
  : M (list Js.value) :=
  catch
    (body <- lift (client_search_terms (termsRequest index scope typed)) ;;
     let hits := or_else (get ["hits"; "hits"] body) (VArr []) in
     console_log ["Body"; undefined_text (Json.stringify hits)] ;;;
     lift (array_map "hits" (fun o => and_then (prop "_source" o) (prop "q")) hits))
    _throwElasticSearchError.

Definition popularTerms (scope : ScopeOption) (typed : option string)
  : M (list Js.value) :=
  _queryTerms queryterms scope typed.

Definition boostedTerms (scope : ScopeOption) (typed : option string)
  : M (list Js.value) :=
  _queryTerms boostedterms scope typed.

(** [_deleteTerms] (lines 349-392). *)
Definition _deleteTerms (index : TermIndex) (scope : ScopeOption)
  (keywords : option (list string)) : M Js.value :=
  catch
    (if truthy_list keywords then
       body <- lift (client_deleteByQuery
                       (deleteTermsRequest index scope (elems_of keywords))) ;;
       ret (or_else (get ["deleted"] body) (num 0))
     else ret (num 0))
    _throwElasticSearchError.

Definition deletePopularTerms (scope : ScopeOption) (keywords : option (list string))
  : M Js.value :=
  _deleteTerms queryterms scope keywords.

Definition deleteBoostedTerms (scope : ScopeOption) (keywords : option (list string))
  : M Js.value :=
  _deleteTerms boostedterms scope keywords.

End Terms.

(** *** Bulk updates (lines 398-473 and 933-1076) *)

(** The two lines of one document in the body of a bulk request: the
    action, and the scripted update with the document as its parameters. *)
Definition updateAction (id : Js.value) (index : string) : Js.value :=
  obj1 "update" (VObj [("_id", id); ("_index", VStr index)]).

Definition painless (source : string) (params : Js.value) : Js.value :=
  VObj [("source", VStr source); ("lang", VStr "painless"); ("params", params)].

(** The callback of [flatMap] at lines 400-418 and 440-459, after the
    serialization: [idKey] is [sku] for a product and [id] for a brand. *)
Definition upsertLines (idKey index script : string) (rawDoc : Js.value)
  : outcome (list Js.value) :=
  and_then (prop idKey rawDoc)
    (fun id =>
       Ok [updateAction id index;
           VObj [("script", painless script rawDoc); ("upsert", rawDoc)]]).

(** The callback of [flatMap] in the five stock methods. *)
Definition stockLines (script : string) (doc : Js.value) : outcome (list Js.value) :=
  and_then (prop "indexId" doc)
    (fun id => Ok [updateAction id PRODUCT_INDEX; obj1 "script" (painless script doc)]).

(** [xs.flatMap(f)] for a callback that may print and throw. *)
Fixpoint flatMapM {A B : Type} (f : A -> M (list B)) (xs : list A) : M (list B) :=
  match xs with
  | [] => ret []
  | x :: rest =>
      ys <- f x ;;
      zs <- flatMapM f rest ;;
      ret (ys ++ zs)%list
  end.

(** The argument of [this._client.bulk]. *)
Definition bulkRequest (body : list Js.value) : Js.value :=
  VObj [("refresh", VBool true); ("body", VArr body)].

(** [result.body.items[0].update.error], for the items of a bulk
    response. *)
Definition firstUpdateError (items : list Js.value) : outcome Js.value :=
  and_then (prop "update" (nth 0 items VUndefined)) (prop "error").

Section Bulk.

(** cerialize's [Serialize] on a product and on a brand. *)
Variable ProductModel : Type.
Variable Serialize : ProductModel -> Js.value.
Variable BrandsESFormat : Type.
Variable SerializeBrand : BrandsESFormat -> Js.value.
(** The scripts of elasticsearch/es.script. *)
Variable scriptSaveProducts : string.
Variable scriptSaveBrands : string.
Variable scriptUpdateStock : string.
Variable scriptReserveStock : string.
Variable scriptPaidStock : string.
Variable scriptExpiredStock : string.
Variable scriptCancelStock : string.
(** What [console.log] prints for a value. *)
Variable inspect : Js.value -> string.
(** [BrandStoreEntity]. *)
Variable BrandStoreEntity : Type.
(** [this._client.bulk]: answers with [result.body.items], an array, or
    rejects. *)
Variable client_bulk : Js.value -> outcome (list Js.value).

(** [saveProducts] (lines 398-432). *)
Definition saveProducts (data : list ProductModel) : M bool :=
  body <- flatMapM
            (fun productModel =>
               let rawDoc := Serialize productModel in
               lift (upsertLines "sku" PRODUCT_INDEX scriptSaveProducts rawDoc))
            data ;;
  catch (lift (client_bulk (bulkRequest body)) ;;; ret tt) _throwElasticSearchError ;;;
  ret true.

(** [syncBrands] (lines 438-473). *)
Definition syncBrands (brands : list BrandsESFormat) : M bool :=
  body <- flatMapM
            (fun brand =>
               let rawDoc := SerializeBrand brand in
               console_log [inspect rawDoc] ;;;
               lift (upsertLines "id" BRAND_INDEX scriptSaveBrands rawDoc))
            brands ;;
  catch (lift (client_bulk (bulkRequest body)) ;;; ret tt) _throwElasticSearchError ;;;
  ret true.

(** The body the five stock methods share (lines 935-959, 964-988,
    993-1017, 1022-1046, 1051-1075); they differ in their script. *)
Definition stockUpdate (script : string) (requestBody : list Js.value) : M bool :=
  body <- flatMapM (fun doc => lift (stockLines script doc)) requestBody ;;
  catch
    (items <- lift (client_bulk (bulkRequest body)) ;;
     error <- lift (firstUpdateError items) ;;
     console_log ["RESULT>>"; inspect error])
    _throwElasticSearchError ;;;
  ret true.

Definition updateStocks (requestBody : list Js.value) (brandStore : BrandStoreEntity)
  : M bool :=
  stockUpdate scriptUpdateStock requestBody.

Definition reserveStocks (requestBody : list Js.value) : M bool :=
  stockUpdate scriptReserveStock requestBody.

Definition paidStocks (requestBody : list Js.value) : M bool :=
  stockUpdate scriptPaidStock requestBody.

Definition expiredStocks (requestBody : list Js.value) : M bool :=
  stockUpdate scriptExpiredStock requestBody.

Definition cancelStocks (requestBody : list Js.value) : M bool :=
  stockUpdate scriptCancelStock requestBody.

End Bulk.

(** *** Products by SKU (lines 908-931) *)

Section BySku.

(** [this._client.get] and [this._client.delete]: each answers with the
    body of its response, or rejects. *)
Variable client_get : Js.value -> outcome Js.value.
Variable client_delete : Js.value -> outcome Js.value.

Definition getProductBySku (sku : string) : M Js.value :=
  catch
    (body <- lift (client_get (VObj [("index", VStr PRODUCT_INDEX);
                                     ("type", VStr "_doc");
                                     ("id", VStr sku)])) ;;
     lift (prop "_source" body))
    (fun error => throw (Kobp (fromUserInput notFound "Resource not found"))).

Definition deleteProductBySku (sku : string) : M bool :=
  catch
    (lift (client_delete (VObj [("index", VStr PRODUCT_INDEX); ("id", VStr sku)])) ;;;
     ret true)
    (fun error => throw (Kobp (fromUserInput notFound "Error Delete"))).

End BySku.

(** *** Index configuration (lines 1085-1149) *)

(** [IndexSettings] of model/ProductModel, as far as the service reads
    it. *)
Record IndexMappings : Type := { properties : Js.value }.
Record IndexSettings : Type := { settings : Js.value; mappings : IndexMappings }.

(** A call of the engine client: the method, and its argument. *)
Definition call : Type := (string * Js.value)%type.

(** What is thrown while an index is configured: an [error], or the
    [KobpError.fromServer(ServerErrorCode.internalServerError, message)]
    of line 1095, an error with that message and no [meta]. *)
Inductive thrown : Type :=
| Error (e : error)
| InternalServerError (message : string).

(** [_normalizeESErrorMessage] on what was thrown. *)
Definition normalizedMessage (error : thrown) : string :=
  match error with
  | Error e => _normalizeESErrorMessage e
  | InternalServerError message => message
  end.

Inductive ending (A : Type) : Type :=
| Returned (a : A)
| Raised (error : thrown).
Arguments Returned {A} a.
Arguments Raised {A} error.

(** A run of a computation that talks to the engine: the calls it made,
    in order, the lines it printed, and how it ended. *)
Record run (A : Type) : Type := {
  calls : list call;
  shown : list line;
  ended : ending A
}.
Arguments calls {A} _.
Arguments shown {A} _.
Arguments ended {A} _.

(** Such a computation, run after the calls of a history. *)
Definition Io (A : Type) : Type := list call -> run A.

Definition io_ret {A : Type} (a : A) : Io A :=
  fun _ => {| calls := []; shown := []; ended := Returned a |}.

Definition io_throw {A : Type} (error : thrown) : Io A :=
  fun _ => {| calls := []; shown := []; ended := Raised error |}.

Definition io_log (args : list string) : Io unit :=
  fun _ => {| calls := []; shown := [(Log, args)]; ended := Returned tt |}.

Definition io_bind {A B : Type} (m : Io A) (k : A -> Io B) : Io B :=
  fun history =>
    let r := m history in
    match ended r with
    | Returned a =>
        let r' := k a (history ++ calls r)%list in
        {| calls := (calls r ++ calls r')%list;
           shown := (shown r ++ shown r')%list;
           ended := ended r' |}
    | Raised error => {| calls := calls r; shown := shown r; ended := Raised error |}
    end.

(** [try { m } catch (error) { handler(error) }]. *)
Definition io_catch {A : Type} (m : Io A) (handler : thrown -> Io A) : Io A :=
  fun history =>
    let r := m history in
    match ended r with
    | Returned a => r
    | Raised error =>
        let r' := handler error (history ++ calls r)%list in
        {| calls := (calls r ++ calls r')%list;
           shown := (shown r ++ shown r')%list;
           ended := ended r' |}
    end.

(** [try { m } finally { cleanup }]: the cleanup always runs, and what it
    throws replaces how [m] ended. *)
Definition io_finally {A : Type} (m : Io A) (cleanup : Io unit) : Io A :=
  fun history =>
    let r := m history in
    let r' := cleanup (history ++ calls r)%list in
    {| calls := (calls r ++ calls r')%list;
       shown := (shown r ++ shown r')%list;
       ended := match ended r' with
                | Returned _ => ended r
                | Raised error => Raised error
                end |}.

Notation "x <~ m ;; k" := (io_bind m (fun x => k))
  (at level 61, m at next level, right associativity).
Notation "m ;;~ k" := (io_bind m (fun _ => k))
  (at level 61, right associativity).

Section Index.

(** The engine: what it answers to a call, after the calls made so far. *)
Variable respond : list call -> call -> outcome Js.value.

(** [await this._client.<method>(params)]; the answer is the body of the
    response. *)
Definition request (method : string) (params : Js.value) : Io Js.value :=
  fun history =>
    {| calls := [(method, params)];
       shown := [];
       ended := match respond history (method, params) with
                | Ok body => Returned body
                | Throw e => Raised (Error e)
                end |}.

Definition on_index (index : string) : Js.value := obj1 "index" (VStr index).

(** [isIndexExists] (lines 1118-1123). *)
Definition isIndexExists (indexName : string) : Io bool :=
  body <~ request "indices.exists" (on_index indexName) ;;
  io_ret (truthy body).

(** [putSettings] (lines 1125-1136). *)
Definition putSettings (index : string) (settings : Js.value) : Io unit :=
  io_catch
    (request "indices.putSettings"
       (VObj [("index", VStr index); ("body", obj1 "settings" settings)]) ;;~
     io_ret tt)
    (fun error =>
       io_throw (Error (Kobp (fromServer badGateway (normalizedMessage error) None)))).

(** [putMapping] (lines 1138-1149). *)
Definition putMapping (index : string) (properties : Js.value) : Io unit :=
  io_catch
    (request "indices.putMapping"
       (VObj [("index", VStr index);
              ("body", obj1 "properties" (or_else properties (VObj [])))]) ;;~
     io_ret tt)
    (fun error =>
       io_throw (Error (Kobp (fromServer badGateway (normalizedMessage error) None)))).

(** [configIndex] (lines 1085-1116); a caller that leaves
    [destroyExistingIndex] out passes [None]. *)
Definition configIndex (targetIndex : string) (indexSettings : IndexSettings)
  (destroyExistingIndex : option bool) : Io IndexSettings :=
  let destroyExistingIndex :=
    match destroyExistingIndex with
    | Some flag => flag
    | None => true
    end in
  io_finally
    (io_catch
       (indexExists <~ isIndexExists targetIndex ;;
        (if indexExists then
           (if destroyExistingIndex then
              io_log ["Deleting index"] ;;~
              request "indices.delete" (on_index targetIndex) ;;~
              io_ret tt
            else io_ret tt) ;;~
           io_throw (InternalServerError ("Index: " ++ targetIndex ++ " already exists."))
         else io_ret tt) ;;~
        request "indices.create" (on_index targetIndex) ;;~
        request "indices.close" (on_index targetIndex) ;;~
        putSettings targetIndex (settings indexSettings) ;;~
        putMapping targetIndex (properties (mappings indexSettings)) ;;~
        io_ret indexSettings)
       (fun error =>
          io_throw
            (Error (Kobp (fromServer badGateway
                            ("Unable to perform Setting Index on ES: "
                             ++ normalizedMessage error) None)))))
    (request "indices.open" (on_index targetIndex) ;;~ io_ret tt).

End Index.

End Es.


(* ================================================================== *)
(** ** A sample deployment

    Stand-ins for the collaborators, and a few requests and responses, on
    which the statements below are exercised. *)

Module Sample.
Import Js Kobp Es.

Definition toLowerCase : string -> string := Str.fold_string.
Definition digest (text : string) : string := Base64.encode text.
Definition syntaxErrorMessage (text : string) : string := "Unexpected token in JSON".
Definition Deserialize (doc : Js.value) : Js.value := doc.
Definition em_find (ids : list string) : outcome (list string) := Ok ids.

Definition global : ScopeOption :=
  {| brandId := None; category := None; mallId := None |}.

(** A page of two, nothing else asked. *)
Definition plain : ListProductsOptions :=
  {| scope := global; keyword := None; nextToken := None; size := 2;
     categories := None; minPrice := None; maxPrice := None; brands := None;
     sortBy := None; skus := None; checkStatus := None; color := None;
     pageSize := None |}.

(** A brand and a category pin, a keyword, a lower price bound, a price
    sort. *)
Definition pinned : ListProductsOptions :=
  {| scope := {| brandId := Some "nike"; category := Some "shoes"; mallId := None |};
     keyword := Some "run"; nextToken := None; size := 2;
     categories := None; minPrice := Some 100%Z; maxPrice := None; brands := None;
     sortBy := Some "-Price"; skus := None; checkStatus := None; color := None;
     pageSize := None |}.

(** A brand set and no pin. *)
Definition branded : ListProductsOptions :=
  {| scope := global; keyword := None; nextToken := None; size := 2;
     categories := None; minPrice := None; maxPrice := None;
     brands := Some ["nike"; "adidas"];
     sortBy := None; skus := None; checkStatus := None; color := None;
     pageSize := None |}.

(** Both price bounds zero. *)
Definition free : ListProductsOptions :=
  {| scope := global; keyword := None; nextToken := None; size := 2;
     categories := None; minPrice := Some 0%Z; maxPrice := Some 0%Z; brands := None;
     sortBy := None; skus := None; checkStatus := None; color := None;
     pageSize := None |}.

(** A sort token no alias matches. *)
Definition unsorted : ListProductsOptions :=
  {| scope := global; keyword := None; nextToken := None; size := 2;
     categories := None; minPrice := None; maxPrice := None; brands := None;
     sortBy := Some "rating"; skus := None; checkStatus := None; color := None;
     pageSize := None |}.

(** A cursor that is the base64 of the text [foo]. *)
Definition garbled : ListProductsOptions :=
  {| scope := global; keyword := None; nextToken := Some "Zm9v"; size := 2;
     categories := None; minPrice := None; maxPrice := None; brands := None;
     sortBy := None; skus := None; checkStatus := None; color := None;
     pageSize := None |}.

(** A page of three. *)
Definition wide : ListProductsOptions :=
  {| scope := global; keyword := None; nextToken := None; size := 3;
     categories := None; minPrice := None; maxPrice := None; brands := None;
     sortBy := None; skus := None; checkStatus := None; color := None;
     pageSize := None |}.

Definition hit (sku : string) (score : string) : Hit :=
  {| _source := obj1 "sku" (VStr sku); sort := VArr [VNum score; VStr sku] |}.

Definition unsortedHit (sku : string) : Hit :=
  {| _source := obj1 "sku" (VStr sku); sort := VUndefined |}.

Definition facets : Agg.t :=
  {| Agg.priceMin := VNum "250";
     Agg.priceMax := VNum "272000";
     Agg.brands := Some [{| key := "bally"; doc_count := 57 |}];
     Agg.categorySlugs := Some [];
     Agg.colorSwatch :=
       Some [{| key := "red__Red__แดง"; doc_count := 4 |};
             {| key := "blue"; doc_count := 1 |}] |}.

(** Two hits out of seven matches, with facets and suggestions. *)
Definition page : SearchBody ProductListSuggestResult :=
  {| hits := Some [hit "sku-1" "1.5"; hit "sku-2" "1.25"];
     total := Some {| total_value := Some 7%Z; relation := Some "eq" |};
     aggregations := Some facets;
     suggest := Some {| suggestionEn := [[]]; suggestionTh := [["วิ่ง"]] |} |}.

(** The same page, its last hit without sort data. *)
Definition brokenPage : SearchBody ProductListSuggestResult :=
  {| hits := Some [hit "sku-1" "1.5"; unsortedHit "sku-2"];
     total := Some {| total_value := Some 7%Z; relation := Some "eq" |};
     aggregations := None;
     suggest := None |}.

Definition search (request : Js.value) : outcome (SearchBody ProductListSuggestResult) :=
  Ok page.

Definition brokenSearch (request : Js.value)
  : outcome (SearchBody ProductListSuggestResult) :=
  Ok brokenPage.

Definition brandPage : SearchBody BrandListSuggestResult :=
  {| hits := Some [hit "nike" "1"; hit "puma" "1"];
     total := Some {| total_value := Some 40%Z; relation := Some "eq" |};
     aggregations := None;
     suggest := None |}.

Definition searchBrands (request : Js.value)
  : outcome (SearchBody BrandListSuggestResult) :=
  Ok brandPage.

(** An engine that rejects every update with a version conflict. *)
Definition conflict : error :=
  EngineError "version_conflict_engine_exception"
    (Some {| body :=
               VObj [("error",
                      obj1 "root_cause"
                        (VArr [VObj [("type", VStr "version_conflict_engine_exception");
                                     ("reason", VStr "document already exists")]]));
                     ("status", num 409)];
             body_error :=
               Some {| root_cause :=
                         Some [{| type := Some "version_conflict_engine_exception";
                                  reason := Some "document already exists" |}];
                       caused_by := None |} |}).

Definition rejectUpdate (request : Js.value) : outcome unit := Throw conflict.

(** A page of twenty-four brands. *)
Definition fullBrandPage : SearchBody BrandListSuggestResult :=
  {| hits := Some (repeat (hit "nike" "1") 24);
     total := Some {| total_value := Some 40%Z; relation := Some "eq" |};
     aggregations := None;
     suggest := None |}.

Definition searchFullBrands (request : Js.value)
  : outcome (SearchBody BrandListSuggestResult) :=
  Ok fullBrandPage.

Definition compileRequest := Es.compileRequest toLowerCase syntaxErrorMessage.

(** The request compiled for options that compile. *)
Definition request (options : ListProductsOptions) : Js.value :=
  match compileRequest options [] with
  | Ok requestBody => requestBody
  | Throw _ => VUndefined
  end.

(** The same, for a caller that names facet slugs. *)
Definition requestFor (options : ListProductsOptions) (slugs : list string) : Js.value :=
  match compileRequest options slugs with
  | Ok requestBody => requestBody
  | Throw _ => VUndefined
  end.

Definition listProducts :=
  Es.listProducts toLowerCase syntaxErrorMessage Js.value Deserialize search.

Definition listProductsBroken :=
  Es.listProducts toLowerCase syntaxErrorMessage Js.value Deserialize brokenSearch.

Definition listBrands :=
  Es.listBrands syntaxErrorMessage string em_find searchBrands.

Definition listFullBrands :=
  Es.listBrands syntaxErrorMessage string em_find searchFullBrands.

Definition trackUserSearchedKeywords :=
  Es.trackUserSearchedKeywords toLowerCase digest rejectUpdate.

Definition updateDomainBoostedKeywords :=
  Es.updateDomainBoostedKeywords toLowerCase digest rejectUpdate.


(** Further options: a keyword with two categories, and a cursor that is
    the base64 of the text of the empty array. *)
Definition browsing : ListProductsOptions :=
  {| scope := global; keyword := Some "run"; nextToken := None; size := 2;
     categories := Some ["shoes"; "bags"]; minPrice := None; maxPrice := None;
     brands := None; sortBy := None; skus := None; checkStatus := None; color := None;
     pageSize := None |}.

(** A page of two with a status check and a page size asked for. *)
Definition checked : ListProductsOptions :=
  {| scope := global; keyword := None; nextToken := None; size := 2;
     categories := None; minPrice := None; maxPrice := None; brands := None;
     sortBy := None; skus := None; checkStatus := Some true; color := None;
     pageSize := Some 50%Z |}.

Definition emptyCursor : ListProductsOptions :=
  {| scope := global; keyword := None; nextToken := Some "W10="; size := 2;
     categories := None; minPrice := None; maxPrice := None; brands := None;
     sortBy := None; skus := None; checkStatus := None; color := None;
     pageSize := None |}.

(** A cursor whose first character, U+0157, is read by its low byte, the
    letter W: the token reads as the base64 of the text of the array of
    the number 1. *)
Definition lowByteCursor : ListProductsOptions :=
  {| scope := global; keyword := None; nextToken := Some "ŗzFd"; size := 2;
     categories := None; minPrice := None; maxPrice := None; brands := None;
     sortBy := None; skus := None; checkStatus := None; color := None;
     pageSize := None |}.

(** One hit, and a reported total of zero. *)
Definition zeroPage : SearchBody ProductListSuggestResult :=
  {| hits := Some [hit "sku-1" "1.5"];
     total := Some {| total_value := Some 0%Z; relation := Some "eq" |};
     aggregations := None;
     suggest := None |}.

Definition zeroSearch (request : Js.value)
  : outcome (SearchBody ProductListSuggestResult) :=
  Ok zeroPage.

Definition listProductsZero :=
  Es.listProducts toLowerCase syntaxErrorMessage Js.value Deserialize zeroSearch.

(** A suggest block whose channels carry no entry. *)
Definition entrylessPage : SearchBody ProductListSuggestResult :=
  {| hits := Some [hit "sku-1" "1.5"];
     total := Some {| total_value := Some 1%Z; relation := Some "eq" |};
     aggregations := None;
     suggest := Some {| suggestionEn := []; suggestionTh := [] |} |}.

Definition entrylessSearch (request : Js.value)
  : outcome (SearchBody ProductListSuggestResult) :=
  Ok entrylessPage.

Definition listProductsEntryless :=
  Es.listProducts toLowerCase syntaxErrorMessage Js.value Deserialize entrylessSearch.

(** An entity manager that fails. *)
Definition brokenFind (ids : list string) : outcome (list string) :=
  Throw (EngineError "connection refused" None).

Definition listBrandsBrokenFind :=
  Es.listBrands syntaxErrorMessage string brokenFind searchBrands.

(** Two tracked terms of the global domain. *)
Definition termHit (q : string) (count : Z) : Js.value :=
  VObj [("_id", VStr q);
        ("_source", VObj [("q", VStr q); ("domain", VStr "global"); ("hit", num count)])].

Definition termsPage : Js.value :=
  obj1 "hits" (obj1 "hits" (VArr [termHit "shoes" 12; termHit "shirts" 3])).

Definition searchTerms (request : Js.value) : outcome Js.value := Ok termsPage.

Definition deleteByQuery (request : Js.value) : outcome Js.value :=
  Ok (VObj [("took", num 7); ("deleted", num 2)]).

Definition popularTerms := Es.popularTerms searchTerms.
Definition getDomainBoostedKeywords := Es.getDomainBoostedKeywords searchTerms.
Definition deletePopularTerms := Es.deletePopularTerms deleteByQuery.

(** Documents, and engines that accept a bulk request: one reports an
    item, the other none. *)
Definition inspect (v : Js.value) : string := undefined_text (Json.stringify v).

Definition product (sku : string) : Js.value :=
  VObj [("sku", VStr sku); ("indexId", VStr sku); ("id", VStr sku)].

Definition bulkItems (request : Js.value) : outcome (list Js.value) :=
  Ok [obj1 "update" (VObj [("_id", VStr "sku-1"); ("status", num 200)])].

Definition bulkNoItem (request : Js.value) : outcome (list Js.value) := Ok [].

Definition saveProducts :=
  Es.saveProducts Js.value Deserialize "save-products" bulkItems.
Definition syncBrands :=
  Es.syncBrands Js.value Deserialize "save-brands" inspect bulkItems.
Definition reserveStocks := Es.reserveStocks "reserve-stock" inspect bulkItems.
Definition reserveStocksNoItem := Es.reserveStocks "reserve-stock" inspect bulkNoItem.

(** An engine that has the document of every SKU, and one that is down. *)
Definition getDocument (request : Js.value) : outcome Js.value :=
  Ok (VObj [("found", VBool true); ("_source", product "sku-1")]).

Definition down (request : Js.value) : outcome Js.value :=
  Throw (EngineError "connect ECONNREFUSED" None).

(** An engine without any index that accepts every call, and one that has
    every index. *)
Definition freshEngine (history : list call) (c : call) : outcome Js.value :=
  if fst c =? "indices.exists" then Ok (VBool false)
  else Ok (obj1 "acknowledged" (VBool true)).

Definition existingEngine (history : list call) (c : call) : outcome Js.value :=
  if fst c =? "indices.exists" then Ok (VBool true)
  else Ok (obj1 "acknowledged" (VBool true)).

Definition indexSettings : IndexSettings :=
  {| settings := obj1 "number_of_shards" (num 1);
     mappings := {| properties := obj1 "sku" (obj1 "type" (VStr "keyword")) |} |}.

End Sample.

(* ================================================================== *)
(** ** Facts about strings *)

Module StrFacts.
Import Str.

Lemma append_assoc (a b c : string) : (a ++ b) ++ c = a ++ (b ++ c).
Proof. induction a as [|x a IH]; simpl; [reflexivity | now rewrite IH]. Qed.

Lemma append_nil_r (a : string) : a ++ "" = a.
Proof. induction a as [|x a IH]; simpl; [reflexivity | now rewrite IH]. Qed.

Lemma length_append (a b : string) :
  String.length (a ++ b) = (String.length a + String.length b)%nat.
Proof. induction a as [|x a IH]; simpl; [reflexivity | now rewrite IH]. Qed.

(** Case-insensitive patterns *)

Lemma prefix_i_fold p : forall mid post,
  fold_string mid = fold_string p -> prefix_i p (mid ++ post) = true.
Proof.
  induction p as [|a p IH]; intros mid post H; [reflexivity|].
  destruct mid as [|b mid]; simpl in H; [discriminate|].
  injection H as Hc Hs. simpl. rewrite Hc, Ascii.eqb_refl. now apply IH.
Qed.

Lemma test_i_prefix p s : prefix_i p s = true -> test_i p s = true.
Proof. intros H. destruct s; simpl; now rewrite H. Qed.

Lemma test_i_skip p pre s : test_i p s = true -> test_i p (pre ++ s) = true.
Proof.
  intros H. induction pre as [|c pre IH]; [assumption|].
  simpl. rewrite IH. apply orb_true_r.
Qed.

(** A token that holds the pattern in any letter case matches it. *)
Lemma test_i_occurrence p pre mid post :
  fold_string mid = fold_string p -> test_i p (pre ++ mid ++ post) = true.
Proof.
  intros H. apply test_i_skip, test_i_prefix. now apply prefix_i_fold.
Qed.

Lemma prefix_i_inv p : forall s,
  prefix_i p s = true ->
  exists mid post, s = mid ++ post /\ fold_string mid = fold_string p.
Proof.
  induction p as [|a p IH]; intros s H.
  - now exists "", s.
  - destruct s as [|b s]; simpl in H; [discriminate|].
    apply andb_prop in H. destruct H as [Hc H].
    apply Ascii.eqb_eq in Hc.
    destruct (IH s H) as (mid & post & -> & Hm).
    exists (String b mid), post. simpl. now rewrite Hm, Hc.
Qed.

(** And a token the pattern matches holds it in some letter case. *)
Lemma test_i_inv p s :
  test_i p s = true ->
  exists pre mid post, s = pre ++ mid ++ post /\ fold_string mid = fold_string p.
Proof.
  induction s as [|c s IH]; simpl; intros H.
  - rewrite orb_false_r in H. destruct (prefix_i_inv p "" H) as (mid & post & E & Hm).
    now exists "", mid, post.
  - apply orb_prop in H. destruct H as [H|H].
    + destruct (prefix_i_inv p _ H) as (mid & post & E & Hm). now exists "", mid, post.
    + destruct (IH H) as (pre & mid & post & -> & Hm). now exists (String c pre), mid, post.
Qed.

(** Splitting on the two-underscore delimiter *)

Lemma prefix_delim_cut c p rest :
  has_prefix "__" (String c (p ++ "__" ++ rest)) = has_prefix "__" (String c (p ++ "_")).
Proof. destruct p as [|d p]; simpl; reflexivity. Qed.

Lemma split_part p : forall cur rest,
  occurs "__" (p ++ "_") = false ->
  split_from "__" 0 cur (p ++ "__" ++ rest) = (cur ++ p) :: split_from "__" 0 "" rest.
Proof.
  induction p as [|c p IH]; intros cur rest H.
  - simpl. now rewrite append_nil_r.
  - change (occurs "__" (String c p ++ "_"))
      with (has_prefix "__" (String c (p ++ "_")) || occurs "__" (p ++ "_")) in H.
    apply orb_false_elim in H. destruct H as [Hp Ho].
    change (String c p ++ "__" ++ rest) with (String c (p ++ "__" ++ rest)).
    cbn [split_from]. rewrite prefix_delim_cut, Hp, (IH _ _ Ho), append_assoc.
    reflexivity.
Qed.

Lemma split_last p : forall cur,
  occurs "__" p = false -> split_from "__" 0 cur p = [cur ++ p].
Proof.
  induction p as [|c p IH]; intros cur H.
  - simpl. now rewrite append_nil_r.
  - change (occurs "__" (String c p))
      with (has_prefix "__" (String c p) || occurs "__" p) in H.
    apply orb_false_elim in H. destruct H as [Hp Ho].
    cbn [split_from]. rewrite Hp, (IH _ Ho), append_assoc. reflexivity.
Qed.

Lemma split_three p1 p2 p3 :
  occurs "__" (p1 ++ "_") = false -> occurs "__" (p2 ++ "_") = false ->
  occurs "__" p3 = false ->
  split "__" (p1 ++ "__" ++ p2 ++ "__" ++ p3) = [p1; p2; p3].
Proof.
  intros H1 H2 H3. unfold split.
  rewrite (split_part p1 "" _ H1), (split_part p2 "" _ H2), (split_last p3 "" H3).
  reflexivity.
Qed.

Lemma split_two p1 p2 :
  occurs "__" (p1 ++ "_") = false -> occurs "__" p2 = false ->
  split "__" (p1 ++ "__" ++ p2) = [p1; p2].
Proof.
  intros H1 H2. unfold split.
  rewrite (split_part p1 "" _ H1), (split_last p2 "" H2). reflexivity.
Qed.

Lemma split_one p : occurs "__" p = false -> split "__" p = [p].
Proof. intros H. unfold split. now rewrite (split_last p "" H). Qed.
End StrFacts.

(* ================================================================== *)
(** ** Facts about JSON text *)

Module JsonFacts.
Import Js Json Str StrFacts.

Lemma parse_chars_step (c : ascii) (s rest : string) :
  parse_chars (escape s ++ String dquote rest) = Some (s, rest) ->
  parse_chars (escape_char c ++ escape s ++ String dquote rest) = Some (String c s, rest).
Proof.
  intros IH.
  destruct c as [[] [] [] [] [] [] [] []];
    match goal with
    | |- context [escape_char ?c] =>
        let e := eval vm_compute in (escape_char c) in
        change (escape_char c) with e
    end;
    cbn; rewrite IH; reflexivity.
Qed.

Lemma parse_chars_escape (s rest : string) :
  parse_chars (escape s ++ String dquote rest) = Some (s, rest).
Proof.
  induction s as [|c s IH]; [reflexivity|].
  cbn [escape]. rewrite append_assoc. now apply parse_chars_step.
Qed.

(** Numbers *)

Lemma scan_num_split st s l r : scan_num st s = Some (l, r) -> s = l ++ r.
Proof.
  revert st l r. induction s as [|c s IH]; intros st l r; simpl.
  - destruct (num_final st); [|discriminate]. now intros [= <- <-].
  - destruct (num_step st c) as [st'|].
    + destruct (scan_num st' s) as [[l' r']|] eqn:E; [|discriminate].
      intros [= <- <-]. simpl. f_equal. eauto.
    + destruct (num_final st); [|discriminate]. now intros [= <- <-].
Qed.

Lemma num_step_char st c st' : num_step st c = Some st' -> num_char c = true.
Proof.
  intros H. destruct (num_char c) eqn:E; [reflexivity|exfalso].
  unfold num_char in E.
  apply orb_false_elim in E; destruct E as [E H0].
  apply orb_false_elim in E; destruct E as [E H1].
  apply orb_false_elim in E; destruct E as [E H2].
  assert (Z : Ascii.eqb c "0" = false).
  { destruct (Ascii.eqb_spec c "0"); [subst; discriminate|reflexivity]. }
  assert (M : Ascii.eqb c "-" = false).
  { unfold is_sign in *. now destruct (Ascii.eqb c "-"), (Ascii.eqb c "+"). }
  destruct st; simpl in H;
    repeat match type of H with
           | context [is_digit c] => rewrite E in H
           | context [is_e c] => rewrite H2 in H
           | context [is_sign c] => rewrite H1 in H
           | context [Ascii.eqb c "."] => rewrite H0 in H
           | context [Ascii.eqb c "0"] => rewrite Z in H
           | context [Ascii.eqb c "-"] => rewrite M in H
           end; discriminate.
Qed.

Lemma scan_num_app st l rest :
  scan_num st l = Some (l, "") -> ends_value rest = true ->
  scan_num st (l ++ rest) = Some (l, rest).
Proof.
  revert st. induction l as [|c l IH]; intros st H E; simpl in *.
  - destruct (num_final st) eqn:F; [|discriminate].
    destruct rest as [|c r]; simpl; rewrite ?F; [reflexivity|].
    destruct (num_step st c) eqn:S; [|reflexivity].
    apply num_step_char in S. simpl in E. now rewrite S in E.
  - destruct (num_step st c) as [st'|].
    + destruct (scan_num st' l) as [[l' r']|] eqn:S; [|discriminate].
      injection H as H1 H2. subst. now rewrite IH.
    + destruct (num_final st); discriminate.
Qed.

Lemma is_number_scan l : is_number l = true -> scan_number l = Some (l, "").
Proof.
  unfold is_number. destruct (scan_number l) as [[l' [|]]|] eqn:E; try discriminate.
  intros _. apply scan_num_split in E. rewrite append_nil_r in E. now subst.
Qed.

Lemma is_number_head l :
  is_number l = true ->
  exists c l', l = String c l' /\ (Ascii.eqb c "-" || is_digit c) = true.
Proof.
  unfold is_number, scan_number. destruct l as [|c l']; simpl; [discriminate|].
  intros H. exists c, l'. split; [reflexivity|].
  destruct (Ascii.eqb c "-"); [reflexivity|]. simpl.
  destruct (Ascii.eqb c "0") eqn:Z.
  - apply Ascii.eqb_eq in Z. now subst.
  - destruct (is_digit c); [reflexivity|discriminate].
Qed.

(** Induction on values through their elements and members. *)
Section ValueInduction.
Variable P : value -> Prop.
Hypothesis Pundefined : P VUndefined.
Hypothesis Pnull : P VNull.
Hypothesis Pbool : forall b, P (VBool b).
Hypothesis Pnum : forall l, P (VNum l).
Hypothesis Pstr : forall s, P (VStr s).
Hypothesis Parr : forall xs, Forall P xs -> P (VArr xs).
Hypothesis Pobj : forall fs, Forall (fun kv => P (snd kv)) fs -> P (VObj fs).

Fixpoint value_induction (v : value) : P v :=
  match v with
  | VUndefined => Pundefined
  | VNull => Pnull
  | VBool b => Pbool b
  | VNum l => Pnum l
  | VStr s => Pstr s
  | VArr xs =>
      Parr xs
        ((fix all (l : list value) : Forall P l :=
            match l with
            | [] => Forall_nil P
            | x :: l' => Forall_cons x (value_induction x) (all l')
            end) xs)
  | VObj fs =>
      Pobj fs
        ((fix all (l : list (string * value)) : Forall (fun kv => P (snd kv)) l :=
            match l with
            | [] => Forall_nil _
            | kv :: l' =>
                Forall_cons (P := fun kv => P (snd kv)) kv
                  (value_induction (snd kv)) (all l')
            end) fs)
  end.
End ValueInduction.

Lemma starts_value_facts c :
  starts_value c = true ->
  is_ws c = false /\ Ascii.eqb c "]" = false /\ Ascii.eqb c "}" = false.
Proof.
  destruct c as [[] [] [] [] [] [] [] []]; vm_compute; intros H;
    first [discriminate H | repeat split].
Qed.

Lemma number_head_facts c :
  (Ascii.eqb c "-" || is_digit c) = true ->
  is_ws c = false /\ Ascii.eqb c dquote = false /\ Ascii.eqb c "[" = false
  /\ Ascii.eqb c "{" = false /\ Ascii.eqb c "n" = false /\ Ascii.eqb c "t" = false
  /\ Ascii.eqb c "f" = false /\ starts_value c = true.
Proof.
  destruct c as [[] [] [] [] [] [] [] []]; vm_compute; intros H;
    first [discriminate H | repeat split].
Qed.

Lemma stringify_text v : is_json v = true -> stringify v = Some (text v).
Proof. unfold text. destruct v; simpl; try discriminate; try reflexivity. now destruct b. Qed.

Lemma text_head v :
  is_json v = true -> exists c t, text v = String c t /\ starts_value c = true.
Proof.
  destruct v as [| |b|l|s|xs|fs]; simpl; intros H; try discriminate.
  - now exists "n"%char, "ull".
  - destruct b; [now exists "t"%char, "rue" | now exists "f"%char, "alse"].
  - destruct (is_number_head l H) as (c & l' & -> & Hc).
    exists c, l'. split; [reflexivity|]. now apply number_head_facts.
  - unfold text. simpl. unfold quote. now eexists _, _.
  - unfold text. simpl. now eexists _, _.
  - unfold text. simpl. now eexists _, _.
Qed.

Lemma parse_value_S f s :
  parse_value (S f) s =
  match skip_ws s with
  | EmptyString => None
  | String c r =>
      if Ascii.eqb c dquote then
        match parse_chars r with
        | Some (t, r') => Some (VStr t, r')
        | None => None
        end
      else if Ascii.eqb c "[" then
        match skip_ws r with
        | String c' r' =>
            if Ascii.eqb c' "]" then Some (VArr [], r')
            else match parse_elems f r with
                 | Some (xs, r'') => Some (VArr xs, r'')
                 | None => None
                 end
        | EmptyString => None
        end
      else if Ascii.eqb c "{" then
        match skip_ws r with
        | String c' r' =>
            if Ascii.eqb c' "}" then Some (VObj [], r')
            else match parse_members f r with
                 | Some (fs, r'') => Some (VObj fs, r'')
                 | None => None
                 end
        | EmptyString => None
        end
      else if Ascii.eqb c "n" then
        match strip_prefix "null" (String c r) with
        | Some r' => Some (VNull, r')
        | None => None
        end
      else if Ascii.eqb c "t" then
        match strip_prefix "true" (String c r) with
        | Some r' => Some (VBool true, r')
        | None => None
        end
      else if Ascii.eqb c "f" then
        match strip_prefix "false" (String c r) with
        | Some r' => Some (VBool false, r')
        | None => None
        end
      else
        match scan_number (String c r) with
        | Some (l, r') => Some (VNum l, r')
        | None => None
        end
  end.
Proof. reflexivity. Qed.

Lemma parse_elems_S f s :
  parse_elems (S f) s =
  match parse_value f s with
  | Some (v, r) =>
      match skip_ws r with
      | String c r' =>
          if Ascii.eqb c "," then
            match parse_elems f r' with
            | Some (vs, r'') => Some (v :: vs, r'')
            | None => None
            end
          else if Ascii.eqb c "]" then Some ([v], r')
          else None
      | EmptyString => None
      end
  | None => None
  end.
Proof. reflexivity. Qed.

Lemma parse_members_S f s :
  parse_members (S f) s =
  match skip_ws s with
  | String q r0 =>
      if Ascii.eqb q dquote then
        match parse_chars r0 with
        | Some (k, r1) =>
            match skip_ws r1 with
            | String c1 r2 =>
                if Ascii.eqb c1 ":" then
                  match parse_value f r2 with
                  | Some (v, r3) =>
                      match skip_ws r3 with
                      | String c r' =>
                          if Ascii.eqb c "," then
                            match parse_members f r' with
                            | Some (fs, r'') => Some (add_member k v fs, r'')
                            | None => None
                            end
                          else if Ascii.eqb c "}" then Some ([(k, v)], r')
                          else None
                      | EmptyString => None
                      end
                  | None => None
                  end
                else None
            | EmptyString => None
            end
        | None => None
        end
      else None
  | EmptyString => None
  end.
Proof. reflexivity. Qed.

Lemma skip_ws_head s c t : s = String c t -> is_ws c = false -> skip_ws s = String c t.
Proof. intros -> H. simpl. now rewrite H. Qed.



Lemma parse_elems_text xs :
  Forall reads_back xs -> forallb is_json xs = true -> xs <> [] ->
  forall fuel rest, elems_weight xs <= fuel ->
  parse_elems fuel (Str.join "," (map text xs) ++ String "]" rest) = Some (xs, rest).
Proof.
  induction xs as [|x xs IH]; [congruence|].
  intros HF Hj _ fuel rest Hw.
  inversion HF as [|? ? Hx HF']; subst.
  simpl in Hj. apply andb_prop in Hj. destruct Hj as [Hjx Hj].
  unfold elems_weight in Hw. simpl in Hw. fold (elems_weight xs) in Hw.
  destruct fuel as [|f]; [lia|]. rewrite parse_elems_S.
  destruct xs as [|y ys].
  - simpl. rewrite (Hx Hjx f (String "]" rest)); [|lia|reflexivity].
    reflexivity.
  - assert (E : Str.join "," (map text (x :: y :: ys)) ++ String "]" rest
                = text x ++ String "," (Str.join "," (map text (y :: ys)) ++ String "]" rest)).
    { unfold Str.join. simpl. rewrite !append_assoc. reflexivity. }
    rewrite E. rewrite (Hx Hjx f _); [|lia|reflexivity].
    simpl.
    rewrite IH; [reflexivity| assumption | assumption | congruence | lia].
Qed.




Lemma existsb_keys k (fs : list (string * value)) :
  existsb (fun kv => fst kv =? k) fs = existsb (fun k' => k' =? k) (map fst fs).
Proof. induction fs as [|[k' x] fs IH]; simpl; [reflexivity | now rewrite IH]. Qed.

Lemma members_text fs :
  members_json fs = true ->
  flat_map (fun kv => match kv with
                      | (k, x) => match stringify x with
                                  | Some t => [quote k ++ ":" ++ t]
                                  | None => []
                                  end
                      end) fs
  = map member_text fs.
Proof.
  induction fs as [|[k x] fs IH]; [reflexivity|].
  intros H. simpl in H. apply andb_prop in H. destruct H as [Hx H].
  cbn [flat_map map]. rewrite (stringify_text x Hx), (IH H). reflexivity.
Qed.

Lemma parse_members_text fs :
  Forall (fun kv => reads_back (snd kv)) fs -> members_json fs = true ->
  distinct (map fst fs) = true -> fs <> [] ->
  forall fuel rest, members_weight fs <= fuel ->
  parse_members fuel (Str.join "," (map member_text fs) ++ String "}" rest)
  = Some (fs, rest).
Proof.
  induction fs as [|[k x] fs IH]; [congruence|].
  intros HF Hj Hd _ fuel rest Hw.
  inversion HF as [|? ? Hx HF']; subst. simpl in Hx.
  simpl in Hj. apply andb_prop in Hj. destruct Hj as [Hjx Hj].
  simpl in Hd. apply andb_prop in Hd. destruct Hd as [Hk Hd].
  unfold members_weight in Hw. simpl in Hw. fold (members_weight fs) in Hw.
  destruct fuel as [|f]; [lia|]. rewrite parse_members_S.
  assert (E : forall tail,
             member_text (k, x) ++ tail
             = String dquote (escape k ++ String dquote (String ":" (text x ++ tail)))).
  { intros tail. unfold member_text, quote. simpl. rewrite !append_assoc. reflexivity. }
  destruct fs as [|kv fs'].
  - unfold Str.join. simpl map. simpl String.concat. rewrite E.
    simpl.
    rewrite parse_chars_escape. simpl.
    rewrite (Hx Hjx f (String "}" rest)); [|lia|reflexivity].
    reflexivity.
  - assert (E' : Str.join "," (map member_text ((k, x) :: kv :: fs')) ++ String "}" rest
                 = member_text (k, x)
                   ++ String "," (Str.join "," (map member_text (kv :: fs')) ++ String "}" rest)).
    { unfold Str.join. simpl. rewrite !append_assoc. reflexivity. }
    rewrite E', E. simpl.
    rewrite parse_chars_escape. simpl.
    rewrite (Hx Hjx f _); [|lia|reflexivity].
    simpl.
    rewrite IH; [|assumption|assumption|assumption|congruence|lia].
    unfold add_member. rewrite existsb_keys.
    apply negb_true_iff in Hk. rewrite Hk. reflexivity.
Qed.

Lemma text_arr xs : text (VArr xs) = "[" ++ Str.join "," (map text xs) ++ "]".
Proof. reflexivity. Qed.

Lemma text_obj fs :
  members_json fs = true ->
  text (VObj fs) = "{" ++ Str.join "," (map member_text fs) ++ "}".
Proof.
  intros H. rewrite <- (members_text fs H). reflexivity.
Qed.

Theorem parse_value_text : forall v, reads_back v.
Proof.
  apply value_induction; unfold reads_back.
  - discriminate.
  - intros _ [|f] rest Hw _; [simpl in Hw; lia|]. reflexivity.
  - intros b _ [|f] rest Hw _; [simpl in Hw; lia|]. now destruct b.
  - intros l Hl [|f] rest Hw He; [simpl in Hw; lia|].
    simpl in Hl. unfold text. simpl stringify. cbv iota.
    destruct (is_number_head l Hl) as (c & l' & El & Hc).
    destruct (number_head_facts c Hc) as (W & Q & A & O & N & T & F & _).
    rewrite parse_value_S. rewrite El at 1. simpl append. simpl skip_ws.
    rewrite W, Q, A, O, N, T, F.
    change (String c (l' ++ rest)) with (String c l' ++ rest). rewrite <- El.
    unfold scan_number. rewrite scan_num_app; [reflexivity| |assumption].
    now apply is_number_scan.
  - intros s _ [|f] rest Hw _; [simpl in Hw; lia|].
    unfold text. simpl stringify. cbv iota. unfold quote.
    rewrite parse_value_S. simpl. rewrite append_assoc. simpl.
    now rewrite parse_chars_escape.
  - intros xs HF Hj [|f] rest Hw _; [simpl in Hw; lia|].
    simpl in Hj. simpl in Hw. fold (elems_weight xs) in Hw.
    rewrite text_arr, parse_value_S.
    replace (("[" ++ Str.join "," (map text xs) ++ "]") ++ rest)
      with (String "[" (Str.join "," (map text xs) ++ String "]" rest))
      by (simpl; now rewrite append_assoc).
    set (body := Str.join "," (map text xs) ++ String "]" rest).
    simpl. destruct xs as [|x xs'].
    + reflexivity.
    + assert (Hx : is_json x = true) by (simpl in Hj; now apply andb_prop in Hj).
      destruct (text_head x Hx) as (c & t & Et & Hc).
      destruct (starts_value_facts c Hc) as (W & B & _).
      assert (Ej : exists t', body = String c t').
      { unfold body, Str.join. simpl. destruct (map text xs'); rewrite Et; simpl; eauto. }
      destruct Ej as (t' & Ej).
      rewrite (skip_ws_head body c t' Ej W), B. unfold body.
      rewrite parse_elems_text; [reflexivity|assumption|assumption|congruence|lia].
  - intros fs HF Hj [|f] rest Hw _; [simpl in Hw; lia|].
    simpl in Hj. apply andb_prop in Hj. destruct Hj as [Hj Hd].
    fold (members_json fs) in Hj.
    simpl in Hw. fold (members_weight fs) in Hw.
    rewrite (text_obj fs Hj), parse_value_S.
    replace (("{" ++ Str.join "," (map member_text fs) ++ "}") ++ rest)
      with (String "{" (Str.join "," (map member_text fs) ++ String "}" rest))
      by (simpl; now rewrite append_assoc).
    set (body := Str.join "," (map member_text fs) ++ String "}" rest).
    simpl. destruct fs as [|[k x] fs'].
    + reflexivity.
    + assert (Ej : exists t', body = String dquote t').
      { unfold body, Str.join, member_text, quote. simpl.
        destruct (map _ fs'); simpl; eauto. }
      destruct Ej as (t' & Ej).
      rewrite (skip_ws_head body dquote t' Ej eq_refl).
      change (Ascii.eqb dquote "}") with false. cbv iota. unfold body.
      rewrite parse_members_text; [reflexivity|assumption|assumption|assumption|congruence|lia].
Qed.

(** The fuel [parse] starts with covers the descent. *)

Lemma join_cons sep a l :
  Str.join sep (a :: l) = match l with [] => a | _ :: _ => a ++ sep ++ Str.join sep l end.
Proof. reflexivity. Qed.

Lemma elems_weight_length xs :
  Forall (fun x => is_json x = true -> weight x <= String.length (text x)) xs ->
  forallb is_json xs = true ->
  elems_weight xs <= String.length (Str.join "," (map text xs)) + 1.
Proof.
  induction xs as [|x xs IH]; intros HF Hj; [simpl; lia|].
  inversion HF as [|? ? Hx HF']; subst.
  simpl in Hj. apply andb_prop in Hj. destruct Hj as [Hjx Hj].
  specialize (IH HF' Hj). specialize (Hx Hjx).
  unfold elems_weight in *. cbn [fold_right map]. rewrite join_cons.
  destruct xs as [|y ys].
  - simpl in *. lia.
  - cbn [map] in *. rewrite !length_append. change (String.length ",") with 1. lia.
Qed.

Lemma members_weight_length fs :
  Forall (fun kv => is_json (snd kv) = true
                    -> weight (snd kv) <= String.length (text (snd kv))) fs ->
  members_json fs = true ->
  members_weight fs <= String.length (Str.join "," (map member_text fs)) + 1.
Proof.
  induction fs as [|[k x] fs IH]; intros HF Hj; [simpl; lia|].
  inversion HF as [|? ? Hx HF']; subst. simpl in Hx.
  simpl in Hj. apply andb_prop in Hj. destruct Hj as [Hjx Hj].
  specialize (IH HF' Hj). specialize (Hx Hjx).
  unfold members_weight in *. cbn [fold_right map]. rewrite join_cons.
  assert (Hm : String.length (text x) <= String.length (member_text (k, x))).
  { unfold member_text. rewrite !length_append. simpl. lia. }
  destruct fs as [|kv fs'].
  - simpl fold_right in *. simpl map. cbv iota. lia.
  - cbn [map] in *. rewrite !length_append. change (String.length ",") with 1. lia.
Qed.

Lemma weight_length : forall v, is_json v = true -> weight v <= String.length (text v).
Proof.
  intros v. induction v as [| |b|l|s|xs HF|fs HF] using value_induction.
  - intros H. simpl in H. discriminate.
  - intros _. simpl. lia.
  - intros _. destruct b; simpl; lia.
  - intros Hl. simpl in Hl. destruct (is_number_head l Hl) as (c & l' & -> & _).
    simpl. lia.
  - intros _. unfold text. simpl. lia.
  - intros Hj. simpl in Hj. rewrite text_arr.
    pose proof (elems_weight_length xs HF Hj) as H.
    simpl weight. fold (elems_weight xs). rewrite !length_append. simpl String.length. lia.
  - intros Hj. simpl in Hj. apply andb_prop in Hj. destruct Hj as [Hj _].
    fold (members_json fs) in Hj. rewrite (text_obj fs Hj).
    pose proof (members_weight_length fs HF Hj) as H.
    simpl weight. fold (members_weight fs). rewrite !length_append. simpl String.length. lia.
Qed.

(** [JSON.parse(JSON.stringify(v))] is [v] for JSON data. *)
Theorem parse_stringify v :
  is_json v = true ->
  exists t, stringify v = Some t /\ parse t = Some v.
Proof.
  intros H. exists (text v). split; [now apply stringify_text|].
  unfold parse.
  rewrite <- (append_nil_r (text v)) at 2.
  rewrite (parse_value_text v H); [reflexivity| |reflexivity].
  pose proof (weight_length v H). lia.
Qed.

(** ** Fuel *)

Lemma skip_ws_length s : String.length (skip_ws s) <= String.length s.
Proof.
  induction s as [|c s IH]; simpl; [lia|]. destruct (is_ws c); simpl; lia.
Qed.

Lemma cons_char_length c o t r :
  cons_char c o = Some (t, r) -> exists t', o = Some (t', r).
Proof. destruct o as [[t' r']|]; simpl; [|discriminate]. intros [= <- <-]. eauto. Qed.

Lemma cons_text_length p o t r :
  cons_text p o = Some (t, r) -> exists t', o = Some (t', r).
Proof. destruct o as [[t' r']|]; simpl; [|discriminate]. intros [= <- <-]. eauto. Qed.

Lemma parse_chars_length : forall n s t r,
  String.length s <= n -> parse_chars s = Some (t, r) -> String.length r < String.length s.
Proof.
  induction n as [|n IH]; intros s t r Hn H.
  - destruct s; [discriminate|simpl in Hn; lia].
  - destruct s as [|c s]; [discriminate|]. simpl in Hn.
    cbn [parse_chars] in H.
    destruct (Ascii.eqb c dquote).
    + injection H as <- <-. simpl. lia.
    + destruct (Ascii.eqb c bslash).
      * destruct s as [|e r1]; [discriminate|]. simpl in Hn.
        destruct (unescape e).
        -- apply cons_char_length in H. destruct H as (t' & H).
           apply IH in H; simpl in *; lia.
        -- destruct (Ascii.eqb e "u"); [|discriminate].
           destruct r1 as [|h1 [|h2 [|h3 [|h4 r2]]]]; try discriminate.
           simpl in Hn.
           destruct (hex4 h1 h2 h3 h4) as [code|]; [|discriminate].
           destruct (if is_high code then low_escape r2 else None) as [lo|].
           ++ destruct r2 as [|a1 [|a2 [|a3 [|a4 [|a5 [|a6 r3]]]]]];
                apply cons_text_length in H; destruct H as (t' & H);
                apply IH in H; simpl in *; lia.
           ++ apply cons_text_length in H. destruct H as (t' & H).
              apply IH in H; simpl in *; lia.
      * destruct (nat_of_ascii c <? 32)%nat; [discriminate|].
        apply cons_char_length in H. destruct H as (t' & H).
        apply IH in H; simpl in *; lia.
Qed.

Lemma strip_prefix_length p : forall s r,
  strip_prefix p s = Some r -> String.length s = String.length p + String.length r.
Proof.
  induction p as [|a p IH]; intros s r H; simpl in H.
  - now injection H as <-.
  - destruct s as [|b s]; [discriminate|]. destruct (Ascii.eqb a b); [|discriminate].
    apply IH in H. simpl. lia.
Qed.

Lemma scan_number_length s l r :
  scan_number s = Some (l, r) -> String.length r < String.length s.
Proof.
  intros H. pose proof (scan_num_split _ _ _ _ H) as E. subst s.
  rewrite length_append. destruct l; [|simpl; lia].
  unfold scan_number in H. simpl in H. destruct r as [|c r]; simpl in H; [discriminate|].
  destruct (Ascii.eqb c "-").
  - destruct (scan_num NMinus r) as [[]|]; discriminate.
  - destruct (Ascii.eqb c "0").
    + destruct (scan_num NZero r) as [[]|]; discriminate.
    + destruct (is_digit c); [|discriminate].
      destruct (scan_num NInt r) as [[]|]; discriminate.
Qed.

Lemma adequate_all : forall f, adequate f.
Proof.
  induction f as [|f (IHv & IHe & IHm)]; [repeat split; discriminate|].
  split; [|split].
  - intros s v r. rewrite parse_value_S.
    pose proof (skip_ws_length s) as Ls.
    destruct (skip_ws s) as [|c r0] eqn:Es; [discriminate|]. simpl in Ls.
    intros H.
    assert (Done : String.length r < String.length s ->
                   (forall f0, parse_value (S f0) s = Some (v, r)) ->
                   String.length r < String.length s
                   /\ forall f', String.length s - String.length r <= f' ->
                                 parse_value f' s = Some (v, r)).
    { intros Hl Hf. split; [exact Hl|]. intros [|f0] Hf'; [lia|apply Hf]. }
    destruct (Ascii.eqb c dquote) eqn:Eq.
    { destruct (parse_chars r0) as [[t r']|] eqn:Ec; [|discriminate].
      injection H as <- <-.
      pose proof (parse_chars_length _ _ _ _ (le_n _) Ec) as Lc.
      apply Done; [lia|]. intros f0. now rewrite parse_value_S, Es, Eq, Ec. }
    destruct (Ascii.eqb c "[") eqn:Ea.
    { pose proof (skip_ws_length r0) as Lr.
      destruct (skip_ws r0) as [|c' r1] eqn:Er; [discriminate|]. simpl in Lr.
      destruct (Ascii.eqb c' "]") eqn:Eb.
      - injection H as <- <-. apply Done; [lia|].
        intros f0. now rewrite parse_value_S, Es, Eq, Ea, Er, Eb.
      - destruct (parse_elems f r0) as [[xs r'']|] eqn:Ee; [|discriminate].
        injection H as <- <-. destruct (IHe _ _ _ Ee) as [Le Fe].
        split; [lia|]. intros [|f0] Hf'; [lia|].
        rewrite parse_value_S, Es, Eq, Ea, Er, Eb, Fe; [reflexivity|lia]. }
    destruct (Ascii.eqb c "{") eqn:Eo.
    { pose proof (skip_ws_length r0) as Lr.
      destruct (skip_ws r0) as [|c' r1] eqn:Er; [discriminate|]. simpl in Lr.
      destruct (Ascii.eqb c' "}") eqn:Eb.
      - injection H as <- <-. apply Done; [lia|].
        intros f0. now rewrite parse_value_S, Es, Eq, Ea, Eo, Er, Eb.
      - destruct (parse_members f r0) as [[fs r'']|] eqn:Ee; [|discriminate].
        injection H as <- <-. destruct (IHm _ _ _ Ee) as [Le Fe].
        split; [lia|]. intros [|f0] Hf'; [lia|].
        rewrite parse_value_S, Es, Eq, Ea, Eo, Er, Eb, Fe; [reflexivity|lia]. }
    destruct (Ascii.eqb c "n") eqn:En.
    { destruct (strip_prefix "null" (String c r0)) as [r'|] eqn:Ep; [|discriminate].
      injection H as <- <-. apply strip_prefix_length in Ep as Lp. simpl in Lp.
      apply Done; [lia|]. intros f0. now rewrite parse_value_S, Es, Eq, Ea, Eo, En, Ep. }
    destruct (Ascii.eqb c "t") eqn:Et.
    { destruct (strip_prefix "true" (String c r0)) as [r'|] eqn:Ep; [|discriminate].
      injection H as <- <-. apply strip_prefix_length in Ep as Lp. simpl in Lp.
      apply Done; [lia|].
      intros f0. now rewrite parse_value_S, Es, Eq, Ea, Eo, En, Et, Ep. }
    destruct (Ascii.eqb c "f") eqn:Ef.
    { destruct (strip_prefix "false" (String c r0)) as [r'|] eqn:Ep; [|discriminate].
      injection H as <- <-. apply strip_prefix_length in Ep as Lp. simpl in Lp.
      apply Done; [lia|].
      intros f0. now rewrite parse_value_S, Es, Eq, Ea, Eo, En, Et, Ef, Ep. }
    destruct (scan_number (String c r0)) as [[l r']|] eqn:En'; [|discriminate].
    injection H as <- <-. apply scan_number_length in En' as Ln. simpl in Ln.
    apply Done; [lia|].
    intros f0. now rewrite parse_value_S, Es, Eq, Ea, Eo, En, Et, Ef, En'.
  - intros s vs r. rewrite parse_elems_S.
    destruct (parse_value f s) as [[v r1]|] eqn:Ev; [|discriminate].
    destruct (IHv _ _ _ Ev) as [Lv Fv].
    pose proof (skip_ws_length r1) as Lr.
    destruct (skip_ws r1) as [|c r2] eqn:Er; [discriminate|]. simpl in Lr.
    destruct (Ascii.eqb c ",") eqn:Ec.
    + destruct (parse_elems f r2) as [[vs' r3]|] eqn:Ee; [|discriminate].
      intros [= <- <-]. destruct (IHe _ _ _ Ee) as [Le Fe].
      split; [lia|]. intros [|f0] Hf'; [lia|].
      rewrite parse_elems_S, Fv, Er, Ec, Fe; [reflexivity|lia|lia].
    + destruct (Ascii.eqb c "]") eqn:Eb; [|discriminate].
      intros [= <- <-]. split; [lia|]. intros [|f0] Hf'; [lia|].
      rewrite parse_elems_S, Fv, Er, Ec, Eb; [reflexivity|lia].
  - intros s fs r. rewrite parse_members_S.
    pose proof (skip_ws_length s) as Ls.
    destruct (skip_ws s) as [|q r0] eqn:Es; [discriminate|]. simpl in Ls.
    destruct (Ascii.eqb q dquote) eqn:Eq; [|discriminate].
    destruct (parse_chars r0) as [[k r1]|] eqn:Ek; [|discriminate].
    pose proof (parse_chars_length _ _ _ _ (le_n _) Ek) as Lk.
    pose proof (skip_ws_length r1) as Lr1.
    destruct (skip_ws r1) as [|c1 r2] eqn:Er1; [discriminate|]. simpl in Lr1.
    destruct (Ascii.eqb c1 ":") eqn:Ec1; [|discriminate].
    destruct (parse_value f r2) as [[v r3]|] eqn:Ev; [|discriminate].
    destruct (IHv _ _ _ Ev) as [Lv Fv].
    pose proof (skip_ws_length r3) as Lr3.
    destruct (skip_ws r3) as [|c r4] eqn:Er3; [discriminate|]. simpl in Lr3.
    destruct (Ascii.eqb c ",") eqn:Ec.
    + destruct (parse_members f r4) as [[fs' r5]|] eqn:Em; [|discriminate].
      intros [= <- <-]. destruct (IHm _ _ _ Em) as [Lm Fm].
      split; [lia|]. intros [|f0] Hf'; [lia|].
      rewrite parse_members_S, Es, Eq, Ek, Er1, Ec1, Fv, Er3, Ec, Fm; [reflexivity|lia|lia].
    + destruct (Ascii.eqb c "}") eqn:Eb; [|discriminate].
      intros [= <- <-]. split; [lia|]. intros [|f0] Hf'; [lia|].
      rewrite parse_members_S, Es, Eq, Ek, Er1, Ec1, Fv, Er3, Ec, Eb; [reflexivity|lia].
Qed.

(** No text fails for lack of fuel: a value that some fuel reads from a
    text, with nothing but blanks after it, is what [parse] returns. *)
Theorem parse_fuel (f : nat) (text : string) (v : value) (r : string) :
  parse_value f text = Some (v, r) -> skip_ws r = "" -> parse text = Some v.
Proof.
  intros H E. destruct (adequate_all f) as (Av & _ & _).
  destruct (Av _ _ _ H) as [_ F]. unfold parse. rewrite F by lia. now rewrite E.
Qed.
End JsonFacts.

(* ================================================================== *)
(** ** Facts about base64 *)

Module Base64Facts.
Import Base64.

Lemma value_of_digit (x : sextet) : value_of (digit x) = Some x.
Proof. destruct x as [[[[[[] []] []] []] []] []]; reflexivity. Qed.

Lemma digit_not_pad (x : sextet) : Ascii.eqb (digit x) "=" = false.
Proof. destruct x as [[[[[[] []] []] []] []] []]; reflexivity. Qed.

Lemma digits_digit (x : sextet) (s : string) :
  digits (String (digit x) s) = x :: digits s.
Proof. simpl. now rewrite digit_not_pad, value_of_digit. Qed.

Lemma digits_pad (s : string) : digits (pad ++ s) = [].
Proof. reflexivity. Qed.

(** Induction on a byte string three bytes at a time. *)
Lemma bytes_induction (P : string -> Prop) :
  P "" ->
  (forall a, P (String a "")) ->
  (forall a b, P (String a (String b ""))) ->
  (forall a b c rest, P rest -> P (String a (String b (String c rest)))) ->
  forall s, P s.
Proof.
  intros H0 H1 H2 H3 s.
  assert (H : P s /\ (forall a, P (String a s)) /\ (forall a b, P (String a (String b s)))).
  { induction s as [|c s (IH0 & IH1 & IH2)]; [now repeat split|].
    repeat split; auto. }
  apply H.
Qed.

(** A character below 128 is its own code unit. *)
Lemma low_bytes_ascii (a : ascii) (rest : string) :
  (N_of_ascii a < 128)%N -> low_bytes (String a rest) = String a (low_bytes rest).
Proof.
  intros H. cbn [low_bytes].
  assert (H2 : (192 <=? N_of_ascii a)%N = false) by (apply N.leb_gt; lia).
  assert (H3 : (224 <=? N_of_ascii a)%N = false) by (apply N.leb_gt; lia).
  assert (H4 : (240 <=? N_of_ascii a)%N = false) by (apply N.leb_gt; lia).
  rewrite H2, H3, H4. cbn [andb].
  destruct rest as [|b [|c [|d rest]]]; reflexivity.
Qed.

Lemma low_bytes_digit (x : sextet) (s : string) :
  low_bytes (String (digit x) s) = String (digit x) (low_bytes s).
Proof.
  apply low_bytes_ascii. destruct x as [[[[[[] []] []] []] []] []]; reflexivity.
Qed.

Lemma low_bytes_pad (s : string) : low_bytes (pad ++ s) = pad ++ low_bytes s.
Proof. apply (low_bytes_ascii "="%char s). reflexivity. Qed.

(** The text [encode] writes holds digits and padding only. *)
Lemma low_bytes_encode (bytes : string) : low_bytes (encode bytes) = encode bytes.
Proof.
  induction bytes as [|a|a b|a b c rest IH] using bytes_induction.
  - reflexivity.
  - destruct a as [a0 a1 a2 a3 a4 a5 a6 a7].
    cbn [encode]. now rewrite !low_bytes_digit, !low_bytes_pad.
  - destruct a as [a0 a1 a2 a3 a4 a5 a6 a7], b as [b0 b1 b2 b3 b4 b5 b6 b7].
    cbn [encode]. now rewrite !low_bytes_digit.
  - destruct a as [a0 a1 a2 a3 a4 a5 a6 a7], b as [b0 b1 b2 b3 b4 b5 b6 b7],
      c as [c0 c1 c2 c3 c4 c5 c6 c7].
    cbn [encode]. now rewrite !low_bytes_digit, IH.
Qed.

Theorem decode_encode (bytes : string) : decode (encode bytes) = bytes.
Proof.
  unfold decode. rewrite low_bytes_encode. induction bytes as [|a|a b|a b c rest IH] using bytes_induction.
  - reflexivity.
  - destruct a as [a0 a1 a2 a3 a4 a5 a6 a7].
    cbn [encode]. rewrite !digits_digit, digits_pad. reflexivity.
  - destruct a as [a0 a1 a2 a3 a4 a5 a6 a7], b as [b0 b1 b2 b3 b4 b5 b6 b7].
    cbn [encode]. rewrite !digits_digit.
    change (digits pad) with (@nil sextet). reflexivity.
  - destruct a as [a0 a1 a2 a3 a4 a5 a6 a7], b as [b0 b1 b2 b3 b4 b5 b6 b7],
      c as [c0 c1 c2 c3 c4 c5 c6 c7].
    cbn [encode]. rewrite !digits_digit. cbn [bytes_of]. now rewrite IH.
Qed.

Lemma encode_nonempty (bytes : string) : bytes <> "" -> encode bytes <> "".
Proof.
  destruct bytes as [|[a0 a1 a2 a3 a4 a5 a6 a7] [|[b0 b1 b2 b3 b4 b5 b6 b7] [|[c0 c1 c2 c3 c4 c5 c6 c7] r]]];
    [congruence| | |]; intros _; cbn [encode]; discriminate.
Qed.
End Base64Facts.

(* ================================================================== *)
(** ** Facts about the service *)

Module EsFacts.
Import Js Kobp Es StrFacts JsonFacts Base64Facts.

(** *** Outcomes of computations *)

Lemma result_bind {A B : Type} (m : M A) (k : A -> M B) :
  result (bind m k)
  = match result m with
    | Ok a => result (k a)
    | Throw e => Throw e
    end.
Proof. destruct m as [out [a|e]]; simpl; [destruct (k a)|]; reflexivity. Qed.

Lemma result_catch {A : Type} (m : M A) (handler : error -> M A) :
  result (catch m handler)
  = match result m with
    | Ok a => Ok a
    | Throw e => result (handler e)
    end.
Proof. destruct m as [out [a|e]]; simpl; [|destruct (handler e)]; reflexivity. Qed.

Lemma result_throwElasticSearchError {A : Type} (e : error) :
  result (@_throwElasticSearchError A e) = Throw (gatewayError e).
Proof.
  unfold _throwElasticSearchError, _logElasticSearchError.
  destruct (meta_of e); reflexivity.
Qed.

Lemma gatewayError_server (e : error) : is_server_error (gatewayError e) = true.
Proof. reflexivity. Qed.

(** *** The cursor *)

Lemma truthy_text (v : Js.value) :
  truthy v = true -> exists t, Json.stringify v = Some t /\ t <> "".
Proof.
  destruct v as [| |b|l|s|xs|fs]; simpl; intros H; try discriminate.
  - subst. now exists "true".
  - exists l. split; [reflexivity|]. intros ->. discriminate.
  - eexists. split; [reflexivity|]. discriminate.
  - eexists. split; [reflexivity|]. discriminate.
  - eexists. split; [reflexivity|]. discriminate.
Qed.

(** A truthy sort value always gives a token. *)
Lemma encodeCursor_truthy (v : Js.value) :
  truthy v = true ->
  exists token, encodeCursor v = Ok (Some token) /\ token <> ""
                /\ token = Base64.encode (Json.text v).
Proof.
  intros H. destruct (truthy_text v H) as (t & E & Ht).
  exists (Base64.encode t). unfold encodeCursor, Json.text. rewrite E.
  pose proof (encode_nonempty t Ht) as Hn.
  destruct (String.eqb_spec (Base64.encode t) ""); [contradiction|]. auto.
Qed.

Section Service.
Variable toLowerCase : string -> string.
Variable md5_base64 : string -> string.
Variable syntaxErrorMessage : string -> string.
Variable ProductModel : Type.
Variable Deserialize : Js.value -> ProductModel.
Variable BrandEntity : Type.
Variable em_find : list string -> outcome (list BrandEntity).
Variable client_update : Js.value -> outcome unit.
Variable client_search : Js.value -> outcome (SearchBody ProductListSuggestResult).
Variable client_search_brands : Js.value -> outcome (SearchBody BrandListSuggestResult).

Local Abbreviation decodeCursor := (Es.decodeCursor syntaxErrorMessage).
Local Abbreviation compileRequest := (Es.compileRequest toLowerCase syntaxErrorMessage).
Local Abbreviation listProducts :=
  (Es.listProducts toLowerCase syntaxErrorMessage ProductModel Deserialize client_search).
Local Abbreviation listBrands :=
  (Es.listBrands syntaxErrorMessage BrandEntity em_find client_search_brands).

(** The token of a JSON value decodes to the value. *)
Lemma decodeCursor_encode (v : Js.value) :
  Json.is_json v = true ->
  decodeCursor (Base64.encode (Json.text v)) = Ok v.
Proof.
  intros H. unfold Es.decodeCursor. rewrite decode_encode.
  destruct (parse_stringify v H) as (t & E & P).
  rewrite (stringify_text v H) in E. injection E as <-. now rewrite P.
Qed.

(** *** The hit callback *)

Lemma mapHits_other {I : Type} (toItem : Hit -> I) size len :
  Z.of_nat len <> size ->
  forall arr index token,
    mapHits toItem size len index arr token = Ok (map toItem arr, token).
Proof.
  intros Hne. induction arr as [|item rest IH]; intros index token; [reflexivity|].
  cbn [mapHits]. destruct (Z.eqb_spec (Z.of_nat len) size) as [E|_]; [contradiction|].
  rewrite andb_false_r, IH. reflexivity.
Qed.

Lemma mapHits_full {I : Type} (toItem : Hit -> I) size len :
  Z.of_nat len = size ->
  forall front h index token,
    len = (index + List.length front + 1)%nat ->
    mapHits toItem size len index (front ++ [h])%list token
    = if negb (truthy (sort h))
      then Throw (Kobp (fromServer badGateway "Sort is missing from query result!" None))
      else match encodeCursor (sort h) with
           | Ok token' => Ok (map toItem (front ++ [h])%list, token')
           | Throw e => Throw e
           end.
Proof.
  intros Hsize. induction front as [|item front IH]; intros h index token Hlen.
  - simpl in Hlen. cbn [app mapHits].
    replace (Z.of_nat index =? Z.of_nat len - 1)%Z with true
      by (symmetry; apply Z.eqb_eq; lia).
    replace (Z.of_nat len =? size)%Z with true by (symmetry; now apply Z.eqb_eq).
    cbn [andb]. destruct (negb (truthy (sort h))); [reflexivity|].
    destruct (encodeCursor (sort h)); reflexivity.
  - simpl in Hlen. cbn [app mapHits].
    replace (Z.of_nat index =? Z.of_nat len - 1)%Z with false
      by (symmetry; apply Z.eqb_neq; lia).
    cbn [andb]. rewrite (IH h (S index) token) by lia.
    destruct (negb (truthy (sort h))); [reflexivity|].
    destruct (encodeCursor (sort h)); reflexivity.
Qed.

(** *** The outcome of [listProducts], step by step *)

Lemma listProducts_result (options : ListProductsOptions) (slugs : list string) :
  result (listProducts options slugs)
  = wrapped
      match compileRequest options slugs with
      | Throw e => Throw e
      | Ok requestBody =>
          match client_search (Es.searchRequest requestBody) with
          | Throw e => Throw e
          | Ok body =>
              match mapHits (fun item => Deserialize (_source item)) (size options)
                      (List.length (elems_of (hits body))) 0 (elems_of (hits body)) None
              with
              | Throw e => Throw e
              | Ok mapped =>
                  match suggestionsOf (suggest body) with
                  | Throw e => Throw e
                  | Ok suggestionProduct =>
                      Ok {| Products.nextToken := snd mapped;
                            Products.total := totalOf (total body) (List.length (fst mapped));
                            Products.filterableAttributes := facetsOf (aggregations body);
                            Products.suggestionProduct := suggestionProduct;
                            Products.items := fst mapped |}
                  end
              end
          end
      end.
Proof.
  unfold Es.listProducts. rewrite result_catch, result_bind.
  cbn [lift result snd].
  destruct (compileRequest options slugs) as [requestBody|e]; cbn [wrapped];
    [|now rewrite result_throwElasticSearchError].
  rewrite !result_bind. cbn [lift result snd console_log].
  destruct (client_search _) as [body|e]; cbn [wrapped];
    [|now rewrite result_throwElasticSearchError].
  rewrite !result_bind. cbn [lift result snd].
  destruct (mapHits _ _ _ _ _ _) as [mapped|e]; cbn [wrapped];
    [|now rewrite result_throwElasticSearchError].
  rewrite !result_bind. cbn [lift result snd].
  destruct (suggestionsOf _) as [sp|e]; cbn [wrapped];
    [|now rewrite result_throwElasticSearchError].
  reflexivity.
Qed.


(** *** Reading the compiled request *)

Lemma queryNode_should (options : ListProductsOptions) :
  elements (get ["bool"; "should"] (Es.queryNodeOf toLowerCase options))
  = Es.queryShouldOf options.
Proof.
  unfold Es.queryNodeOf.
  destruct (Es.queryShouldOf options), (Es.queryMustOf toLowerCase options),
    (Es.queryBoolFiltersOf options); reflexivity.
Qed.

Lemma queryNode_must (options : ListProductsOptions) :
  elements (get ["bool"; "must"] (Es.queryNodeOf toLowerCase options))
  = Es.queryMustOf toLowerCase options.
Proof.
  unfold Es.queryNodeOf.
  destruct (Es.queryShouldOf options), (Es.queryMustOf toLowerCase options),
    (Es.queryBoolFiltersOf options); reflexivity.
Qed.

Lemma queryNode_filter (options : ListProductsOptions) :
  elements (get ["bool"; "filter"] (Es.queryNodeOf toLowerCase options))
  = Es.queryBoolFiltersOf options.
Proof.
  unfold Es.queryNodeOf.
  destruct (Es.queryShouldOf options), (Es.queryMustOf toLowerCase options),
    (Es.queryBoolFiltersOf options); reflexivity.
Qed.

Lemma compileRequest_fields (options : ListProductsOptions) (slugs : list string)
  (requestBody : Js.value) :
  compileRequest options slugs = Ok requestBody ->
  exists sortNode,
    sortNodeOf options = Ok sortNode
    /\ field "size" requestBody = num (size options)
    /\ field "query" requestBody = Es.queryNodeOf toLowerCase options
    /\ field "sort" requestBody = VArr sortNode
    /\ field "aggs" requestBody = aggsOf options slugs.
Proof.
  unfold Es.compileRequest. destruct (sortNodeOf options) as [sortNode|e]; [|discriminate].
  intros H. exists sortNode. split; [reflexivity|].
  assert (B : forall extra,
             let body := match Es.requestBodyOf toLowerCase options slugs sortNode with
                         | VObj fs => VObj (fs ++ extra)%list
                         | other => other
                         end in
             field "size" body = num (size options)
             /\ field "query" body = Es.queryNodeOf toLowerCase options
             /\ field "sort" body = VArr sortNode
             /\ field "aggs" body = aggsOf options slugs).
  { intros extra. unfold Es.requestBodyOf.
    destruct (negb (isEmpty (Es.suggestProductsOf options))); repeat split. }
  destruct (nextToken options) as [token|].
  - destruct (truthy_str (Some token)).
    + destruct (decodeCursor token) as [searchAfter|e]; [|discriminate].
      injection H as <-. apply (B [("search_after", searchAfter)]).
    + injection H as <-. specialize (B []). cbv zeta in B.
      unfold Es.requestBodyOf in *. rewrite app_nil_r in B. exact B.
  - injection H as <-. specialize (B []). cbv zeta in B.
    unfold Es.requestBodyOf in *. rewrite app_nil_r in B. exact B.
Qed.

Lemma compileRequest_sections (options : ListProductsOptions) (slugs : list string)
  (requestBody : Js.value) :
  compileRequest options slugs = Ok requestBody ->
  should_of requestBody = Es.queryShouldOf options
  /\ must_of requestBody = Es.queryMustOf toLowerCase options
  /\ filters_of requestBody = Es.queryBoolFiltersOf options
  /\ aggs_of requestBody = aggsOf options slugs.
Proof.
  intros H. destruct (compileRequest_fields _ _ _ H) as (sortNode & _ & _ & Q & _ & A).
  unfold should_of, must_of, filters_of, aggs_of. cbn [get]. rewrite Q, A.
  repeat split; [apply queryNode_should | apply queryNode_must | apply queryNode_filter].
Qed.

Lemma truthy_str_some (t : string) : t <> "" -> truthy_str (Some t) = true.
Proof. intros H. simpl. now destruct (String.eqb_spec t ""). Qed.

Lemma aggs_brands (options : ListProductsOptions) (slugs : list string) :
  has_key "brands" (aggsOf options slugs) = negb (truthy_str (brandId options))
  /\ (truthy_str (brandId options) = false ->
      field "brands" (aggsOf options slugs) = terms_facet "annotatedBrand").
Proof.
  unfold aggsOf, aggBrandIdOf, aggCategoryOf, aggColorSwatchOf.
  destruct (truthy_str (brandId options)), (truthy_str (category options)),
    (existsb _ slugs); split; try reflexivity; discriminate.
Qed.

Lemma aggs_categories (options : ListProductsOptions) (slugs : list string) :
  has_key "categorySlugs" (aggsOf options slugs) = negb (truthy_str (category options)).
Proof.
  unfold aggsOf, aggBrandIdOf, aggCategoryOf, aggColorSwatchOf.
  destruct (truthy_str (brandId options)), (truthy_str (category options)),
    (existsb _ slugs); reflexivity.
Qed.

(** C1.  In every compiled request: a brand pin (a non-empty
    [options.brandId]) puts the exact filter [{term: {annotatedBrand: id}}]
    in the filter section and leaves the brand facet out of the
    aggregations; a brand set without a pin puts the filter
    [{terms: {annotatedBrand: ids}}] in the filter section and keeps the
    brand facet, the terms aggregation on [annotatedBrand] ordered by
    descending count; a category pin puts [{term: {categorySlugs: slug}}]
    in and leaves the category facet out; and each of the two facets is in
    the aggregations, as that terms aggregation on its field, exactly when
    its dimension is not pinned. *)
Theorem listProducts_pins_and_facets (options : ListProductsOptions)
  (slugs : list string) (requestBody : Js.value) :
  compileRequest options slugs = Ok requestBody ->
  (forall b, brandId options = Some b -> b <> "" ->
     In (VObj [("term", VObj [("annotatedBrand", VStr b)])]) (filters_of requestBody)
     /\ has_key "brands" (aggs_of requestBody) = false)
  /\ (forall ids, truthy_str (brandId options) = false ->
        brands options = Some ids -> ids <> [] ->
        In (VObj [("terms", VObj [("annotatedBrand", VArr (map VStr ids))])])
          (filters_of requestBody)
        /\ field "brands" (aggs_of requestBody)
           = VObj [("terms", VObj [("field", VStr "annotatedBrand");
                                   ("order", VObj [("_count", VStr "desc")])])])
  /\ (forall c, category options = Some c -> c <> "" ->
        In (VObj [("term", VObj [("categorySlugs", VStr c)])]) (filters_of requestBody)
        /\ has_key "categorySlugs" (aggs_of requestBody) = false)
  /\ has_key "brands" (aggs_of requestBody) = negb (truthy_str (brandId options))
  /\ has_key "categorySlugs" (aggs_of requestBody) = negb (truthy_str (category options))
  /\ (truthy_str (brandId options) = false ->
      field "brands" (aggs_of requestBody)
      = VObj [("terms", VObj [("field", VStr "annotatedBrand");
                              ("order", VObj [("_count", VStr "desc")])])])
  /\ (truthy_str (category options) = false ->
      field "categorySlugs" (aggs_of requestBody)
      = VObj [("terms", VObj [("field", VStr "categorySlugs");
                              ("order", VObj [("_count", VStr "desc")])])]).
Proof.
  intros H. destruct (compileRequest_sections _ _ _ H) as (_ & _ & F & A).
  rewrite F, A.
  destruct (aggs_brands options slugs) as [Hb Hb'].
  pose proof (aggs_categories options slugs) as Hc.
  split; [|split; [|split; [|split; [|split; [|split]]]]].
  - intros b Eb Nb. split.
    + unfold Es.queryBoolFiltersOf. rewrite Eb, (truthy_str_some b Nb).
      apply in_or_app. right. apply in_or_app. left. now left.
    + rewrite Hb, Eb, (truthy_str_some b Nb). reflexivity.
  - intros ids Tb Ei Ni. split.
    + unfold Es.queryBoolFiltersOf. rewrite Ei.
      destruct ids as [|i ids]; [congruence|]. cbn [truthy_list elems_of].
      do 3 (apply in_or_app; right). now left.
    + now apply Hb'.
  - intros c Ec Nc. split.
    + unfold Es.queryBoolFiltersOf. rewrite Ec, (truthy_str_some c Nc).
      do 2 (apply in_or_app; right). apply in_or_app. left. now left.
    + rewrite Hc, Ec, (truthy_str_some c Nc). reflexivity.
  - exact Hb.
  - exact Hc.
  - exact Hb'.
  - intros Tc. unfold aggsOf, aggBrandIdOf, aggCategoryOf, aggColorSwatchOf.
    rewrite Tc. destruct (truthy_str (brandId options)); reflexivity.
Qed.


(** *** Price range *)

Lemma filter_map_none {A : Type} (f : A -> Js.value) (xs : list A) :
  (forall x, is_range (f x) = false) -> filter is_range (map f xs) = [].
Proof.
  intros H. induction xs as [|x xs IH]; [reflexivity|].
  simpl. now rewrite H.
Qed.

Lemma ranges_should (options : ListProductsOptions) :
  filter is_range (Es.queryShouldOf options) = [].
Proof.
  unfold Es.queryShouldOf. rewrite filter_app.
  assert (C : filter is_range
                (if truthy_list (categories options)
                 then map (fun item => obj1 "match" (obj1 "categorySlugs" (VStr item)))
                        (elems_of (categories options))
                 else []) = []).
  { destruct (truthy_list (categories options)); [|reflexivity].
    now apply filter_map_none. }
  rewrite C, app_nil_r.
  destruct (keyword options) as [k|]; [|reflexivity].
  destruct (truthy_str (Some k)); reflexivity.
Qed.

Lemma ranges_filters (options : ListProductsOptions) :
  filter is_range (Es.queryBoolFiltersOf options) = [].
Proof.
  unfold Es.queryBoolFiltersOf. rewrite !filter_app.
  destruct (mallId options) as [m|], (brandId options) as [b|],
    (category options) as [c|], (truthy_list (brands options));
    cbn [truthy_str];
    repeat match goal with
           | |- context [negb (?t =? "")] => destruct (negb (t =? ""))
           end; reflexivity.
Qed.

Lemma ranges_must (options : ListProductsOptions) :
  filter is_range (Es.queryMustOf toLowerCase options)
  = if truthy_num (minPrice options) || truthy_num (maxPrice options)
    then [range "gte" (of_opt_num (minPrice options));
          range "lte" (of_opt_num (maxPrice options))]
    else [].
Proof.
  unfold Es.queryMustOf. rewrite !filter_app.
  destruct (truthy_list (skus options)), (truthy_list (color options)),
    (truthy_num (minPrice options) || truthy_num (maxPrice options)); reflexivity.
Qed.

(** C4, as the code has it.  In every compiled request the price range
    clauses are: when [minPrice] or [maxPrice] is given and is not zero,
    exactly two, [gte: minPrice] and [lte: maxPrice], both in the must
    section; none when each bound is absent or zero.  A bound that is
    absent is [undefined] in its clause, which the request's JSON text
    leaves out. *)
Theorem listProducts_price_range (options : ListProductsOptions)
  (slugs : list string) (requestBody : Js.value) :
  compileRequest options slugs = Ok requestBody ->
  let ranges clauses := filter is_range clauses in
  ranges (should_of requestBody) = []
  /\ ranges (filters_of requestBody) = []
  /\ (truthy_num (minPrice options) || truthy_num (maxPrice options) = true ->
      ranges (must_of requestBody)
      = [VObj [("range",
                VObj [("actualMinPrice", VObj [("gte", of_opt_num (minPrice options))])])];
         VObj [("range",
                VObj [("actualMinPrice", VObj [("lte", of_opt_num (maxPrice options))])])]])
  /\ (truthy_num (minPrice options) || truthy_num (maxPrice options) = false ->
      ranges (must_of requestBody) = [])
  /\ (forall bound,
        Json.stringify
          (VObj [("range", VObj [("actualMinPrice", VObj [(bound, VUndefined)])])])
        = Json.stringify (VObj [("range", VObj [("actualMinPrice", VObj [])])])).
Proof.
  intros H ranges. destruct (compileRequest_sections _ _ _ H) as (S & M & F & _).
  unfold ranges. rewrite S, M, F, ranges_should, ranges_filters, ranges_must.
  repeat split.
  - intros T. now rewrite T.
  - intros T. now rewrite T.
Qed.

(** *** Sorting *)

Lemma sortNode_price (options : ListProductsOptions) (token pre mid post : string) :
  sortBy options = Some token ->
  token = pre ++ mid ++ post ->
  Str.fold_string mid = Str.fold_string "price" ->
  Str.test_i "createdAt" token = false ->
  sortNodeOf options
  = Ok [obj1 "_score" (VStr "desc");
        obj1 "actualMinPrice" (VStr (if Str.charAt0_is "-" token then "desc" else "asc"));
        obj1 "id" (VStr "asc")].
Proof.
  intros Hs -> Hm Hc. unfold sortNodeOf. rewrite Hs.
  assert (N : pre ++ mid ++ post <> "").
  { destruct mid; [discriminate|]. destruct pre; discriminate. }
  rewrite (truthy_str_some _ N). unfold sortField.
  rewrite Hc, (test_i_occurrence "price" pre mid post Hm). reflexivity.
Qed.

(** X1.  The sort directive of a token that holds "price" in any letter case
    and does not match the createdAt alias names [actualMinPrice], between
    the relevance score and the id tiebreak. *)
Theorem listProducts_sort_price (options : ListProductsOptions)
  (slugs : list string) (requestBody : Js.value) (token pre mid post : string) :
  compileRequest options slugs = Ok requestBody ->
  sortBy options = Some token ->
  token = pre ++ mid ++ post ->
  Str.fold_string mid = Str.fold_string "price" ->
  Str.test_i "createdAt" token = false ->
  sort_of requestBody
  = [obj1 "_score" (VStr "desc");
     obj1 "actualMinPrice" (VStr (if Str.charAt0_is "-" token then "desc" else "asc"));
     obj1 "id" (VStr "asc")].
Proof.
  intros H Hs Ht Hm Hc.
  destruct (compileRequest_fields _ _ _ H) as (sortNode & E & _ & _ & S & _).
  rewrite (sortNode_price options token pre mid post Hs Ht Hm Hc) in E.
  injection E as <-. unfold sort_of. now rewrite S.
Qed.

(** X9.  A token no alias matches: the client error the sort step throws leaves
    [listProducts] as the gateway error made of it. *)
Theorem listProducts_unknown_sort (options : ListProductsOptions)
  (slugs : list string) (token : string) :
  sortBy options = Some token -> token <> "" ->
  Str.test_i "createdAt" token = false -> Str.test_i "price" token = false ->
  Str.test_i "discountPercent" token = false -> Str.test_i "id" token = false ->
  sortNodeOf options
  = Throw (Kobp (fromUserInput badRequest ("Unknown sort by option: " ++ token)))
  /\ result (listProducts options slugs)
     = Throw (Kobp (fromServer badGateway "ElasticSearch encountered an error"
                      (Some ("Unknown sort by option: " ++ token)))).
Proof.
  intros Hs Hn H1 H2 H3 H4.
  assert (E : sortNodeOf options
              = Throw (Kobp (fromUserInput badRequest ("Unknown sort by option: " ++ token)))).
  { unfold sortNodeOf. rewrite Hs, (truthy_str_some _ Hn). unfold sortField.
    now rewrite H1, H2, H3, H4. }
  split; [exact E|].
  rewrite listProducts_result. unfold Es.compileRequest. rewrite E. reflexivity.
Qed.


(** *** Successful calls *)

Lemma listProducts_ok (options : ListProductsOptions) (slugs : list string)
  (r : Products.ListProductsResult ProductModel) :
  result (listProducts options slugs) = Ok r ->
  exists requestBody body mapped suggestionProduct,
    compileRequest options slugs = Ok requestBody
    /\ client_search (Es.searchRequest requestBody) = Ok body
    /\ mapHits (fun item => Deserialize (_source item)) (size options)
         (List.length (elems_of (hits body))) 0 (elems_of (hits body)) None = Ok mapped
    /\ suggestionsOf (suggest body) = Ok suggestionProduct
    /\ r = {| Products.nextToken := snd mapped;
              Products.total := totalOf (total body) (List.length (fst mapped));
              Products.filterableAttributes := facetsOf (aggregations body);
              Products.suggestionProduct := suggestionProduct;
              Products.items := fst mapped |}.
Proof.
  rewrite listProducts_result.
  destruct (compileRequest options slugs) as [requestBody|e]; [|discriminate].
  destruct (client_search _) as [body|e] eqn:S; [|discriminate].
  destruct (mapHits _ _ _ _ _ _) as [mapped|e] eqn:Hm; [|discriminate].
  destruct (suggestionsOf _) as [sp|e] eqn:Hs; [|discriminate].
  cbn [wrapped]. intros [= <-]. now exists requestBody, body, mapped, sp.
Qed.

Lemma mapHits_items {I : Type} (toItem : Hit -> I) size len :
  forall arr index token mapped,
    mapHits toItem size len index arr token = Ok mapped ->
    fst mapped = map toItem arr.
Proof.
  induction arr as [|item rest IH]; intros index token mapped H.
  - injection H as <-. reflexivity.
  - cbn [mapHits] in H.
    destruct ((Z.of_nat index =? Z.of_nat len - 1)%Z && (Z.of_nat len =? size)%Z).
    + destruct (negb (truthy (sort item))); [discriminate|].
      destruct (encodeCursor (sort item)) as [token'|]; [|discriminate].
      destruct (mapHits toItem size len (S index) rest token') as [[items t]|] eqn:E;
        [|discriminate].
      injection H as <-. simpl. f_equal. apply (IH _ _ _ E).
    + destruct (mapHits toItem size len (S index) rest token) as [[items t]|] eqn:E;
        [|discriminate].
      injection H as <-. simpl. f_equal. apply (IH _ _ _ E).
Qed.

(** C2.  A successful call that got fewer hits than [options.size]
    returns no [nextToken] (nor does one that got no hit at all); one that
    got exactly [options.size] hits, the last of them [h], returns a token,
    and the token decodes to [h.sort] (JSON data, as every engine response
    is); and when the last hit of such a full page has no sort data the
    call throws the bad gateway error. *)
Theorem listProducts_nextToken (options : ListProductsOptions) (slugs : list string) :
  (forall r,
     result (listProducts options slugs) = Ok r ->
     exists requestBody body,
       compileRequest options slugs = Ok requestBody
       /\ client_search (Es.searchRequest requestBody) = Ok body
       /\ ((Z.of_nat (List.length (elems_of (hits body))) < size options)%Z ->
           Products.nextToken r = None)
       /\ (elems_of (hits body) = [] -> Products.nextToken r = None)
       /\ (forall front h,
             elems_of (hits body) = (front ++ [h])%list ->
             Z.of_nat (List.length (elems_of (hits body))) = size options ->
             exists token,
               Products.nextToken r = Some token
               /\ (Json.is_json (sort h) = true -> decodeCursor token = Ok (sort h))))
  /\ (forall requestBody body front h,
        compileRequest options slugs = Ok requestBody ->
        client_search (Es.searchRequest requestBody) = Ok body ->
        elems_of (hits body) = (front ++ [h])%list ->
        Z.of_nat (List.length (elems_of (hits body))) = size options ->
        truthy (sort h) = false ->
        result (listProducts options slugs)
        = Throw (Kobp (fromServer badGateway "ElasticSearch encountered an error"
                         (Some "Sort is missing from query result!")))).
Proof.
  split.
  - intros r H.
    destruct (listProducts_ok _ _ _ H) as (requestBody & body & mapped & sp & C & S & Hm & _ & ->).
    exists requestBody, body. repeat split; try assumption.
    + intros Hlt. rewrite mapHits_other in Hm by lia. now injection Hm as <-.
    + intros He. rewrite He in Hm. now injection Hm as <-.
    + intros front h Eh Hfull. rewrite Eh in Hm, Hfull.
      rewrite (mapHits_full _ _ _ Hfull front h 0 None) in Hm
        by (rewrite length_app; simpl; lia).
      destruct (truthy (sort h)) eqn:T; [|discriminate]. cbn [negb] in Hm.
      destruct (encodeCursor_truthy _ T) as (token & E & _ & ->).
      rewrite E in Hm. injection Hm as <-.
      eexists. split; [reflexivity|]. apply decodeCursor_encode.
  - intros requestBody body front h C S Eh Hfull T.
    rewrite listProducts_result, C, S. rewrite Eh in *.
    rewrite (mapHits_full _ _ _ Hfull front h 0 None)
      by (rewrite length_app; simpl; lia).
    rewrite T. reflexivity.
Qed.

(** C3, as the code has it.  The token of a sort value decodes to the
    value; and a token whose decoded text is no JSON makes [listProducts]
    throw the bad gateway error (made of the SyntaxError when the sort
    directive is accepted), not a client error, and return no page. *)
Theorem cursor_roundtrip_and_malformed :
  (forall v,
     Json.is_json v = true -> truthy v = true ->
     exists token, encodeCursor v = Ok (Some token) /\ decodeCursor token = Ok v)
  /\ (forall options slugs token,
        nextToken options = Some token -> token <> "" ->
        Json.parse (Base64.decode token) = None ->
        (exists data,
           result (listProducts options slugs)
           = Throw (Kobp (fromServer badGateway "ElasticSearch encountered an error" data)))
        /\ (forall sortNode,
              sortNodeOf options = Ok sortNode ->
              result (listProducts options slugs)
              = Throw (Kobp (fromServer badGateway "ElasticSearch encountered an error"
                               (Some (syntaxErrorMessage (Base64.decode token))))))).
Proof.
  split.
  - intros v J T. destruct (encodeCursor_truthy v T) as (token & E & _ & ->).
    eexists. split; [exact E|]. now apply decodeCursor_encode.
  - intros options slugs token Ht Hn Hp.
    assert (C : forall sortNode,
               sortNodeOf options = Ok sortNode ->
               compileRequest options slugs
               = Throw (SyntaxError (syntaxErrorMessage (Base64.decode token)))).
    { intros sortNode E. unfold Es.compileRequest, Es.decodeCursor.
      now rewrite E, Ht, (truthy_str_some _ Hn), Hp. }
    split.
    + rewrite listProducts_result.
      destruct (sortNodeOf options) as [sortNode|e] eqn:E.
      * rewrite (C sortNode eq_refl). now eexists.
      * unfold Es.compileRequest. rewrite E. now eexists.
    + intros sortNode E. rewrite listProducts_result, (C sortNode E). reflexivity.
Qed.

(** C6, as the code has it.  In every successful call [total.isEstimate]
    is true exactly when the relation the engine reports is not "eq";
    [total.value] is the value the engine reports when it reports one that
    is not zero, and the number of returned items when it reports none or
    zero: the code reads the value by truthiness. *)
Theorem listProducts_total (options : ListProductsOptions) (slugs : list string)
  (r : Products.ListProductsResult ProductModel) :
  result (listProducts options slugs) = Ok r ->
  exists requestBody body,
    compileRequest options slugs = Ok requestBody
    /\ client_search (Es.searchRequest requestBody) = Ok body
    /\ List.length (Products.items r) = List.length (elems_of (hits body))
    /\ (isEstimate (Products.total r) = true
        <-> match total body with
            | Some totals => relation totals
            | None => None
            end <> Some "eq")
    /\ (forall totals v,
          total body = Some totals -> total_value totals = Some v ->
          value (Products.total r)
          = if (v =? 0)%Z then Z.of_nat (List.length (Products.items r)) else v)
    /\ (forall totals v,
          total body = Some totals -> total_value totals = Some v ->
          v <> 0%Z ->
          value (Products.total r) = v)
    /\ (forall totals,
          total body = Some totals -> total_value totals = Some 0%Z ->
          value (Products.total r) = Z.of_nat (List.length (elems_of (hits body))))
    /\ (match total body with
        | Some totals => total_value totals
        | None => None
        end = None ->
        value (Products.total r) = Z.of_nat (List.length (Products.items r))).
Proof.
  intros H.
  destruct (listProducts_ok _ _ _ H) as (requestBody & body & mapped & sp & C & S & Hm & _ & ->).
  exists requestBody, body. cbn [Products.items Products.total].
  pose proof (mapHits_items _ _ _ _ _ _ _ Hm) as Hi.
  assert (L : List.length (fst mapped) = List.length (elems_of (hits body)))
    by (now rewrite Hi, length_map).
  assert (V : forall totals v,
             total body = Some totals -> total_value totals = Some v ->
             value (totalOf (total body) (List.length (fst mapped)))
             = if (v =? 0)%Z then Z.of_nat (List.length (fst mapped)) else v).
  { intros totals v Et Ev. unfold totalOf. cbn [value]. rewrite Et, Ev. simpl.
    now destruct (v =? 0)%Z. }
  split; [exact C|]. split; [exact S|]. split; [exact L|].
  split; [|split; [exact V|split; [|split]]].
  - unfold totalOf. cbn [isEstimate].
    destruct (total body) as [totals|]; [|split; congruence].
    destruct (relation totals) as [rel|]; [|split; congruence].
    destruct (String.eqb_spec rel "eq") as [->|N]; simpl; split; congruence.
  - intros totals v Et Ev Hz. rewrite (V totals v Et Ev).
    destruct (Z.eqb_spec v 0) as [->|N]; [contradiction|reflexivity].
  - intros totals Et Ev. rewrite (V totals 0%Z Et Ev), L. reflexivity.
  - intros Et. unfold totalOf. cbn [value].
    destruct (total body) as [totals|]; [|reflexivity]. now rewrite Et.
Qed.

(** C7, as the code has it.  In every successful call: with no suggest
    block in the response the suggestions are empty; with one, they are
    the options of the first entry of the English channel when it has any,
    the options of the first entry of the Thai channel otherwise.  Two
    first entries without options give the empty list, and so does a
    missing block: neither is an error.  A suggest block whose English
    channel has no entry, or whose Thai channel has none when the English
    entry has no option, makes [listProducts] throw the bad gateway error,
    made of the TypeError of the read. *)
Theorem listProducts_suggestions (options : ListProductsOptions) (slugs : list string) :
  (forall r,
     result (listProducts options slugs) = Ok r ->
     exists requestBody body,
       compileRequest options slugs = Ok requestBody
       /\ client_search (Es.searchRequest requestBody) = Ok body
       /\ match suggest body with
          | None => Products.suggestionProduct r = []
          | Some s =>
              exists optionsEn restEn,
                suggestionEn s = optionsEn :: restEn
                /\ (optionsEn <> [] -> Products.suggestionProduct r = optionsEn)
                /\ (optionsEn = [] ->
                    exists optionsTh restTh,
                      suggestionTh s = optionsTh :: restTh
                      /\ Products.suggestionProduct r = optionsTh)
          end)
  /\ suggestionsOf None = Ok []
  /\ (forall s restEn restTh,
        suggestionEn s = [] :: restEn -> suggestionTh s = [] :: restTh ->
        suggestionsOf (Some s) = Ok [])
  /\ (forall requestBody body mapped s,
        compileRequest options slugs = Ok requestBody ->
        client_search (Es.searchRequest requestBody) = Ok body ->
        mapHits (fun item => Deserialize (_source item)) (size options)
          (List.length (elems_of (hits body))) 0 (elems_of (hits body)) None = Ok mapped ->
        suggest body = Some s ->
        suggestionEn s = []
        \/ (exists restEn, suggestionEn s = [] :: restEn /\ suggestionTh s = []) ->
        result (listProducts options slugs)
        = Throw (Kobp (fromServer badGateway "ElasticSearch encountered an error"
                         (Some "Cannot read properties of undefined (reading 'options')")))).
Proof.
  split; [|split; [|split]].
  - intros r H.
    destruct (listProducts_ok _ _ _ H) as (requestBody & body & mapped & sp & C & S & _ & Hs & ->).
    exists requestBody, body. repeat split; try assumption.
    cbn [Products.suggestionProduct]. unfold suggestionsOf in Hs.
    destruct (suggest body) as [s|]; [|now injection Hs as <-].
    destruct (suggestionEn s) as [|optionsEn restEn]; [discriminate|].
    exists optionsEn, restEn. cbn [first] in Hs.
    destruct optionsEn as [|o os].
    + simpl in Hs. repeat split; [congruence|]. intros _.
      destruct (suggestionTh s) as [|optionsTh restTh]; [discriminate|].
      injection Hs as <-. now exists optionsTh, restTh.
    + simpl in Hs. injection Hs as <-. repeat split; congruence.
  - reflexivity.
  - intros s restEn restTh E T. unfold suggestionsOf. now rewrite E, T.
  - intros requestBody body mapped s C S Hm Hs Hn.
    rewrite listProducts_result, C, S, Hm, Hs. unfold suggestionsOf.
    destruct Hn as [En|(restEn & En & Th)].
    + now rewrite En.
    + now rewrite En, Th.
Qed.


(** *** Colour swatches *)

Lemma listProducts_swatches (options : ListProductsOptions) (slugs : list string)
  (r : Products.ListProductsResult ProductModel) :
  result (listProducts options slugs) = Ok r ->
  exists requestBody body,
    compileRequest options slugs = Ok requestBody
    /\ client_search (Es.searchRequest requestBody) = Ok body
    /\ Facets.colorSwatch (Products.filterableAttributes r)
       = match aggregations body with
         | Some a => map swatchOf (elems_of (Agg.colorSwatch a))
         | None => []
         end.
Proof.
  intros H.
  destruct (listProducts_ok _ _ _ H) as (requestBody & body & mapped & sp & C & S & _ & _ & ->).
  exists requestBody, body. repeat split; try assumption.
  cbn [Products.filterableAttributes]. unfold facetsOf.
  now destruct (aggregations body).
Qed.

(** C8.  A bucket whose key is three parts joined by the two-underscore
    delimiter (the parts holding no delimiter of their own) projects to
    the first part as code and the second and third as the English and
    Thai labels; a key with no delimiter projects to itself as code and to
    no label, a key with one delimiter to no Thai label; and these are the
    swatches a successful call returns for the colour buckets. *)
Theorem colorSwatch_projection :
  (forall p1 p2 p3 count,
     Str.occurs "__" (p1 ++ "_") = false -> Str.occurs "__" (p2 ++ "_") = false ->
     Str.occurs "__" p3 = false ->
     swatchOf {| key := p1 ++ "__" ++ p2 ++ "__" ++ p3; doc_count := count |}
     = {| code := Some p1; label := {| en := Some p2; th := Some p3 |} |})
  /\ (forall k count,
        Str.occurs "__" k = false ->
        swatchOf {| key := k; doc_count := count |}
        = {| code := Some k; label := {| en := None; th := None |} |})
  /\ (forall p1 p2 count,
        Str.occurs "__" (p1 ++ "_") = false -> Str.occurs "__" p2 = false ->
        swatchOf {| key := p1 ++ "__" ++ p2; doc_count := count |}
        = {| code := Some p1; label := {| en := Some p2; th := None |} |})
  /\ (forall options slugs r,
        result (listProducts options slugs) = Ok r ->
        exists requestBody body,
          compileRequest options slugs = Ok requestBody
          /\ client_search (Es.searchRequest requestBody) = Ok body
          /\ Facets.colorSwatch (Products.filterableAttributes r)
             = match aggregations body with
               | Some a => map swatchOf (elems_of (Agg.colorSwatch a))
               | None => []
               end).
Proof.
  repeat split.
  - intros p1 p2 p3 count H1 H2 H3. unfold swatchOf. cbn [key].
    now rewrite (split_three p1 p2 p3 H1 H2 H3).
  - intros k count H. unfold swatchOf. cbn [key]. now rewrite (split_one k H).
  - intros p1 p2 count H1 H2. unfold swatchOf. cbn [key].
    now rewrite (split_two p1 p2 H1 H2).
  - apply listProducts_swatches.
Qed.

(** *** Term tracking *)

Local Abbreviation trackUserSearchedKeywords :=
  (Es.trackUserSearchedKeywords toLowerCase md5_base64 client_update).
Local Abbreviation updateDomainBoostedKeywords :=
  (Es.updateDomainBoostedKeywords toLowerCase md5_base64 client_update).
Local Abbreviation trackRequest := (Es.trackRequest toLowerCase md5_base64).
Local Abbreviation boostRequest := (Es.boostRequest toLowerCase md5_base64).

(** C9.  [trackUserSearchedKeywords] always resolves: when the engine
    rejects the update, the call prints what [_logElasticSearchError]
    prints for the rejection (one error line when the rejection carries
    the engine's response) and returns; its update asks for 3 retries on
    conflict.  [updateDomainBoostedKeywords] throws the bad gateway error
    made of the rejection. *)
Theorem term_tracker_error_policy :
  (forall scope typed, result (trackUserSearchedKeywords scope typed) = Ok tt)
  /\ (forall scope typed e,
        client_update (trackRequest scope typed) = Throw e ->
        printed (trackUserSearchedKeywords scope typed)
        = printed (_logElasticSearchError e))
  /\ (forall e meta,
        meta_of e = Some meta ->
        printed (_logElasticSearchError e)
        = [(Err, ["ES ERR"; undefined_text (Json.stringify (body meta))])])
  /\ (forall scope typed, field "retry_on_conflict" (trackRequest scope typed) = num 3)
  /\ (forall scope keyword score e,
        client_update (boostRequest scope keyword score) = Throw e ->
        result (updateDomainBoostedKeywords scope keyword score)
        = Throw (Kobp (fromServer badGateway "ElasticSearch encountered an error"
                         (Some (_normalizeESErrorMessage e))))).
Proof.
  split; [|split; [|split; [|split]]].
  - intros scope typed. unfold Es.trackUserSearchedKeywords.
    rewrite result_catch. cbn [lift result snd].
    destruct (client_update _) as [[]|e]; [reflexivity|].
    unfold _logElasticSearchError. now destruct (meta_of e).
  - intros scope typed e H. unfold Es.trackUserSearchedKeywords. rewrite H.
    unfold catch, lift, printed. now destruct (_logElasticSearchError e).
  - intros e meta H. unfold _logElasticSearchError. now rewrite H.
  - reflexivity.
  - intros scope keyword score e H. unfold Es.updateDomainBoostedKeywords.
    rewrite result_bind. cbn [console_log result snd].
    rewrite result_catch, H. cbn [lift result snd].
    apply result_throwElasticSearchError.
Qed.

(** *** Brands *)

Local Abbreviation brandCursor := (Es.brandCursor syntaxErrorMessage).

Lemma listBrands_result (options : ListProductsOptions) :
  result (listBrands options)
  = wrapped
      match brandCursor options with
      | Throw e => Throw e
      | Ok searchAfter =>
          match client_search_brands (brandRequestOf options searchAfter) with
          | Throw e => Throw e
          | Ok body =>
              match mapHits (fun item => _source item) (size options)
                      (List.length (elems_of (hits body))) 0 (elems_of (hits body)) None
              with
              | Throw e => Throw e
              | Ok mapped =>
                  match brandSuggestionsOf (suggest body) with
                  | Throw e => Throw e
                  | Ok suggestion =>
                      match em_find suggestion with
                      | Throw e => Throw e
                      | Ok brandsList =>
                          Ok {| Brands.nextToken := snd mapped;
                                Brands.total :=
                                  totalOf (total body) (List.length (fst mapped));
                                Brands.suggestionBrand := brandsList;
                                Brands.items := fst mapped |}
                      end
                  end
              end
          end
      end.
Proof.
  unfold Es.listBrands. rewrite result_catch, result_bind. cbn [lift result snd].
  destruct (brandCursor options) as [searchAfter|e];
    cbn [wrapped]; [|now rewrite result_throwElasticSearchError].
  rewrite !result_bind. cbn [lift result snd].
  destruct (client_search_brands _) as [body|e]; cbn [wrapped];
    [|now rewrite result_throwElasticSearchError].
  rewrite !result_bind. cbn [lift result snd].
  destruct (mapHits _ _ _ _ _ _) as [mapped|e]; cbn [wrapped];
    [|now rewrite result_throwElasticSearchError].
  rewrite !result_bind. cbn [lift result snd].
  destruct (brandSuggestionsOf _) as [suggestion|e]; cbn [wrapped];
    [|now rewrite result_throwElasticSearchError].
  rewrite !result_bind. cbn [lift result snd].
  destruct (em_find _) as [brandsList|e]; cbn [wrapped];
    [|now rewrite result_throwElasticSearchError].
  reflexivity.
Qed.

(** C10.  The request of [listBrands] always asks for 24 hits, whatever
    the options; a successful call returns a [nextToken] only when the
    number of hits equals [options.size]: none for a page of 24 hits when
    [options.size] is not 24, and the token of the last hit's sort value
    for a page of exactly [options.size] hits. *)
Theorem listBrands_page_size :
  (forall options searchAfter,
     get ["body"; "size"] (brandRequestOf options searchAfter) = num 24)
  /\ (forall options r,
        result (listBrands options) = Ok r ->
        exists searchAfter body,
          client_search_brands (brandRequestOf options searchAfter) = Ok body
          /\ (Z.of_nat (List.length (elems_of (hits body))) <> size options ->
              Brands.nextToken r = None)
          /\ (size options <> 24%Z ->
              List.length (elems_of (hits body)) = 24%nat ->
              Brands.nextToken r = None)
          /\ (forall front h,
                elems_of (hits body) = (front ++ [h])%list ->
                Z.of_nat (List.length (elems_of (hits body))) = size options ->
                exists token,
                  Brands.nextToken r = Some token
                  /\ encodeCursor (sort h) = Ok (Some token))).
Proof.
  split; [reflexivity|].
  intros options r H. rewrite listBrands_result in H.
  destruct (brandCursor options) as [searchAfter|e]; [|discriminate].
  destruct (client_search_brands _) as [body|e] eqn:S; [|discriminate].
  destruct (mapHits _ _ _ _ _ _) as [mapped|e] eqn:Hm; [|discriminate].
  destruct (brandSuggestionsOf _) as [suggestion|e]; [|discriminate].
  destruct (em_find _) as [brandsList|e]; [|discriminate].
  cbn [wrapped] in H. injection H as <-. cbn [Brands.nextToken].
  exists searchAfter, body.
  assert (N : Z.of_nat (List.length (elems_of (hits body))) <> size options ->
              snd mapped = None).
  { intros Hne. rewrite mapHits_other in Hm by assumption. now injection Hm as <-. }
  repeat split; try assumption.
  - intros Hs Hl. apply N. rewrite Hl. simpl. congruence.
  - intros front h Eh Hfull. rewrite Eh in Hm, Hfull.
    rewrite (mapHits_full _ _ _ Hfull front h 0 None) in Hm
      by (rewrite length_app; simpl; lia).
    destruct (truthy (sort h)) eqn:T; [|discriminate]. cbn [negb] in Hm.
    destruct (encodeCursor_truthy _ T) as (token & E & _ & _).
    rewrite E in Hm. injection Hm as <-. now exists token.
Qed.

(** *** The rest of the compiled request *)

(** X2.  Options with no keyword and no filter compile to the match-everything
    query; a boolean query is never compiled without a clause. *)
Theorem listProducts_match_all (options : ListProductsOptions) (slugs : list string)
  (requestBody : Js.value) :
  compileRequest options slugs = Ok requestBody ->
  (no_criteria options = true ->
   field "query" requestBody = obj1 "query_string" (obj1 "query" (VStr "*")))
  /\ (forall fs, field "query" requestBody = obj1 "bool" (VObj fs) -> fs <> []).
Proof.
  intros H. destruct (compileRequest_fields _ _ _ H) as (sortNode & _ & _ & Q & _).
  rewrite Q. split.
  - unfold no_criteria. intros N.
    repeat (apply andb_prop in N; destruct N as [N ?]).
    repeat match goal with
           | E : negb _ = true |- _ => apply negb_true_iff in E
           end.
    unfold Es.queryNodeOf, Es.queryShouldOf, Es.queryMustOf, Es.queryBoolFiltersOf.
    repeat match goal with
           | E : ?b = false |- _ => rewrite E; clear E
           end.
    destruct (keyword options), (mallId options), (brandId options), (category options);
      reflexivity.
  - intros fs. unfold Es.queryNodeOf.
    destruct (Es.queryShouldOf options), (Es.queryMustOf toLowerCase options),
      (Es.queryBoolFiltersOf options); cbn; intros [= <-]; discriminate.
Qed.

(** X3.  The minimum and the maximum price are aggregated in every request. *)
Theorem listProducts_price_facets (options : ListProductsOptions) (slugs : list string)
  (requestBody : Js.value) :
  compileRequest options slugs = Ok requestBody ->
  field "priceMax" (aggs_of requestBody) = obj1 "max" (obj1 "field" (VStr "priceMax"))
  /\ field "priceMin" (aggs_of requestBody) = obj1 "min" (obj1 "field" (VStr "priceMin")).
Proof.
  intros H. destruct (compileRequest_sections _ _ _ H) as (_ & _ & _ & A). rewrite A.
  unfold aggsOf, aggBrandIdOf, aggCategoryOf, aggColorSwatchOf.
  destruct (truthy_str (brandId options)), (truthy_str (category options)),
    (existsb _ slugs); split; reflexivity.
Qed.

(** X4.  The colour facet is in the aggregations, as the terms
    aggregation on [colorSlugs] ordered by descending count, when the
    caller's facet slugs name [colorSwatch], and is left out of them
    otherwise. *)
Theorem listProducts_color_facet (options : ListProductsOptions) (slugs : list string)
  (requestBody : Js.value) :
  compileRequest options slugs = Ok requestBody ->
  (In "colorSwatch" slugs ->
   field "colorSwatch" (aggs_of requestBody)
   = VObj [("terms", VObj [("field", VStr "colorSlugs");
                           ("order", VObj [("_count", VStr "desc")])])])
  /\ (~ In "colorSwatch" slugs ->
      has_key "colorSwatch" (aggs_of requestBody) = false).
Proof.
  intros H. destruct (compileRequest_sections _ _ _ H) as (_ & _ & _ & A). rewrite A.
  assert (E : existsb (fun slug => slug =? "colorSwatch") slugs = true
              <-> In "colorSwatch" slugs).
  { rewrite existsb_exists. split.
    - intros (x & Hx & Ex). apply String.eqb_eq in Ex. now subst.
    - intros Hin. exists "colorSwatch". split; [exact Hin | reflexivity]. }
  unfold aggsOf, aggBrandIdOf, aggCategoryOf, aggColorSwatchOf.
  split.
  - intros Hin. apply E in Hin. rewrite Hin.
    destruct (truthy_str (brandId options)), (truthy_str (category options));
      reflexivity.
  - intros Hn. destruct (existsb _ slugs) eqn:X; [exfalso; apply Hn, E; reflexivity|].
    destruct (truthy_str (brandId options)), (truthy_str (category options));
      reflexivity.
Qed.

(** X5.  Every sort directive starts with the relevance score, descending, and
    ends with the id, ascending, with at most one field between them. *)
Theorem listProducts_sort_frame (options : ListProductsOptions) (slugs : list string)
  (requestBody : Js.value) :
  compileRequest options slugs = Ok requestBody ->
  exists between,
    sort_of requestBody
    = ([obj1 "_score" (VStr "desc")] ++ between ++ [obj1 "id" (VStr "asc")])%list
    /\ (List.length between <= 1)%nat.
Proof.
  intros H. destruct (compileRequest_fields _ _ _ H) as (sortNode & E & _ & _ & S & _).
  unfold sort_of. rewrite S. cbn [elements].
  unfold sortNodeOf in E. destruct (sortBy options) as [token|].
  - destruct (truthy_str (Some token)).
    + destruct (sortField token) as [name|]; [|discriminate].
      injection E as <-. eexists [_]. split; [reflexivity | simpl; lia].
    + injection E as <-. exists []. split; [reflexivity | simpl; lia].
  - injection E as <-. exists []. split; [reflexivity | simpl; lia].
Qed.

(** X6.  The domain of a brand scope is never the domain of a scope without a
    brand. *)
Theorem fromScopeToDomain_separates (branded general : ScopeOption) :
  truthy_str (brandId branded) = true -> truthy_str (brandId general) = false ->
  fromScopeToDomain branded <> fromScopeToDomain general.
Proof.
  unfold fromScopeToDomain. intros B G.
  destruct (brandId branded) as [b|]; [|discriminate B]. rewrite B.
  assert (N : negb (b =? "") = true) by exact B.
  destruct (brandId general) as [g|]; rewrite ?G; cbn; rewrite N; discriminate.
Qed.

(** X7.  [Buffer.from(bytes.toString('base64'), 'base64')] is [bytes]. *)
Theorem base64_roundtrip (bytes : string) : Base64.decode (Base64.encode bytes) = bytes.
Proof. apply decode_encode. Qed.

(** X8.  [JSON.parse(JSON.stringify(v))] is [v] for every JSON value [v]. *)
Theorem json_roundtrip (v : Js.value) :
  Json.is_json v = true ->
  exists t, Json.stringify v = Some t /\ Json.parse t = Some v.
Proof. apply parse_stringify. Qed.


(** *** Failures, pages and unused options *)

Lemma wrapped_throw {A : Type} (o : outcome A) (e : error) :
  wrapped o = Throw e ->
  exists data,
    e = Kobp (fromServer badGateway "ElasticSearch encountered an error" (Some data)).
Proof.
  destruct o as [a|e0]; [discriminate|]. cbn [wrapped]. intros [= <-].
  now exists (_normalizeESErrorMessage e0).
Qed.

(** X10.  Whatever goes wrong in [listProducts] or in [listBrands] (a
    rejected sort token, a cursor that is no JSON, a rejection of the
    engine, a response that cannot be read), the caller gets the server
    error [badGateway] with the message [ElasticSearch encountered an
    error] and the cause as its data: never a client error, never the
    error as it was thrown. *)
Theorem search_failures_are_gateway :
  (forall options slugs e,
     result (listProducts options slugs) = Throw e ->
     exists data,
       e = Kobp (fromServer badGateway "ElasticSearch encountered an error" (Some data)))
  /\ (forall options e,
        result (listBrands options) = Throw e ->
        exists data,
          e = Kobp (fromServer badGateway "ElasticSearch encountered an error"
                      (Some data))).
Proof.
  split.
  - intros options slugs e. rewrite listProducts_result. apply wrapped_throw.
  - intros options e. rewrite listBrands_result. apply wrapped_throw.
Qed.

Lemma listBrands_ok (options : ListProductsOptions)
  (r : Brands.ListBrandsResult Js.value BrandEntity) :
  result (listBrands options) = Ok r ->
  exists searchAfter body mapped ids brandsList,
    brandCursor options = Ok searchAfter
    /\ client_search_brands (brandRequestOf options searchAfter) = Ok body
    /\ mapHits (fun item => _source item) (size options)
         (List.length (elems_of (hits body))) 0 (elems_of (hits body)) None = Ok mapped
    /\ brandSuggestionsOf (suggest body) = Ok ids
    /\ em_find ids = Ok brandsList
    /\ r = {| Brands.nextToken := snd mapped;
              Brands.total := totalOf (total body) (List.length (fst mapped));
              Brands.suggestionBrand := brandsList;
              Brands.items := fst mapped |}.
Proof.
  rewrite listBrands_result.
  destruct (brandCursor options) as [searchAfter|e]; [|discriminate].
  destruct (client_search_brands _) as [body|e] eqn:S; [|discriminate].
  destruct (mapHits _ _ _ _ _ _) as [mapped|e] eqn:Hm; [|discriminate].
  destruct (brandSuggestionsOf _) as [ids|e] eqn:Hs; [|discriminate].
  destruct (em_find _) as [brandsList|e] eqn:Hf; [|discriminate].
  cbn [wrapped]. intros [= <-]. now exists searchAfter, body, mapped, ids, brandsList.
Qed.

(** X11.  A page lists every hit: the items of a successful [listProducts]
    are the deserialized sources of the hits of the response, one for each
    hit and in the order of the response, and those of [listBrands] are the
    sources themselves. *)
Theorem pages_list_every_hit :
  (forall options slugs r,
     result (listProducts options slugs) = Ok r ->
     exists requestBody body,
       compileRequest options slugs = Ok requestBody
       /\ client_search (Es.searchRequest requestBody) = Ok body
       /\ Products.items r
          = map (fun item => Deserialize (_source item)) (elems_of (hits body)))
  /\ (forall options r,
        result (listBrands options) = Ok r ->
        exists searchAfter body,
          brandCursor options = Ok searchAfter
          /\ client_search_brands (brandRequestOf options searchAfter) = Ok body
          /\ Brands.items r = map (fun item => _source item) (elems_of (hits body))).
Proof.
  split.
  - intros options slugs r H.
    destruct (listProducts_ok _ _ _ H) as (requestBody & body & mapped & sp & C & S & Hm & _ & ->).
    exists requestBody, body. repeat split; try assumption.
    cbn [Products.items]. exact (mapHits_items _ _ _ _ _ _ _ Hm).
  - intros options r H.
    destruct (listBrands_ok _ _ H)
      as (searchAfter & body & mapped & ids & brandsList & C & S & Hm & _ & _ & ->).
    exists searchAfter, body. repeat split; try assumption.
    cbn [Brands.items]. exact (mapHits_items _ _ _ _ _ _ _ Hm).
Qed.

(** X12.  The brands [listBrands] suggests are what the entity manager
    finds for the ids of the first suggestion entry; the entity manager is
    asked also when the response has no suggest block, then with no id; and
    when the entity manager fails, the call throws the gateway error of the
    engine, made of the entity manager's error. *)
Theorem listBrands_suggested_brands :
  (forall options r,
     result (listBrands options) = Ok r ->
     exists searchAfter body ids,
       client_search_brands (brandRequestOf options searchAfter) = Ok body
       /\ brandSuggestionsOf (suggest body) = Ok ids
       /\ em_find ids = Ok (Brands.suggestionBrand r)
       /\ (suggest body = None -> ids = [])
       /\ (forall entry rest,
             suggest body = Some {| suggestion := entry :: rest |} -> ids = entry))
  /\ (forall options searchAfter body mapped ids e,
        brandCursor options = Ok searchAfter ->
        client_search_brands (brandRequestOf options searchAfter) = Ok body ->
        mapHits (fun item => _source item) (size options)
          (List.length (elems_of (hits body))) 0 (elems_of (hits body)) None = Ok mapped ->
        brandSuggestionsOf (suggest body) = Ok ids ->
        em_find ids = Throw e ->
        result (listBrands options)
        = Throw (Kobp (fromServer badGateway "ElasticSearch encountered an error"
                         (Some (_normalizeESErrorMessage e))))).
Proof.
  split.
  - intros options r H.
    destruct (listBrands_ok _ _ H)
      as (searchAfter & body & mapped & ids & brandsList & C & S & Hm & Hs & Hf & ->).
    exists searchAfter, body, ids. repeat split; try assumption.
    + intros N. rewrite N in Hs. now injection Hs as <-.
    + intros entry rest N. rewrite N in Hs. now injection Hs as <-.
  - intros options searchAfter body mapped ids e C S Hm Hs Hf.
    rewrite listBrands_result, C, S, Hm, Hs, Hf. reflexivity.
Qed.

(** X13.  [checkStatus] and [pageSize] have no effect on [listProducts]:
    two calls whose options agree on every other field print the same
    lines and end in the same way. *)
Theorem listProducts_unused_options (options options' : ListProductsOptions)
  (slugs : list string) :
  scope options = scope options' ->
  keyword options = keyword options' ->
  nextToken options = nextToken options' ->
  size options = size options' ->
  categories options = categories options' ->
  minPrice options = minPrice options' ->
  maxPrice options = maxPrice options' ->
  brands options = brands options' ->
  sortBy options = sortBy options' ->
  skus options = skus options' ->
  color options = color options' ->
  listProducts options slugs = listProducts options' slugs.
Proof.
  destruct options as [sc kw nt sz cs mn mx bs sb sk ch co ps].
  destruct options' as [sc' kw' nt' sz' cs' mn' mx' bs' sb' sk' ch' co' ps'].
  cbn [scope keyword nextToken size categories minPrice maxPrice brands sortBy skus color].
  intros -> -> -> -> -> -> -> -> -> -> ->.
  reflexivity.
Qed.

(** X14.  [listBrands] reads three options only, [keyword], [nextToken] and
    [size]: two calls that agree on them print the same lines and end in
    the same way, whatever their filters, price bounds and sort token. *)
Theorem listBrands_reads_three_options (options options' : ListProductsOptions) :
  keyword options = keyword options' ->
  nextToken options = nextToken options' ->
  size options = size options' ->
  listBrands options = listBrands options'.
Proof.
  intros K N S. unfold Es.listBrands, Es.brandCursor, brandRequestOf.
  now rewrite K, N, S.
Qed.

Lemma flat_map_lower {B : Type} (g : string -> list B) (xs : list string) :
  flat_map (fun item => g (toLowerCase item)) xs = flat_map g (map toLowerCase xs).
Proof. induction xs as [|x xs IH]; [reflexivity|]. simpl. now rewrite IH. Qed.

Lemma truthy_list_map {A B : Type} (f g : A -> B) (xs ys : option (list A)) :
  map f (elems_of xs) = map g (elems_of ys) -> truthy_list xs = truthy_list ys.
Proof. destruct xs as [[|x xs]|], ys as [[|y ys]|]; simpl; congruence. Qed.

(** X15.  The SKU filter does not depend on the letter case of the SKUs:
    options that differ only in their SKU lists, lists that are equal once
    lower-cased, compile to the same request. *)
Theorem listProducts_sku_case
  (scope : ScopeOption) (keyword nextToken : option string) (size : Z)
  (categories : option (list string)) (minPrice maxPrice : option Z)
  (brands : option (list string)) (sortBy : option string)
  (skus skus' : option (list string))
  (color : option (list string)) (checkStatus : option bool)
  (pageSize : option Z) (slugs : list string) :
  map toLowerCase (elems_of skus) = map toLowerCase (elems_of skus') ->
  compileRequest
    {| Es.scope := scope; Es.keyword := keyword; Es.nextToken := nextToken;
       Es.size := size; Es.categories := categories; Es.minPrice := minPrice;
       Es.maxPrice := maxPrice; Es.brands := brands; Es.sortBy := sortBy;
       Es.skus := skus; Es.checkStatus := checkStatus; Es.color := color;
       Es.pageSize := pageSize |} slugs
  = compileRequest
      {| Es.scope := scope; Es.keyword := keyword; Es.nextToken := nextToken;
         Es.size := size; Es.categories := categories; Es.minPrice := minPrice;
         Es.maxPrice := maxPrice; Es.brands := brands; Es.sortBy := sortBy;
         Es.skus := skus'; Es.checkStatus := checkStatus; Es.color := color;
         Es.pageSize := pageSize |} slugs.
Proof.
  intros H.
  unfold Es.compileRequest, Es.requestBodyOf, Es.queryNodeOf, Es.queryMustOf.
  cbn [Es.skus Es.color Es.minPrice Es.maxPrice].
  rewrite (truthy_list_map _ _ _ _ H).
  rewrite !(flat_map_lower
              (fun item => [nested_match "byStore" "byStore.sku" item;
                            nested_match "byStore.children" "byStore.children.sku" item])).
  now rewrite H.
Qed.

(** X16.  The keyword and the categories are alternatives: the two title
    clauses of a keyword and the clause of each category stand in the one
    [should] list of the query, of which one clause has to match; and the
    request asks for suggestions exactly when it has a keyword. *)
Theorem listProducts_keyword_or_categories (options : ListProductsOptions)
  (slugs : list string) (requestBody : Js.value) :
  compileRequest options slugs = Ok requestBody ->
  (forall k, keyword options = Some k -> k <> "" ->
     In (obj1 "match_phrase_prefix" (obj1 "title.th" (VStr k))) (should_of requestBody)
     /\ In (obj1 "match_phrase_prefix" (obj1 "title.en" (VStr k))) (should_of requestBody))
  /\ (forall cs c, categories options = Some cs -> In c cs ->
        In (obj1 "match" (obj1 "categorySlugs" (VStr c))) (should_of requestBody))
  /\ (should_of requestBody <> [] ->
      get ["query"; "bool"; "minimum_should_match"] requestBody = num 1)
  /\ has_key "suggest" requestBody = truthy_str (keyword options).
Proof.
  intros H. destruct (compileRequest_sections _ _ _ H) as (Sh & _ & _ & _).
  destruct (compileRequest_fields _ _ _ H) as (sortNode & _ & _ & Q & _ & _).
  rewrite Sh. split; [|split; [|split]].
  - intros k Ek Nk. unfold Es.queryShouldOf. rewrite Ek, (truthy_str_some k Nk).
    split; apply in_or_app; left; simpl; auto.
  - intros cs c Ec Hc. unfold Es.queryShouldOf. rewrite Ec.
    destruct cs as [|c0 cs]; [contradiction|]. cbn [truthy_list elems_of].
    apply in_or_app. right. apply in_map_iff. now exists c.
  - intros Hne. cbn [get]. rewrite Q. unfold Es.queryNodeOf.
    destruct (Es.queryShouldOf options) as [|s ss]; [contradiction|].
    destruct (Es.queryMustOf toLowerCase options), (Es.queryBoolFiltersOf options);
      reflexivity.
  - revert H. unfold Es.compileRequest. destruct (sortNodeOf options) as [sn|]; [|discriminate].
    assert (B : forall extra,
               ~ In "suggest" (map fst extra) ->
               has_key "suggest"
                 match Es.requestBodyOf toLowerCase options slugs sn with
                 | VObj fs => VObj (fs ++ extra)%list
                 | other => other
                 end = truthy_str (keyword options)).
    { intros extra Hex. unfold Es.requestBodyOf, Es.suggestProductsOf.
      assert (X : existsb (fun kv : string * Js.value => fst kv =? "suggest") extra = false).
      { induction extra as [|[k v] extra IH]; [reflexivity|].
        simpl in *. destruct (String.eqb_spec k "suggest") as [->|_].
        - exfalso. apply Hex. now left.
        - apply IH. intros Hin. apply Hex. now right. }
      destruct (keyword options) as [k|]; [|cbn; rewrite ?existsb_app; cbn; exact X].
      destruct (truthy_str (Some k)); cbn; rewrite ?existsb_app; cbn; rewrite ?X; reflexivity. }
    destruct (nextToken options) as [token|].
    + destruct (truthy_str (Some token)).
      * destruct (decodeCursor token) as [v|]; [|discriminate].
        intros [= <-]. apply (B [("search_after", v)]). simpl. intros [E|[]]. discriminate.
      * intros [= <-]. specialize (B [] (fun x => x)).
        unfold Es.requestBodyOf in *. now rewrite app_nil_r in B.
    + intros [= <-]. specialize (B [] (fun x => x)).
      unfold Es.requestBodyOf in *. now rewrite app_nil_r in B.
Qed.

(** X17.  The cursor in the request.  [listProducts] forwards what a
    non-empty token decodes to as [search_after], whatever it is, and
    sends no [search_after] without a token; [listBrands] forwards it only
    when it is truthy and not empty (lodash's [isEmpty]), so a token that
    decodes to an empty array, an empty object, a number or a boolean asks
    for the first page again. *)
Theorem cursor_in_request :
  (forall options slugs token v requestBody,
     nextToken options = Some token -> token <> "" ->
     decodeCursor token = Ok v ->
     compileRequest options slugs = Ok requestBody ->
     has_key "search_after" requestBody = true
     /\ field "search_after" requestBody = v)
  /\ (forall options slugs requestBody,
        truthy_str (nextToken options) = false ->
        compileRequest options slugs = Ok requestBody ->
        has_key "search_after" requestBody = false)
  /\ (forall options token v,
        nextToken options = Some token -> token <> "" ->
        decodeCursor token = Ok v ->
        brandCursor options = Ok v
        /\ has_key "search_after" (field "body" (brandRequestOf options v))
           = truthy v && negb (isEmpty v)
        /\ (truthy v && negb (isEmpty v) = true ->
            get ["body"; "search_after"] (brandRequestOf options v) = v)).
Proof.
  split; [|split].
  - intros options slugs token v requestBody Et Nt D.
    unfold Es.compileRequest. destruct (sortNodeOf options) as [sn|]; [|discriminate].
    rewrite Et, (truthy_str_some _ Nt), D. intros [= <-].
    unfold Es.requestBodyOf, Es.suggestProductsOf.
    destruct (keyword options) as [k|]; [destruct (truthy_str (Some k))|];
      split; reflexivity.
  - intros options slugs requestBody Ft.
    unfold Es.compileRequest. destruct (sortNodeOf options) as [sn|]; [|discriminate].
    destruct (nextToken options) as [token|]; [rewrite Ft|]; intros [= <-];
      unfold Es.requestBodyOf, Es.suggestProductsOf;
      (destruct (keyword options) as [k|]; [destruct (truthy_str (Some k))|]);
      reflexivity.
  - intros options token v Et Nt D. split; [|split].
    + unfold Es.brandCursor. now rewrite Et, (truthy_str_some _ Nt).
    + unfold brandRequestOf.
      destruct (keyword options) as [k|]; [destruct (truthy_str (Some k))|];
        cbn; destruct (truthy v && negb (isEmpty v)); reflexivity.
    + intros T. unfold brandRequestOf.
      destruct (keyword options) as [k|]; [destruct (truthy_str (Some k))|];
        cbn; rewrite T; reflexivity.
Qed.

End Service.

(** *** The statements on the sample deployment *)


(** C1 on the sample: a pinned request, and a request with a brand set. *)
Lemma listProducts_pins_and_facets_witness :
(In (VObj [("term", VObj [("annotatedBrand", VStr "nike")])])
   (filters_of (Sample.request Sample.pinned))
 /\ has_key "brands" (aggs_of (Sample.request Sample.pinned)) = false)
/\ (In (VObj [("term", VObj [("categorySlugs", VStr "shoes")])])
      (filters_of (Sample.request Sample.pinned))
    /\ has_key "categorySlugs" (aggs_of (Sample.request Sample.pinned)) = false)
/\ (In (VObj [("terms", VObj [("annotatedBrand", VArr [VStr "nike"; VStr "adidas"])])])
      (filters_of (Sample.request Sample.branded))
    /\ field "brands" (aggs_of (Sample.request Sample.branded))
       = VObj [("terms", VObj [("field", VStr "annotatedBrand");
                               ("order", VObj [("_count", VStr "desc")])])])
/\ field "categorySlugs" (aggs_of (Sample.request Sample.branded))
   = VObj [("terms", VObj [("field", VStr "categorySlugs");
                           ("order", VObj [("_count", VStr "desc")])])].
Proof.
destruct (listProducts_pins_and_facets Sample.toLowerCase Sample.syntaxErrorMessage
            Sample.pinned [] (Sample.request Sample.pinned) eq_refl)
  as (P & _ & C & _).
destruct (listProducts_pins_and_facets Sample.toLowerCase Sample.syntaxErrorMessage
            Sample.branded [] (Sample.request Sample.branded) eq_refl)
  as (_ & B & _ & _ & _ & _ & F).
split; [|split; [|split]].
- apply (P "nike"); [reflexivity | discriminate].
- apply (C "shoes"); [reflexivity | discriminate].
- apply (B ["nike"; "adidas"]); [reflexivity | reflexivity | discriminate].
- exact (F eq_refl).
Defined.

(** C2 on the sample: a full page of two, the same two hits for a page of
    three, and a full page whose last hit has no sort data. *)
Lemma listProducts_nextToken_witness :
  (exists r,
     result (Sample.listProducts Sample.plain []) = Ok r
     /\ exists token,
          Products.nextToken r = Some token
          /\ Es.decodeCursor Sample.syntaxErrorMessage token
             = Ok (VArr [VNum "1.25"; VStr "sku-2"]))
  /\ (exists r,
        result (Sample.listProducts Sample.wide []) = Ok r
        /\ Products.nextToken r = None)
  /\ result (Sample.listProductsBroken Sample.plain [])
     = Throw (Kobp (fromServer badGateway "ElasticSearch encountered an error"
                      (Some "Sort is missing from query result!"))).
Proof.
  split; [|split].
  - destruct (result (Sample.listProducts Sample.plain [])) as [r|e] eqn:E;
      [|vm_compute in E; discriminate E].
    exists r. split; [reflexivity|].
    destruct (proj1 (listProducts_nextToken Sample.toLowerCase Sample.syntaxErrorMessage
                       Js.value Sample.Deserialize Sample.search Sample.plain []) r E)
      as (requestBody & body & _ & S & _ & _ & Full).
    injection S as <-.
    destruct (Full [Sample.hit "sku-1" "1.5"] (Sample.hit "sku-2" "1.25") eq_refl eq_refl)
      as (token & T & D).
    exists token. split; [exact T | exact (D eq_refl)].
  - destruct (result (Sample.listProducts Sample.wide [])) as [r|e] eqn:E;
      [|vm_compute in E; discriminate E].
    exists r. split; [reflexivity|].
    destruct (proj1 (listProducts_nextToken Sample.toLowerCase Sample.syntaxErrorMessage
                       Js.value Sample.Deserialize Sample.search Sample.wide []) r E)
      as (requestBody & body & _ & S & Short & _ & _).
    injection S as <-. apply Short. reflexivity.
  - exact (proj2 (listProducts_nextToken Sample.toLowerCase Sample.syntaxErrorMessage
                    Js.value Sample.Deserialize Sample.brokenSearch Sample.plain [])
             (Sample.request Sample.plain) Sample.brokenPage
             [Sample.hit "sku-1" "1.5"] (Sample.unsortedHit "sku-2")
             eq_refl eq_refl eq_refl eq_refl eq_refl).
Defined.

(** C3 on the sample: the tuple of a hit, and a cursor that decodes to the
    text [foo]. *)
Lemma cursor_roundtrip_and_malformed_witness :
(exists token,
   encodeCursor (VArr [VNum "1.25"; VStr "sku-2"]) = Ok (Some token)
   /\ Es.decodeCursor Sample.syntaxErrorMessage token
      = Ok (VArr [VNum "1.25"; VStr "sku-2"]))
/\ result (Sample.listProducts Sample.garbled [])
   = Throw (Kobp (fromServer badGateway "ElasticSearch encountered an error"
                    (Some "Unexpected token in JSON"))).
Proof.
destruct (cursor_roundtrip_and_malformed Sample.toLowerCase Sample.syntaxErrorMessage
            Js.value Sample.Deserialize Sample.search) as [R Mf].
split.
- apply R; reflexivity.
- destruct (Mf Sample.garbled [] "Zm9v" eq_refl) as [_ G];
    [discriminate | reflexivity |].
  exact (G _ eq_refl).
Defined.

(** C3 as it was stated fails on the cursor that decodes to the text
    [foo]: the text is no JSON, and what [listProducts] throws is a server
    error, not a client error. *)
Lemma cursor_malformed_counterexample :
Json.parse (Base64.decode "Zm9v") = None
/\ exists e,
     result (Sample.listProducts Sample.garbled []) = Throw e
     /\ is_client_error e = false
     /\ is_server_error e = true.
Proof.
split; [reflexivity|]. eexists. split; [reflexivity|]. split; reflexivity.
Qed.

(** C4 on the sample: a lower bound of 100 and no upper bound, and no
    bound at all. *)
Lemma listProducts_price_range_witness :
filter is_range (must_of (Sample.request Sample.pinned))
= [VObj [("range", VObj [("actualMinPrice", VObj [("gte", VNum "100")])])];
   VObj [("range", VObj [("actualMinPrice", VObj [("lte", VUndefined)])])]]
/\ filter is_range (must_of (Sample.request Sample.plain)) = [].
Proof.
destruct (listProducts_price_range Sample.toLowerCase Sample.syntaxErrorMessage
            Sample.pinned [] (Sample.request Sample.pinned) eq_refl)
  as (_ & _ & Given & _).
destruct (listProducts_price_range Sample.toLowerCase Sample.syntaxErrorMessage
            Sample.plain [] (Sample.request Sample.plain) eq_refl)
  as (_ & _ & _ & Absent & _).
split; [exact (Given eq_refl) | exact (Absent eq_refl)].
Defined.

(** C4 as it was stated fails when both bounds are given as zero: the
    compiled request has no range clause in any section. *)
Lemma price_range_zero_counterexample :
minPrice Sample.free = Some 0%Z
/\ maxPrice Sample.free = Some 0%Z
/\ exists requestBody,
     Sample.compileRequest Sample.free [] = Ok requestBody
     /\ filter is_range
          (should_of requestBody ++ must_of requestBody ++ filters_of requestBody)%list
        = [].
Proof.
split; [reflexivity|]. split; [reflexivity|].
eexists. split; reflexivity.
Qed.

(** C5, at a token no alias matches.  The sort step throws the bad request
  error that names the token, and [listProducts] ends with the bad
  gateway error its own handler makes of it. *)
Theorem listProducts_unknown_sort_rating :
sortBy Sample.unsorted = Some "rating"
/\ sortNodeOf Sample.unsorted
   = Throw (Kobp (fromUserInput badRequest "Unknown sort by option: rating"))
/\ result (Sample.listProducts Sample.unsorted [])
   = Throw (Kobp (fromServer badGateway "ElasticSearch encountered an error"
                    (Some "Unknown sort by option: rating"))).
Proof. repeat split. Qed.

(** C6 on the sample: seven matches, exactly; and a reported total of
    zero with one hit. *)
Lemma listProducts_total_witness :
  (exists r,
     result (Sample.listProducts Sample.plain []) = Ok r
     /\ value (Products.total r) = 7%Z
     /\ isEstimate (Products.total r) = false)
  /\ (exists r,
        result (Sample.listProductsZero Sample.plain []) = Ok r
        /\ value (Products.total r) = 1%Z).
Proof.
  split.
  - destruct (result (Sample.listProducts Sample.plain [])) as [r|e] eqn:E;
      [|vm_compute in E; discriminate E].
    exists r. split; [reflexivity|].
    destruct (listProducts_total Sample.toLowerCase Sample.syntaxErrorMessage
                Js.value Sample.Deserialize Sample.search Sample.plain [] r E)
      as (requestBody & body & _ & S & _ & Est & _ & Val & _).
    injection S as <-. split.
    + apply (Val {| total_value := Some 7%Z; relation := Some "eq" |} 7%Z eq_refl eq_refl).
      discriminate.
    + destruct (isEstimate (Products.total r)); [|reflexivity].
      exfalso. exact (proj1 Est eq_refl eq_refl).
  - destruct (result (Sample.listProductsZero Sample.plain [])) as [r|e] eqn:E;
      [|vm_compute in E; discriminate E].
    exists r. split; [reflexivity|].
    destruct (listProducts_total Sample.toLowerCase Sample.syntaxErrorMessage
                Js.value Sample.Deserialize Sample.zeroSearch Sample.plain [] r E)
      as (requestBody & body & _ & S & _ & _ & _ & _ & Zero & _).
    injection S as <-.
    exact (Zero {| total_value := Some 0%Z; relation := Some "eq" |} eq_refl eq_refl).
Defined.

(** C6 as it was stated fails when the engine reports a total of zero and
    returns a hit: [total.value] is the number of items, not the value the
    engine reports. *)
Lemma total_zero_counterexample :
  total Sample.zeroPage = Some {| total_value := Some 0%Z; relation := Some "eq" |}
  /\ exists r,
       result (Sample.listProductsZero Sample.plain []) = Ok r
       /\ value (Products.total r) = 1%Z
       /\ value (Products.total r) <> 0%Z.
Proof.
  split; [reflexivity|]. eexists. split; [reflexivity|]. split; [reflexivity|].
  discriminate.
Qed.

(** C7 on the sample: no English option, one Thai option; and a suggest
    block whose channels carry no entry. *)
Lemma listProducts_suggestions_witness :
(exists r,
   result (Sample.listProducts Sample.plain []) = Ok r
   /\ Products.suggestionProduct r = ["วิ่ง"])
/\ result (Sample.listProductsEntryless Sample.plain [])
   = Throw (Kobp (fromServer badGateway "ElasticSearch encountered an error"
                    (Some "Cannot read properties of undefined (reading 'options')"))).
Proof.
split.
- destruct (result (Sample.listProducts Sample.plain [])) as [r|e] eqn:E;
    [|vm_compute in E; discriminate E].
  exists r. split; [reflexivity|].
  destruct (proj1 (listProducts_suggestions Sample.toLowerCase Sample.syntaxErrorMessage
                     Js.value Sample.Deserialize Sample.search Sample.plain []) r E)
    as (requestBody & body & _ & S & Sg).
  injection S as <-. cbn [suggest Sample.page] in Sg.
  destruct Sg as (optionsEn & restEn & En & _ & Th).
  injection En as <- <-.
  destruct (Th eq_refl) as (optionsTh & restTh & T & ->).
  now injection T as <- <-.
- refine (proj2 (proj2 (proj2 (listProducts_suggestions Sample.toLowerCase
                                 Sample.syntaxErrorMessage Js.value Sample.Deserialize
                                 Sample.entrylessSearch Sample.plain [])))
            (Sample.request Sample.plain) Sample.entrylessPage
            ([obj1 "sku" (VStr "sku-1")], None)
            {| suggestionEn := []; suggestionTh := [] |}
            eq_refl eq_refl eq_refl eq_refl _).
  now left.
Defined.

(** C7 as it was stated fails on a suggest block whose two channels are
    empty lists: the call is an error, the bad gateway error made of the
    TypeError of reading the first entry, and returns no list. *)
Lemma suggestions_entryless_counterexample :
suggest Sample.entrylessPage = Some {| suggestionEn := []; suggestionTh := [] |}
/\ result (Sample.listProductsEntryless Sample.plain [])
   = Throw (Kobp (fromServer badGateway "ElasticSearch encountered an error"
                    (Some "Cannot read properties of undefined (reading 'options')")))
/\ is_server_error
     (Kobp (fromServer badGateway "ElasticSearch encountered an error"
              (Some "Cannot read properties of undefined (reading 'options')"))) = true.
Proof. repeat split. Qed.

(** C8 on the sample: the key of the specification, and a key without
    delimiter. *)
Lemma colorSwatch_projection_witness :
swatchOf {| key := "red__Red__แดง"; doc_count := 4 |}
= {| code := Some "red"; label := {| en := Some "Red"; th := Some "แดง" |} |}
/\ swatchOf {| key := "blue"; doc_count := 1 |}
   = {| code := Some "blue"; label := {| en := None; th := None |} |}.
Proof.
destruct (colorSwatch_projection Sample.toLowerCase Sample.syntaxErrorMessage
            Js.value Sample.Deserialize Sample.search) as (Three & None & _).
split.
- exact (Three "red" "Red" "แดง" 4%Z eq_refl eq_refl eq_refl).
- exact (None "blue" 1%Z eq_refl).
Defined.

(** C9 on the sample: an engine that rejects every update. *)
Lemma term_tracker_error_policy_witness :
  result (Sample.trackUserSearchedKeywords Sample.global "Shoes") = Ok tt
  /\ List.length (printed (Sample.trackUserSearchedKeywords Sample.global "Shoes")) = 1%nat
  /\ result (Sample.updateDomainBoostedKeywords Sample.global "Shoes" 5)
     = Throw (Kobp (fromServer badGateway "ElasticSearch encountered an error"
                      (Some "version_conflict_engine_exception: document already exists"))).
Proof.
  destruct (term_tracker_error_policy Sample.toLowerCase Sample.digest Sample.rejectUpdate)
    as (Resolves & Logs & Line & _ & Throws).
  split; [|split].
  - apply Resolves.
  - unfold Sample.trackUserSearchedKeywords.
    rewrite (Logs Sample.global "Shoes" Sample.conflict eq_refl).
    destruct (meta_of Sample.conflict) as [meta|] eqn:M; [|discriminate M].
    rewrite (Line Sample.conflict meta M). reflexivity.
  - exact (Throws Sample.global "Shoes" 5%Z Sample.conflict eq_refl).
Defined.

(** C10 on the sample: twenty-four brands for a page size of two, and two
    brands for a page size of two. *)
Lemma listBrands_page_size_witness :
(exists r,
   result (Sample.listFullBrands Sample.plain) = Ok r /\ Brands.nextToken r = None)
/\ (exists r,
      result (Sample.listBrands Sample.plain) = Ok r
      /\ exists token,
           Brands.nextToken r = Some token
           /\ encodeCursor (sort (Sample.hit "puma" "1")) = Ok (Some token)).
Proof.
split.
- destruct (result (Sample.listFullBrands Sample.plain)) as [r|e] eqn:E;
    [|vm_compute in E; discriminate E].
  exists r. split; [reflexivity|].
  destruct (proj2 (listBrands_page_size Sample.syntaxErrorMessage string Sample.em_find
                     Sample.searchFullBrands) Sample.plain r E)
    as (searchAfter & body & S & _ & Full24 & _).
  injection S as <-. apply Full24; [discriminate | reflexivity].
- destruct (result (Sample.listBrands Sample.plain)) as [r|e] eqn:E;
    [|vm_compute in E; discriminate E].
  exists r. split; [reflexivity|].
  destruct (proj2 (listBrands_page_size Sample.syntaxErrorMessage string Sample.em_find
                     Sample.searchBrands) Sample.plain r E)
    as (searchAfter & body & S & _ & _ & Cursor).
  injection S as <-.
  exact (Cursor [Sample.hit "nike" "1"] (Sample.hit "puma" "1") eq_refl eq_refl).
Defined.


(** The further statements on the sample. *)
Lemma listProducts_sort_price_witness :
  sort_of (Sample.request Sample.pinned)
  = [obj1 "_score" (VStr "desc"); obj1 "actualMinPrice" (VStr "desc");
     obj1 "id" (VStr "asc")].
Proof.
  exact (listProducts_sort_price Sample.toLowerCase Sample.syntaxErrorMessage
           Sample.pinned [] (Sample.request Sample.pinned) "-Price" "-" "Price" ""
           eq_refl eq_refl eq_refl eq_refl eq_refl).
Defined.

Lemma listProducts_match_all_witness :
  field "query" (Sample.request Sample.plain)
  = obj1 "query_string" (obj1 "query" (VStr "*")).
Proof.
  exact (proj1 (listProducts_match_all Sample.toLowerCase Sample.syntaxErrorMessage
                  Sample.plain [] (Sample.request Sample.plain) eq_refl) eq_refl).
Defined.

Lemma listProducts_price_facets_witness :
  field "priceMax" (aggs_of (Sample.request Sample.pinned))
  = obj1 "max" (obj1 "field" (VStr "priceMax"))
  /\ field "priceMin" (aggs_of (Sample.request Sample.pinned))
     = obj1 "min" (obj1 "field" (VStr "priceMin")).
Proof.
  exact (listProducts_price_facets Sample.toLowerCase Sample.syntaxErrorMessage
           Sample.pinned [] (Sample.request Sample.pinned) eq_refl).
Defined.

Lemma listProducts_color_facet_witness :
  field "colorSwatch" (aggs_of (Sample.requestFor Sample.pinned ["brand"; "colorSwatch"]))
  = VObj [("terms", VObj [("field", VStr "colorSlugs");
                          ("order", VObj [("_count", VStr "desc")])])]
  /\ has_key "colorSwatch" (aggs_of (Sample.requestFor Sample.pinned ["brand"])) = false.
Proof.
  split.
  - apply (proj1 (listProducts_color_facet Sample.toLowerCase Sample.syntaxErrorMessage
                    Sample.pinned ["brand"; "colorSwatch"]
                    (Sample.requestFor Sample.pinned ["brand"; "colorSwatch"]) eq_refl)).
    right. now left.
  - apply (proj2 (listProducts_color_facet Sample.toLowerCase Sample.syntaxErrorMessage
                    Sample.pinned ["brand"]
                    (Sample.requestFor Sample.pinned ["brand"]) eq_refl)).
    intros [E|[]]. discriminate E.
Defined.

Lemma listProducts_sort_frame_witness :
  exists between,
    sort_of (Sample.request Sample.pinned)
    = ([obj1 "_score" (VStr "desc")] ++ between ++ [obj1 "id" (VStr "asc")])%list
    /\ (List.length between <= 1)%nat.
Proof.
  exact (listProducts_sort_frame Sample.toLowerCase Sample.syntaxErrorMessage
           Sample.pinned [] (Sample.request Sample.pinned) eq_refl).
Defined.

Lemma fromScopeToDomain_separates_witness :
  fromScopeToDomain (scope Sample.pinned) <> fromScopeToDomain Sample.global.
Proof.
  exact (fromScopeToDomain_separates (scope Sample.pinned) Sample.global eq_refl eq_refl).
Defined.

Lemma json_roundtrip_witness :
  exists t,
    Json.stringify (VArr [VNum "1.25"; VStr "sku-2"; VNull]) = Some t
    /\ Json.parse t = Some (VArr [VNum "1.25"; VStr "sku-2"; VNull]).
Proof.
  exact (json_roundtrip (VArr [VNum "1.25"; VStr "sku-2"; VNull]) eq_refl).
Defined.

Lemma listProducts_unknown_sort_witness :
  result (Sample.listProducts Sample.unsorted [])
  = Throw (Kobp (fromServer badGateway "ElasticSearch encountered an error"
                   (Some "Unknown sort by option: rating"))).
Proof.
  refine (proj2 (listProducts_unknown_sort Sample.toLowerCase Sample.syntaxErrorMessage
                   Js.value Sample.Deserialize Sample.search Sample.unsorted [] "rating"
                   eq_refl _ eq_refl eq_refl eq_refl eq_refl)).
  discriminate.
Defined.


(** *** Supported indices *)

Lemma findIndex_from_found {A : Type} (p : A -> bool) (xs : list A) :
  forall i, (0 <= i)%Z -> Z.geb (findIndex_from i p xs) 0 = existsb p xs.
Proof.
  induction xs as [|x xs IH]; intros i Hi; [reflexivity|].
  cbn [findIndex_from existsb]. destruct (p x); cbn [orb].
  - unfold Z.geb. destruct (Z.compare_spec i 0); try reflexivity; lia.
  - apply IH. lia.
Qed.

(** X18.  [isSupportedIndex] accepts three names, [products], [queryterms]
    and [boostedterms], and nothing else: not the name of the brand index,
    which [listBrands] searches and [syncBrands] writes. *)
Theorem isSupportedIndex_names :
  (forall o,
     isSupportedIndex o = true
     <-> o = "products" \/ o = "queryterms" \/ o = "boostedterms")
  /\ isSupportedIndex BRAND_INDEX = false
  /\ isSupportedIndex PRODUCT_INDEX = true
  /\ isSupportedIndex POPULAR_TERMS_INDEX = true
  /\ isSupportedIndex BOOSTED_TERMS_INDEX = true.
Proof.
  split; [|repeat split].
  intros o. unfold isSupportedIndex, findIndex.
  rewrite findIndex_from_found by lia. unfold ALL_INDICES. cbn [existsb].
  rewrite orb_false_r, !orb_true_iff, !String.eqb_eq.
  intuition congruence.
Qed.

(** *** Terms *)

Lemma mapM_ok {A B : Type} (f : A -> outcome B) (xs : list A) (ys : list B) :
  Forall2 (fun x y => f x = Ok y) xs ys -> mapM f xs = Ok ys.
Proof.
  induction 1 as [|x y xs ys Hx _ IH]; [reflexivity|].
  cbn [mapM]. rewrite Hx. cbn [and_then]. rewrite IH. reflexivity.
Qed.

Lemma mapM_throw {A B : Type} (f : A -> outcome B) (front : list A) (x : A)
  (back : list A) (e : error) :
  f x = Throw e -> exists e', mapM f (front ++ x :: back) = Throw e'.
Proof.
  intros Hx. induction front as [|y front IH]; cbn [app mapM].
  - rewrite Hx. now exists e.
  - destruct (f y) as [b|e0]; [|now exists e0].
    cbn [and_then]. destruct IH as (e' & ->). now exists e'.
Qed.

Section Terms.
Variable client_search_terms : Js.value -> outcome Js.value.
Variable client_deleteByQuery : Js.value -> outcome Js.value.

Local Abbreviation _queryTerms := (Es._queryTerms client_search_terms).
Local Abbreviation popularTerms := (Es.popularTerms client_search_terms).
Local Abbreviation boostedTerms := (Es.boostedTerms client_search_terms).
Local Abbreviation getDomainBoostedKeywords :=
  (Es.getDomainBoostedKeywords client_search_terms).
Local Abbreviation _deleteTerms := (Es._deleteTerms client_deleteByQuery).

(** X19.  The request of a term lookup.  Popular and boosted terms are
    asked for with the same query, ten of them, and differ in the index
    and in the second sort key: the hit count for popular terms, the score
    for boosted ones, after the relevance.  The query always filters on the
    domain of the scope; what was typed is one optional [term] clause on
    [q], typed as it is, and is left out when nothing or the empty text
    was typed. *)
Theorem queryTerms_request (scope : ScopeOption) (typed : option string) :
  get ["body"; "query"] (termsRequest queryterms scope typed)
  = get ["body"; "query"] (termsRequest boostedterms scope typed)
  /\ field "index" (termsRequest queryterms scope typed) = VStr POPULAR_TERMS_INDEX
  /\ field "index" (termsRequest boostedterms scope typed) = VStr BOOSTED_TERMS_INDEX
  /\ get ["body"; "sort"] (termsRequest queryterms scope typed)
     = VArr [obj1 "_score" (VStr "desc"); obj1 "hit" (VStr "desc")]
  /\ get ["body"; "sort"] (termsRequest boostedterms scope typed)
     = VArr [obj1 "_score" (VStr "desc"); obj1 "score" (VStr "desc")]
  /\ (forall index,
        get ["body"; "size"] (termsRequest index scope typed) = num 10
        /\ get ["body"; "query"; "bool"; "filter"] (termsRequest index scope typed)
           = VArr [VObj [("term", VObj [("domain", VStr (fromScopeToDomain scope))])]]
        /\ get ["body"; "query"; "bool"; "should"] (termsRequest index scope typed)
           = VArr (if truthy_str typed
                   then [VObj [("term",
                                VObj [("q", VStr (match typed with
                                                  | Some t => t
                                                  | None => ""
                                                  end))])]]
                   else [])).
Proof.
  repeat split; try (destruct index); try reflexivity;
    (destruct typed as [t|]; [|reflexivity]);
    unfold termsRequest; cbn [truthy_str]; destruct (negb (t =? "")); reflexivity.
Qed.

Lemma queryTerms_result (index : TermIndex) (scope : ScopeOption) (typed : option string) :
  result (_queryTerms index scope typed)
  = wrapped
      match client_search_terms (termsRequest index scope typed) with
      | Throw e => Throw e
      | Ok body =>
          array_map "hits" (fun o => and_then (prop "_source" o) (prop "q"))
            (or_else (get ["hits"; "hits"] body) (VArr []))
      end.
Proof.
  unfold Es._queryTerms. rewrite result_catch, result_bind. cbn [lift result snd].
  destruct (client_search_terms _) as [body|e]; cbn [wrapped];
    [|now rewrite result_throwElasticSearchError].
  rewrite result_bind. cbn [console_log result snd lift].
  destruct (array_map _ _ _) as [qs|e]; cbn [wrapped];
    [reflexivity|now rewrite result_throwElasticSearchError].
Qed.

(** X20.  What a term lookup returns.  When the engine answers with hits,
    each with a [_source], the terms are the [q] of the sources, one for
    each hit and in the order of the response; an answer without hits
    gives no term; the hits are printed before they are read; and a
    rejection of the engine, as a hit without a source, ends the call
    with the gateway error. *)
Theorem queryTerms_terms (index : TermIndex) (scope : ScopeOption)
  (typed : option string) :
  (forall body hits qs,
     client_search_terms (termsRequest index scope typed) = Ok body ->
     get ["hits"; "hits"] body = VArr hits ->
     Forall2 (fun hit q => exists source, prop "_source" hit = Ok source
                                          /\ prop "q" source = Ok q) hits qs ->
     result (_queryTerms index scope typed) = Ok qs
     /\ printed (_queryTerms index scope typed)
        = [(Log, ["Body"; undefined_text (Json.stringify (VArr hits))])])
  /\ (forall body,
        client_search_terms (termsRequest index scope typed) = Ok body ->
        truthy (get ["hits"; "hits"] body) = false ->
        result (_queryTerms index scope typed) = Ok [])
  /\ (forall e,
        client_search_terms (termsRequest index scope typed) = Throw e ->
        result (_queryTerms index scope typed)
        = Throw (Kobp (fromServer badGateway "ElasticSearch encountered an error"
                         (Some (_normalizeESErrorMessage e)))))
  /\ (forall body front hit back,
        client_search_terms (termsRequest index scope typed) = Ok body ->
        get ["hits"; "hits"] body = VArr (front ++ hit :: back) ->
        nullish (field "_source" hit) = true ->
        exists e,
          result (_queryTerms index scope typed)
          = Throw (Kobp (fromServer badGateway "ElasticSearch encountered an error"
                           (Some (_normalizeESErrorMessage e))))).
Proof.
  split; [|split; [|split]].
  - intros body hits qs S H F. split.
    + rewrite queryTerms_result, S, H. unfold or_else. cbn [truthy array_map].
      rewrite (mapM_ok _ hits qs); [reflexivity|].
      eapply Forall2_impl; [|exact F]. intros hit q (source & E1 & E2).
      rewrite E1. exact E2.
    + unfold Es._queryTerms. rewrite S. cbn [lift bind console_log]. rewrite H.
      unfold or_else. cbn [truthy array_map].
      rewrite (mapM_ok _ hits qs).
      * reflexivity.
      * eapply Forall2_impl; [|exact F]. intros hit q (source & E1 & E2).
        rewrite E1. exact E2.
  - intros body S T. rewrite queryTerms_result, S. unfold or_else. rewrite T. reflexivity.
  - intros e S. rewrite queryTerms_result, S. reflexivity.
  - intros body front hit back S H N. rewrite queryTerms_result, S, H.
    unfold or_else. cbn [truthy array_map].
    assert (Y : exists e, and_then (prop "_source" hit) (prop "q") = Throw e).
    { destruct hit as [| |b|l|s|xs|fs]; cbn in *; try discriminate; eauto.
      destruct (lookup "_source" fs); try discriminate; cbn; eauto. }
    destruct Y as (e0 & Y).
    destruct (mapM_throw (fun o => and_then (prop "_source" o) (prop "q"))
                front hit back e0 Y) as (e & X).
    exists e. now rewrite X.
Qed.

(** X21.  What is written under a scope is looked up under it.  The
    tracker of searched keywords upserts into the index popular terms are
    read from, with the domain the lookup filters on; the boosted keywords
    are upserted into the index [boostedTerms] and
    [getDomainBoostedKeywords] read from, with the domain they filter on.
    The stored term is the lower-cased text, while a lookup asks for the
    text as it was typed. *)
Theorem terms_written_and_read (toLowerCase : string -> string)
  (md5_base64 : string -> string) (scope : ScopeOption) (typed : string) (score : Z) :
  let domain := fromScopeToDomain scope in
  let tracked := Es.trackRequest toLowerCase md5_base64 scope typed in
  let boosted := Es.boostRequest toLowerCase md5_base64 scope typed score in
  field "index" tracked = field "index" (termsRequest queryterms scope (Some typed))
  /\ get ["body"; "upsert"; "domain"] tracked = VStr domain
  /\ get ["body"; "query"; "bool"; "filter"] (termsRequest queryterms scope (Some typed))
     = VArr [VObj [("term", VObj [("domain", VStr domain)])]]
  /\ field "index" boosted = field "index" (termsRequest boostedterms scope (Some typed))
  /\ field "index" boosted = field "index" (boostedKeywordsRequest scope)
  /\ get ["body"; "upsert"; "domain"] boosted = VStr domain
  /\ get ["body"; "query"; "bool"; "filter"] (termsRequest boostedterms scope (Some typed))
     = VArr [VObj [("term", VObj [("domain", VStr domain)])]]
  /\ get ["body"; "query"; "bool"; "filter"] (boostedKeywordsRequest scope)
     = VArr [VObj [("term", VObj [("domain", VStr domain)])]]
  /\ get ["body"; "upsert"; "q"] tracked = VStr (toLowerCase typed)
  /\ get ["body"; "upsert"; "q"] boosted = VStr (toLowerCase typed)
  /\ (typed <> "" ->
      forall index,
        get ["body"; "query"; "bool"; "should"] (termsRequest index scope (Some typed))
        = VArr [VObj [("term", VObj [("q", VStr typed)])]]).
Proof.
  repeat split; try reflexivity.
  intros Ht index. destruct index; cbn; destruct (String.eqb_spec typed "");
    try contradiction; reflexivity.
Qed.

(** X22.  [getDomainBoostedKeywords] asks for up to 1000 documents of the
    domain and returns the source of each hit, in the order of the
    response; an answer without hits gives the empty list; a rejection of
    the engine is the gateway error. *)
Theorem getDomainBoostedKeywords_sources (scope : ScopeOption) :
  get ["body"; "size"] (boostedKeywordsRequest scope) = num 1000
  /\ (forall body hits sources,
        client_search_terms (boostedKeywordsRequest scope) = Ok body ->
        get ["hits"; "hits"] body = VArr hits ->
        Forall2 (fun hit source => prop "_source" hit = Ok source) hits sources ->
        result (getDomainBoostedKeywords scope) = Ok sources)
  /\ (forall body,
        client_search_terms (boostedKeywordsRequest scope) = Ok body ->
        get ["hits"; "hits"] body = VUndefined ->
        result (getDomainBoostedKeywords scope) = Ok [])
  /\ (forall e,
        client_search_terms (boostedKeywordsRequest scope) = Throw e ->
        result (getDomainBoostedKeywords scope)
        = Throw (Kobp (fromServer badGateway "ElasticSearch encountered an error"
                         (Some (_normalizeESErrorMessage e))))).
Proof.
  split; [reflexivity|]. split; [|split].
  - intros body hits sources S H F. unfold Es.getDomainBoostedKeywords.
    rewrite result_bind, result_catch, S. cbn [lift result snd].
    unfold get_or. rewrite H. cbn [array_map]. now rewrite (mapM_ok _ hits sources).
  - intros body S H. unfold Es.getDomainBoostedKeywords.
    rewrite result_bind, result_catch, S. cbn [lift result snd].
    unfold get_or. rewrite H. reflexivity.
  - intros e S. unfold Es.getDomainBoostedKeywords.
    rewrite result_bind, result_catch, S. cbn [lift result snd].
    now rewrite result_throwElasticSearchError.
Qed.

(** X23.  Deleting terms.  Without a keyword nothing is asked of the
    engine and the count is 0.  With keywords, one delete-by-query asks
    for the documents of the domain that match one of them, a [match]
    clause on [q] for each keyword in order; the count is what the engine
    reports as deleted, and 0 when it reports none; a rejection is the
    gateway error. *)
Theorem deleteTerms_counts (index : TermIndex) (scope : ScopeOption) :
  _deleteTerms index scope None = ret (num 0)
  /\ _deleteTerms index scope (Some []) = ret (num 0)
  /\ (forall k ks,
        get ["body"; "query"; "bool"; "must"] (deleteTermsRequest index scope (k :: ks))
        = VArr [obj1 "bool"
                  (obj1 "should"
                     (VArr (map (fun k => obj1 "match" (obj1 "q" (VStr k))) (k :: ks))));
                obj1 "match" (obj1 "domain" (VStr (fromScopeToDomain scope)))]
        /\ field "index" (deleteTermsRequest index scope (k :: ks))
           = VStr (index_name index))
  /\ (forall k ks body,
        client_deleteByQuery (deleteTermsRequest index scope (k :: ks)) = Ok body ->
        result (_deleteTerms index scope (Some (k :: ks)))
        = Ok (if truthy (get ["deleted"] body) then get ["deleted"] body else num 0))
  /\ (forall k ks e,
        client_deleteByQuery (deleteTermsRequest index scope (k :: ks)) = Throw e ->
        result (_deleteTerms index scope (Some (k :: ks)))
        = Throw (Kobp (fromServer badGateway "ElasticSearch encountered an error"
                         (Some (_normalizeESErrorMessage e))))).
Proof.
  split; [reflexivity|]. split; [reflexivity|]. split; [|split].
  - intros k ks. split; reflexivity.
  - intros k ks body S. unfold Es._deleteTerms. cbn [truthy_list elems_of].
    rewrite result_catch, result_bind, S. reflexivity.
  - intros k ks e S. unfold Es._deleteTerms. cbn [truthy_list elems_of].
    rewrite result_catch, result_bind, S. cbn [lift result snd].
    now rewrite result_throwElasticSearchError.
Qed.

End Terms.

(** *** Bulk updates *)

Lemma prop_field (k : string) (v : Js.value) :
  nullish v = false -> prop k v = Ok (field k v).
Proof. destruct v; simpl; intros H; try discriminate; reflexivity. Qed.

(** A [flatMap] whose callback returns on every element. *)
Lemma flatMapM_ok {A B : Type} (f : A -> M (list B)) (out : A -> list line)
  (g : A -> list B) (xs : list A) :
  (forall x, In x xs -> f x = (out x, Ok (g x))) ->
  flatMapM f xs = (flat_map out xs, Ok (flat_map g xs)).
Proof.
  induction xs as [|x xs IH]; intros H; [reflexivity|].
  cbn [flatMapM flat_map]. rewrite (H x (or_introl eq_refl)).
  rewrite IH by (intros y Hy; apply H; now right).
  unfold bind, ret. now rewrite app_nil_r.
Qed.

(** A [flatMap] whose callback throws on an element stops there. *)
Lemma flatMapM_throw {A B : Type} (f : A -> M (list B)) (out : A -> list line)
  (g : A -> list B) (front : list A) (x : A) (back : list A)
  (lines : list line) (e : error) :
  (forall y, In y front -> f y = (out y, Ok (g y))) ->
  f x = (lines, Throw e) ->
  flatMapM f (front ++ x :: back) = ((flat_map out front ++ lines)%list, Throw e).
Proof.
  intros Hf Hx. induction front as [|y front IH].
  - cbn [app flatMapM flat_map]. now rewrite Hx.
  - cbn [app flatMapM flat_map]. rewrite (Hf y (or_introl eq_refl)).
    rewrite IH by (intros z Hz; apply Hf; now right).
    unfold bind. now rewrite app_assoc.
Qed.

Section Bulk.
Variable ProductModel : Type.
Variable Serialize : ProductModel -> Js.value.
Variable BrandsESFormat : Type.
Variable SerializeBrand : BrandsESFormat -> Js.value.
Variable scriptSaveProducts : string.
Variable scriptSaveBrands : string.
Variable scriptUpdateStock : string.
Variable scriptReserveStock : string.
Variable scriptPaidStock : string.
Variable scriptExpiredStock : string.
Variable scriptCancelStock : string.
Variable inspect : Js.value -> string.
Variable BrandStoreEntity : Type.
Variable client_bulk : Js.value -> outcome (list Js.value).

Local Abbreviation saveProducts :=
  (Es.saveProducts ProductModel Serialize scriptSaveProducts client_bulk).
Local Abbreviation syncBrands :=
  (Es.syncBrands BrandsESFormat SerializeBrand scriptSaveBrands inspect client_bulk).
Local Abbreviation stockUpdate := (Es.stockUpdate inspect client_bulk).

Lemma flat_map_pairs {A B : Type} (g : A -> list B) (xs : list A) :
  (forall x, List.length (g x) = 2%nat) ->
  List.length (flat_map g xs) = (2 * List.length xs)%nat.
Proof.
  intros H. induction xs as [|x xs IH]; [reflexivity|].
  cbn [flat_map]. rewrite length_app, H, IH. simpl. lia.
Qed.

(** X24.  [saveProducts], for products that serialize to documents: one
    bulk request with two lines for each product, in order, the update
    action on the product index under the document's [sku] and the
    scripted upsert of the document; the answer is [true] whenever the
    engine answers, whatever it answers (the items of the response are not
    looked at), and a rejection is the gateway error. *)
Theorem saveProducts_bulk (data : list ProductModel) :
  (forall productModel, In productModel data -> nullish (Serialize productModel) = false) ->
  let body :=
    flat_map
      (fun productModel =>
         [VObj [("update",
                 VObj [("_id", field "sku" (Serialize productModel));
                       ("_index", VStr "products")])];
          VObj [("script",
                 VObj [("source", VStr scriptSaveProducts);
                       ("lang", VStr "painless");
                       ("params", Serialize productModel)]);
                ("upsert", Serialize productModel)]]) data in
  List.length body = (2 * List.length data)%nat
  /\ (forall items,
        client_bulk (VObj [("refresh", VBool true); ("body", VArr body)]) = Ok items ->
        saveProducts data = ret true)
  /\ (forall e,
        client_bulk (VObj [("refresh", VBool true); ("body", VArr body)]) = Throw e ->
        result (saveProducts data)
        = Throw (Kobp (fromServer badGateway "ElasticSearch encountered an error"
                         (Some (_normalizeESErrorMessage e))))).
Proof.
  intros H body.
  set (productLines :=
         fun productModel =>
           [updateAction (field "sku" (Serialize productModel)) PRODUCT_INDEX;
            VObj [("script", painless scriptSaveProducts (Serialize productModel));
                  ("upsert", Serialize productModel)]]).
  change body with (flat_map productLines data). clear body.
  change (VObj [("refresh", VBool true); ("body", VArr (flat_map productLines data))])
    with (bulkRequest (flat_map productLines data)).
  assert (F : flatMapM
                (fun productModel =>
                   lift (upsertLines "sku" PRODUCT_INDEX scriptSaveProducts
                           (Serialize productModel))) data
              = ([], Ok (flat_map productLines data))).
  { rewrite (flatMapM_ok _ (fun _ => []) productLines).
    - f_equal. induction data as [|x xs IH]; [reflexivity|]. apply IH.
      intros y Hy. apply H. now right.
    - intros x Hx. unfold upsertLines. now rewrite (prop_field _ _ (H x Hx)). }
  split; [|split].
  - now apply flat_map_pairs.
  - intros items S. unfold Es.saveProducts. rewrite F. unfold bind at 1.
    rewrite S. reflexivity.
  - intros e S. unfold Es.saveProducts. rewrite F. unfold bind at 1.
    rewrite S. cbn [lift bind catch app].
    unfold _throwElasticSearchError, _logElasticSearchError.
    destruct (meta_of e); reflexivity.
Qed.

(** X25.  [syncBrands], for brands that serialize to documents: every
    document is printed, then one bulk request goes out with two lines for
    each brand, under the document's [id] on the brand index; the answer is
    [true] whenever the engine answers.  A brand that serializes to
    [null] ends the call with a TypeError, as it is thrown and before any
    request. *)
Theorem syncBrands_bulk (brands : list BrandsESFormat) :
  (forall brand, In brand brands -> nullish (SerializeBrand brand) = false) ->
  let body :=
    flat_map
      (fun brand =>
         [VObj [("update",
                 VObj [("_id", field "id" (SerializeBrand brand));
                       ("_index", VStr "brands")])];
          VObj [("script",
                 VObj [("source", VStr scriptSaveBrands);
                       ("lang", VStr "painless");
                       ("params", SerializeBrand brand)]);
                ("upsert", SerializeBrand brand)]]) brands in
  (forall items,
     client_bulk (VObj [("refresh", VBool true); ("body", VArr body)]) = Ok items ->
     syncBrands brands
     = (map (fun brand => (Log, [inspect (SerializeBrand brand)])) brands, Ok true))
  /\ (forall e,
        client_bulk (VObj [("refresh", VBool true); ("body", VArr body)]) = Throw e ->
        result (syncBrands brands)
        = Throw (Kobp (fromServer badGateway "ElasticSearch encountered an error"
                         (Some (_normalizeESErrorMessage e)))))
  /\ (forall brand more,
        SerializeBrand brand = VNull ->
        syncBrands (brands ++ brand :: more)
        = (map (fun brand => (Log, [inspect (SerializeBrand brand)])) (brands ++ [brand]),
           Throw (TypeError "Cannot read properties of null (reading 'id')"))).
Proof.
  intros H body.
  set (brandLines :=
         fun brand =>
           [updateAction (field "id" (SerializeBrand brand)) BRAND_INDEX;
            VObj [("script", painless scriptSaveBrands (SerializeBrand brand));
                  ("upsert", SerializeBrand brand)]]).
  change body with (flat_map brandLines brands). clear body.
  change (VObj [("refresh", VBool true); ("body", VArr (flat_map brandLines brands))])
    with (bulkRequest (flat_map brandLines brands)).
  assert (E : forall x, In x brands ->
                (console_log [inspect (SerializeBrand x)] ;;;
                 lift (upsertLines "id" BRAND_INDEX scriptSaveBrands (SerializeBrand x)))
                = ([(Log, [inspect (SerializeBrand x)])], Ok (brandLines x))).
  { intros x Hx. unfold upsertLines. now rewrite (prop_field _ _ (H x Hx)). }
  assert (P : forall xs : list BrandsESFormat,
                flat_map (fun x => [(Log, [inspect (SerializeBrand x)])]) xs
                = map (fun brand => (Log, [inspect (SerializeBrand brand)])) xs).
  { induction xs as [|x xs IH]; [reflexivity|]. cbn [flat_map map app]. now rewrite IH. }
  split; [|split].
  - intros items S. unfold Es.syncBrands.
    rewrite (flatMapM_ok _ _ brandLines brands E), P. unfold bind at 1.
    rewrite S. cbn [lift bind catch ret app]. now rewrite app_nil_r.
  - intros e S. unfold Es.syncBrands.
    rewrite (flatMapM_ok _ _ brandLines brands E). unfold bind at 1.
    rewrite S. cbn [lift bind catch app].
    unfold _throwElasticSearchError, _logElasticSearchError.
    destruct (meta_of e); reflexivity.
  - intros brand more N. unfold Es.syncBrands.
    rewrite (flatMapM_throw _ _ brandLines brands brand more
               [(Log, [inspect (SerializeBrand brand)])] (cannot_read VNull "id") E).
    + rewrite P, map_app. reflexivity.
    + rewrite N. reflexivity.
Qed.

(** X26.  The five stock methods ([updateStocks], [reserveStocks],
    [paidStocks], [expiredStocks], [cancelStocks]), each with its script,
    for stock documents: one bulk request with two lines for each
    document, the update action under the document's [indexId] and the
    script with the document as its parameters.  When the engine answers,
    the call reads the [update.error] of the first item of the response and
    prints it: it returns [true] when that item has an [update], and ends
    with the gateway error, made of the TypeError of the read, when the
    response has no item.  A rejection of the engine is the gateway
    error. *)
Theorem stock_updates_bulk (script : string) (requestBody : list Js.value) :
  (forall doc, In doc requestBody -> nullish doc = false) ->
  let body :=
    flat_map
      (fun doc =>
         [VObj [("update",
                 VObj [("_id", field "indexId" doc); ("_index", VStr "products")])];
          VObj [("script",
                 VObj [("source", VStr script);
                       ("lang", VStr "painless");
                       ("params", doc)])]]) requestBody in
  (forall brandStore,
     Es.updateStocks scriptUpdateStock inspect BrandStoreEntity client_bulk
       requestBody brandStore
     = stockUpdate scriptUpdateStock requestBody)
  /\ Es.reserveStocks scriptReserveStock inspect client_bulk requestBody
     = stockUpdate scriptReserveStock requestBody
  /\ Es.paidStocks scriptPaidStock inspect client_bulk requestBody
     = stockUpdate scriptPaidStock requestBody
  /\ Es.expiredStocks scriptExpiredStock inspect client_bulk requestBody
     = stockUpdate scriptExpiredStock requestBody
  /\ Es.cancelStocks scriptCancelStock inspect client_bulk requestBody
     = stockUpdate scriptCancelStock requestBody
  /\ (forall item rest update,
     client_bulk (VObj [("refresh", VBool true); ("body", VArr body)])
     = Ok (item :: rest) ->
     prop "update" item = Ok update -> nullish update = false ->
     stockUpdate script requestBody
     = ([(Log, ["RESULT>>"; inspect (field "error" update)])], Ok true))
  /\ (client_bulk (VObj [("refresh", VBool true); ("body", VArr body)]) = Ok [] ->
      result (stockUpdate script requestBody)
      = Throw (Kobp (fromServer badGateway "ElasticSearch encountered an error"
                       (Some "Cannot read properties of undefined (reading 'update')"))))
  /\ (forall e,
        client_bulk (VObj [("refresh", VBool true); ("body", VArr body)]) = Throw e ->
        result (stockUpdate script requestBody)
        = Throw (Kobp (fromServer badGateway "ElasticSearch encountered an error"
                         (Some (_normalizeESErrorMessage e))))).
Proof.
  intros H body.
  change (VObj [("refresh", VBool true); ("body", VArr body)]) with (bulkRequest body).
  assert (F : flatMapM (fun doc => lift (stockLines script doc)) requestBody
              = ([], Ok body)).
  { subst body.
    rewrite (flatMapM_ok _ (fun _ => [])
               (fun doc => [updateAction (field "indexId" doc) PRODUCT_INDEX;
                            obj1 "script" (painless script doc)])).
    - f_equal. clear H. induction requestBody as [|x xs IH]; [reflexivity|]. exact IH.
    - intros x Hx. unfold stockLines. now rewrite (prop_field _ _ (H x Hx)). }
  do 5 (split; [reflexivity|]). split; [|split].
  - intros item rest update S U N. unfold Es.stockUpdate. rewrite F. unfold bind at 1.
    rewrite S. cbn [lift bind catch]. unfold firstUpdateError. cbn [nth].
    rewrite U. cbn [and_then]. rewrite (prop_field _ _ N). reflexivity.
  - intros S. unfold Es.stockUpdate. rewrite F. unfold bind at 1.
    rewrite S. reflexivity.
  - intros e S. unfold Es.stockUpdate. rewrite F. unfold bind at 1.
    rewrite S. cbn [lift bind catch app].
    unfold _throwElasticSearchError, _logElasticSearchError.
    destruct (meta_of e); reflexivity.
Qed.

End Bulk.

(** *** Products by SKU *)

Section BySku.
Variable client_get : Js.value -> outcome Js.value.
Variable client_delete : Js.value -> outcome Js.value.

Local Abbreviation getProductBySku := (Es.getProductBySku client_get).
Local Abbreviation deleteProductBySku := (Es.deleteProductBySku client_delete).

(** X27.  [getProductBySku] and [deleteProductBySku] print nothing and
    report every failure, a rejection of the engine of whatever kind as a
    response without a body, as the client error [notFound], with the
    message [Resource not found] for the read and [Error Delete] for the
    deletion; what the engine said is dropped.  The read returns the
    [_source] of the response, and the deletion [true]. *)
Theorem sku_operations (sku : string) :
  (forall e, result (getProductBySku sku) = Throw e ->
             e = Kobp (fromUserInput notFound "Resource not found"))
  /\ (forall e, result (deleteProductBySku sku) = Throw e ->
                e = Kobp (fromUserInput notFound "Error Delete"))
  /\ printed (getProductBySku sku) = []
  /\ printed (deleteProductBySku sku) = []
  /\ (forall r, result (getProductBySku sku) = Ok r ->
                exists body,
                  client_get (VObj [("index", VStr PRODUCT_INDEX);
                                    ("type", VStr "_doc");
                                    ("id", VStr sku)]) = Ok body
                  /\ r = field "_source" body)
  /\ (forall r, result (deleteProductBySku sku) = Ok r -> r = true)
  /\ (forall e,
        client_get (VObj [("index", VStr PRODUCT_INDEX);
                          ("type", VStr "_doc");
                          ("id", VStr sku)]) = Throw e ->
        result (getProductBySku sku)
        = Throw (Kobp (fromUserInput notFound "Resource not found")))
  /\ (forall e,
        client_delete (VObj [("index", VStr PRODUCT_INDEX); ("id", VStr sku)]) = Throw e ->
        result (deleteProductBySku sku)
        = Throw (Kobp (fromUserInput notFound "Error Delete"))).
Proof.
  unfold Es.getProductBySku, Es.deleteProductBySku.
  repeat split.
  - intros e. destruct (client_get _) as [body|e0]; [|cbn; congruence].
    destruct body; cbn; congruence.
  - intros e. destruct (client_delete _) as [body|e0]; cbn; congruence.
  - destruct (client_get _) as [body|e0]; [|reflexivity]. destruct body; reflexivity.
  - destruct (client_delete _) as [body|e0]; reflexivity.
  - intros r. destruct (client_get _) as [body|e0]; [|cbn; congruence].
    destruct body; cbn; try congruence; intros [= <-]; eexists; split; reflexivity.
  - intros r. destruct (client_delete _) as [body|e0]; cbn; congruence.
  - intros e S. now rewrite S.
  - intros e S. now rewrite S.
Qed.

End BySku.

(** *** Index configuration *)

Section Index.
Variable respond : list call -> call -> outcome Js.value.

Local Abbreviation request := (Es.request respond).
Local Abbreviation configIndex := (Es.configIndex respond).

Lemma request_then_calls (method : string) (params : Js.value) (history : list call) :
  calls ((request method params ;;~ io_ret tt) history) = [(method, params)].
Proof.
  unfold io_bind, Es.request, io_ret. cbn [calls ended].
  destruct (respond history (method, params)); reflexivity.
Qed.

Lemma request_then_ended (method : string) (params : Js.value) (history : list call) :
  ended ((request method params ;;~ io_ret tt) history)
  = match respond history (method, params) with
    | Ok _ => Returned tt
    | Throw e => Raised (Error e)
    end.
Proof.
  unfold io_bind, Es.request, io_ret. cbn [calls ended].
  destruct (respond history (method, params)); reflexivity.
Qed.

(** A handler that throws: the block returns what its body returns, or
    raises what the handler makes of what the body raised. *)
Lemma catch_rethrow_ended {A : Type} (m : Io A) (rethrow : thrown -> thrown)
  (history : list call) :
  ended (io_catch m (fun error => io_throw (rethrow error)) history)
  = match ended (m history) with
    | Returned a => Returned a
    | Raised error => Raised (rethrow error)
    end.
Proof. unfold io_catch, io_throw. destruct (ended (m history)) eqn:E; cbn; [exact E|reflexivity]. Qed.

(** X28.  [configIndex] always ends by reopening the index: whatever the
    engine answers and however the configuration goes, the last call made
    is [indices.open] on the target index.  A call that fails has thrown
    either the server error [badGateway] with a message that starts with
    [Unable to perform Setting Index on ES: ], or what the engine rejected
    that last [indices.open] with, as it is. *)
Theorem configIndex_reopens (targetIndex : string) (indexSettings : IndexSettings)
  (destroyExistingIndex : option bool) (history : list call) :
  (exists before,
     calls (configIndex targetIndex indexSettings destroyExistingIndex history)
     = (before ++ [("indices.open", VObj [("index", VStr targetIndex)])])%list)
  /\ (forall error,
        ended (configIndex targetIndex indexSettings destroyExistingIndex history)
        = Raised error ->
        (exists cause,
           error = Error (Kobp (fromServer badGateway
                                  ("Unable to perform Setting Index on ES: " ++ cause)
                                  None)))
        \/ (exists before e,
              respond (history ++ before)%list ("indices.open", VObj [("index", VStr targetIndex)])
              = Throw e
              /\ error = Error e)).
Proof.
  unfold Es.configIndex, io_finally. cbn [calls ended]. split.
  - eexists. rewrite request_then_calls. reflexivity.
  - intros error. rewrite request_then_ended.
    match goal with
    | |- context [respond (history ++ ?b)%list ?c] =>
        destruct (respond (history ++ b)%list c) as [v|e] eqn:O
    end.
    + rewrite catch_rethrow_ended.
      match goal with
      | |- match ended ?r with _ => _ end = _ -> _ => destruct (ended r) as [a|cause]
      end; [discriminate|].
      intros [= <-]. left. now eexists.
    + intros [= <-]. right. eauto.
Qed.

(** The run of a block, from the runs of its parts. *)
Lemma run_bind_returned {A B : Type} (m : Io A) (k : A -> Io B) (history : list call)
  (cs cs' : list call) (out out' : list line) (a : A) (en : ending B) :
  m history = {| calls := cs; shown := out; ended := Returned a |} ->
  k a (history ++ cs)%list = {| calls := cs'; shown := out'; ended := en |} ->
  io_bind m k history
  = {| calls := (cs ++ cs')%list; shown := (out ++ out')%list; ended := en |}.
Proof. intros E1 E2. unfold io_bind. rewrite E1. cbn [ended calls shown]. now rewrite E2. Qed.

Lemma run_bind_raised {A B : Type} (m : Io A) (k : A -> Io B) (history : list call)
  (cs : list call) (out : list line) (error : thrown) :
  m history = {| calls := cs; shown := out; ended := Raised error |} ->
  io_bind m k history = {| calls := cs; shown := out; ended := Raised error |}.
Proof. intros E1. unfold io_bind. now rewrite E1. Qed.

Lemma run_catch_returned {A : Type} (m : Io A) (handler : thrown -> Io A)
  (history : list call) (cs : list call) (out : list line) (a : A) :
  m history = {| calls := cs; shown := out; ended := Returned a |} ->
  io_catch m handler history = {| calls := cs; shown := out; ended := Returned a |}.
Proof. intros E1. unfold io_catch. now rewrite E1. Qed.

Lemma run_catch_raised {A : Type} (m : Io A) (handler : thrown -> Io A)
  (history : list call) (cs cs' : list call) (out out' : list line) (error : thrown)
  (en : ending A) :
  m history = {| calls := cs; shown := out; ended := Raised error |} ->
  handler error (history ++ cs)%list = {| calls := cs'; shown := out'; ended := en |} ->
  io_catch m handler history
  = {| calls := (cs ++ cs')%list; shown := (out ++ out')%list; ended := en |}.
Proof. intros E1 E2. unfold io_catch. rewrite E1. cbn [ended calls shown]. now rewrite E2. Qed.

Lemma run_finally {A : Type} (m : Io A) (cleanup : Io unit) (history : list call)
  (cs cs' : list call) (out out' : list line) (en : ending A) (en' : ending unit) :
  m history = {| calls := cs; shown := out; ended := en |} ->
  cleanup (history ++ cs)%list = {| calls := cs'; shown := out'; ended := en' |} ->
  io_finally m cleanup history
  = {| calls := (cs ++ cs')%list;
       shown := (out ++ out')%list;
       ended := match en' with
                | Returned _ => en
                | Raised error => Raised error
                end |}.
Proof.
  intros E1 E2. unfold io_finally. rewrite E1. cbn [ended calls shown]. now rewrite E2.
Qed.

Lemma run_request_ok (method : string) (params : Js.value) (history : list call)
  (body : Js.value) :
  respond history (method, params) = Ok body ->
  request method params history
  = {| calls := [(method, params)]; shown := []; ended := Returned body |}.
Proof. intros E. unfold Es.request. now rewrite E. Qed.

Lemma run_request_throw (method : string) (params : Js.value) (history : list call)
  (e : error) :
  respond history (method, params) = Throw e ->
  request method params history
  = {| calls := [(method, params)]; shown := []; ended := Raised (Error e) |}.
Proof. intros E. unfold Es.request. now rewrite E. Qed.

(** Runs a block step by step; the answers of the engine are equations of
    the context, on histories written as one list appended to the
    history the block starts from. *)
Ltac io_history :=
  cbv beta; rewrite <- ?app_assoc; cbn [app];
  repeat match goal with
         | T : truthy ?b = _ |- context [truthy ?b] => rewrite T
         end;
  cbv beta iota.

Ltac io_run :=
  io_history;
  lazymatch goal with
  | |- io_ret _ _ = _ => reflexivity
  | |- io_throw _ _ = _ => reflexivity
  | |- io_log _ _ = _ => reflexivity
  | |- Es.request _ _ _ _ = _ =>
      first [ apply run_request_ok;
              match goal with E : respond _ _ = _ |- _ => exact E end
            | apply run_request_throw;
              match goal with E : respond _ _ = _ |- _ => exact E end ]
  | |- io_bind _ _ _ = _ =>
      first [ eapply run_bind_returned; [solve [io_run] | solve [io_run]]
            | eapply run_bind_raised; solve [io_run] ]
  | |- io_catch _ _ _ = _ =>
      first [ eapply run_catch_returned; solve [io_run]
            | eapply run_catch_raised; [solve [io_run] | solve [io_run]] ]
  | |- io_finally _ _ _ = _ =>
      eapply run_finally; [solve [io_run] | solve [io_run]]
  end.

(** X29.  An index that exists is never configured.  When the engine
    reports the target index as existing, [configIndex] creates nothing
    and sets nothing: it asks for the deletion of the index when
    [destroyExistingIndex] is left out or true, reopens the index, and
    never returns.  With the deletion done, and without it, what it
    throws says that the index already exists. *)
Theorem configIndex_existing (targetIndex : string) (indexSettings : IndexSettings)
  (destroyExistingIndex : option bool) (history : list call) (body : Js.value) :
  respond history ("indices.exists", VObj [("index", VStr targetIndex)]) = Ok body ->
  truthy body = true ->
  let destroy := match destroyExistingIndex with Some flag => flag | None => true end in
  let existsCall := ("indices.exists", VObj [("index", VStr targetIndex)]) in
  let deleteCall := ("indices.delete", VObj [("index", VStr targetIndex)]) in
  let openCall := ("indices.open", VObj [("index", VStr targetIndex)]) in
  let r := configIndex targetIndex indexSettings destroyExistingIndex history in
  let exists_already :=
    Raised (Error (Kobp (fromServer badGateway
                           ("Unable to perform Setting Index on ES: Index: "
                            ++ targetIndex ++ " already exists.") None))) in
  calls r = (existsCall :: (if destroy then [deleteCall] else []) ++ [openCall])%list
  /\ (forall a, ended r <> Returned a)
  /\ (destroy = false ->
      forall v, respond (history ++ [existsCall])%list openCall = Ok v ->
                ended r = exists_already /\ shown r = [])
  /\ (destroy = true ->
      forall v w,
        respond (history ++ [existsCall])%list deleteCall = Ok v ->
        respond (history ++ [existsCall; deleteCall])%list openCall = Ok w ->
        ended r = exists_already /\ shown r = [(Log, ["Deleting index"])]).
Proof.
  intros Hex T destroy existsCall deleteCall openCall r exists_already.
  subst r. unfold Es.configIndex, Es.isIndexExists, Es.putSettings, Es.putMapping.
  fold destroy. destruct destroy.
  - destruct (respond (history ++ [existsCall])%list deleteCall) as [v|e] eqn:Dl;
      destruct (respond (history ++ [existsCall; deleteCall])%list openCall)
        as [w|e'] eqn:Op;
      (match goal with
       | |- context [io_finally ?m ?c history] =>
           eassert (E : io_finally m c history = _) by io_run
       end);
      rewrite E; cbn [app calls shown ended normalizedMessage];
      repeat split; try discriminate; congruence.
  - destruct (respond (history ++ [existsCall])%list openCall) as [w|e'] eqn:Op;
      (match goal with
       | |- context [io_finally ?m ?c history] =>
           eassert (E : io_finally m c history = _) by io_run
       end);
      rewrite E; cbn [app calls shown ended normalizedMessage];
      repeat split; try discriminate; congruence.
Qed.

(** X30.  A new index is configured in six calls.  When the engine reports
    the target index as missing and accepts what follows, [configIndex]
    creates the index, closes it, puts the settings, puts the mapping
    properties (the empty object for properties that are missing), reopens
    the index, prints nothing and returns the settings it was given. *)
Theorem configIndex_fresh (targetIndex : string) (indexSettings : IndexSettings)
  (destroyExistingIndex : option bool) (history : list call) (body : Js.value) :
  respond history ("indices.exists", VObj [("index", VStr targetIndex)]) = Ok body ->
  truthy body = false ->
  (forall h c, fst c <> "indices.exists" -> exists v, respond h c = Ok v) ->
  let r := configIndex targetIndex indexSettings destroyExistingIndex history in
  calls r
  = [("indices.exists", VObj [("index", VStr targetIndex)]);
     ("indices.create", VObj [("index", VStr targetIndex)]);
     ("indices.close", VObj [("index", VStr targetIndex)]);
     ("indices.putSettings",
      VObj [("index", VStr targetIndex);
            ("body", obj1 "settings" (settings indexSettings))]);
     ("indices.putMapping",
      VObj [("index", VStr targetIndex);
            ("body",
             obj1 "properties"
               (if truthy (properties (mappings indexSettings))
                then properties (mappings indexSettings)
                else VObj []))]);
     ("indices.open", VObj [("index", VStr targetIndex)])]
  /\ ended r = Returned indexSettings
  /\ shown r = [].
Proof.
  intros Hex T Hok r. subst r.
  unfold Es.configIndex, Es.isIndexExists, Es.putSettings, Es.putMapping.
  set (c1 := ("indices.exists", VObj [("index", VStr targetIndex)])) in *.
  set (c2 := ("indices.create", VObj [("index", VStr targetIndex)])).
  set (c3 := ("indices.close", VObj [("index", VStr targetIndex)])).
  set (c4 := ("indices.putSettings",
              VObj [("index", VStr targetIndex);
                    ("body", obj1 "settings" (settings indexSettings))])).
  set (c5 := ("indices.putMapping",
              VObj [("index", VStr targetIndex);
                    ("body",
                     obj1 "properties"
                       (if truthy (properties (mappings indexSettings))
                        then properties (mappings indexSettings)
                        else VObj []))])).
  set (c6 := ("indices.open", VObj [("index", VStr targetIndex)])).
  destruct (Hok (history ++ [c1])%list c2) as (v2 & E2); [discriminate|].
  destruct (Hok (history ++ [c1; c2])%list c3) as (v3 & E3); [discriminate|].
  destruct (Hok (history ++ [c1; c2; c3])%list c4) as (v4 & E4); [discriminate|].
  destruct (Hok (history ++ [c1; c2; c3; c4])%list c5) as (v5 & E5); [discriminate|].
  destruct (Hok (history ++ [c1; c2; c3; c4; c5])%list c6) as (v6 & E6); [discriminate|].
  subst c1 c2 c3 c4 c5 c6.
  unfold or_else.
  match goal with
  | |- context [io_finally ?m ?c history] =>
      eassert (E : io_finally m c history = _) by io_run
  end.
  rewrite E. repeat split.
Qed.

End Index.

(** *** The further statements on the sample deployment *)

(** X10 on the sample: the sort token [rating], and a cursor that is no
    JSON in [listBrands]. *)
Lemma search_failures_are_gateway_witness :
  (exists data,
     result (Sample.listProducts Sample.unsorted [])
     = Throw (Kobp (fromServer badGateway "ElasticSearch encountered an error"
                      (Some data))))
  /\ (exists data,
        result (Sample.listBrands Sample.garbled)
        = Throw (Kobp (fromServer badGateway "ElasticSearch encountered an error"
                         (Some data)))).
Proof.
  destruct (search_failures_are_gateway Sample.toLowerCase Sample.syntaxErrorMessage
              Js.value Sample.Deserialize string Sample.em_find Sample.search
              Sample.searchBrands) as [P B].
  split.
  - destruct (result (Sample.listProducts Sample.unsorted [])) as [r|e] eqn:E;
      [vm_compute in E; discriminate E|].
    destruct (P Sample.unsorted [] e E) as (data & ->). now exists data.
  - destruct (result (Sample.listBrands Sample.garbled)) as [r|e] eqn:E;
      [vm_compute in E; discriminate E|].
    destruct (B Sample.garbled e E) as (data & ->). now exists data.
Defined.

(** X11 on the sample: a page of two products. *)
Lemma pages_list_every_hit_witness :
  exists r,
    result (Sample.listProducts Sample.plain []) = Ok r
    /\ Products.items r = [obj1 "sku" (VStr "sku-1"); obj1 "sku" (VStr "sku-2")].
Proof.
  destruct (result (Sample.listProducts Sample.plain [])) as [r|e] eqn:E;
    [|vm_compute in E; discriminate E].
  exists r. split; [reflexivity|].
  destruct (proj1 (pages_list_every_hit Sample.toLowerCase Sample.syntaxErrorMessage
                     Js.value Sample.Deserialize string Sample.em_find Sample.search
                     Sample.searchBrands) Sample.plain [] r E)
    as (requestBody & body & _ & S & ->).
  injection S as <-. reflexivity.
Defined.

(** X12 on the sample: a response without suggest block, and an entity
    manager that fails. *)
Lemma listBrands_suggested_brands_witness :
  (exists r,
     result (Sample.listBrands Sample.plain) = Ok r
     /\ Sample.em_find [] = Ok (Brands.suggestionBrand r))
  /\ result (Sample.listBrandsBrokenFind Sample.plain)
     = Throw (Kobp (fromServer badGateway "ElasticSearch encountered an error"
                      (Some "connection refused"))).
Proof.
  split.
  - destruct (result (Sample.listBrands Sample.plain)) as [r|e] eqn:E;
      [|vm_compute in E; discriminate E].
    exists r. split; [reflexivity|].
    destruct (proj1 (listBrands_suggested_brands Sample.syntaxErrorMessage string
                       Sample.em_find Sample.searchBrands) Sample.plain r E)
      as (searchAfter & body & ids & S & _ & F & N & _).
    injection S as <-. now rewrite (N eq_refl) in F.
  - exact (proj2 (listBrands_suggested_brands Sample.syntaxErrorMessage string
                    Sample.brokenFind Sample.searchBrands)
             Sample.plain (VObj []) Sample.brandPage
             ([obj1 "sku" (VStr "nike"); obj1 "sku" (VStr "puma")],
              Some (Base64.encode (Json.text (sort (Sample.hit "puma" "1")))))
             [] (EngineError "connection refused" None)
             eq_refl eq_refl eq_refl eq_refl eq_refl).
Defined.

(** X13 on the sample: a status check and a page size that are asked for
    and make no difference. *)
Lemma listProducts_unused_options_witness :
  Sample.listProducts Sample.checked [] = Sample.listProducts Sample.plain [].
Proof.
  exact (listProducts_unused_options Sample.toLowerCase Sample.syntaxErrorMessage
           Js.value Sample.Deserialize Sample.search Sample.checked Sample.plain []
           eq_refl eq_refl eq_refl eq_refl eq_refl eq_refl eq_refl eq_refl eq_refl
           eq_refl eq_refl).
Defined.

(** X14 on the sample: a sort token that [listProducts] rejects makes no
    difference to [listBrands]. *)
Lemma listBrands_reads_three_options_witness :
  Sample.listBrands Sample.unsorted = Sample.listBrands Sample.plain.
Proof.
  exact (listBrands_reads_three_options Sample.syntaxErrorMessage string Sample.em_find
           Sample.searchBrands Sample.unsorted Sample.plain eq_refl eq_refl eq_refl).
Defined.

(** X15 on the sample: a SKU in capitals and in small letters. *)
Lemma listProducts_sku_case_witness :
  Sample.compileRequest
    {| scope := Sample.global; keyword := None; nextToken := None; size := 2;
       categories := None; minPrice := None; maxPrice := None; brands := None;
       sortBy := None; skus := Some ["SKU-1"]; checkStatus := None; color := None;
       pageSize := None |} []
  = Sample.compileRequest
      {| scope := Sample.global; keyword := None; nextToken := None; size := 2;
         categories := None; minPrice := None; maxPrice := None; brands := None;
         sortBy := None; skus := Some ["sku-1"]; checkStatus := None; color := None;
         pageSize := None |} [].
Proof.
  exact (listProducts_sku_case Sample.toLowerCase Sample.syntaxErrorMessage
           Sample.global None None 2%Z None None None None None
           (Some ["SKU-1"]) (Some ["sku-1"]) None None None [] eq_refl).
Defined.

(** X16 on the sample: a keyword and two categories. *)
Lemma listProducts_keyword_or_categories_witness :
  In (obj1 "match_phrase_prefix" (obj1 "title.en" (VStr "run")))
    (should_of (Sample.request Sample.browsing))
  /\ In (obj1 "match" (obj1 "categorySlugs" (VStr "bags")))
       (should_of (Sample.request Sample.browsing))
  /\ get ["query"; "bool"; "minimum_should_match"] (Sample.request Sample.browsing) = num 1
  /\ has_key "suggest" (Sample.request Sample.browsing) = true.
Proof.
  destruct (listProducts_keyword_or_categories Sample.toLowerCase
              Sample.syntaxErrorMessage Sample.browsing []
              (Sample.request Sample.browsing) eq_refl) as (K & C & M & S).
  split; [|split; [|split]].
  - apply (K "run" eq_refl). discriminate.
  - apply (C ["shoes"; "bags"] "bags" eq_refl). right. now left.
  - apply M. discriminate.
  - exact S.
Defined.

(** X17 on the sample: a cursor that decodes to the empty array, and a
    cursor with a character that is read by its low byte. *)
Lemma cursor_in_request_witness :
  field "search_after" (Sample.request Sample.lowByteCursor) = VArr [VNum "1"]
  /\ field "search_after" (Sample.request Sample.emptyCursor) = VArr []
  /\ has_key "search_after" (Sample.request Sample.emptyCursor) = true
  /\ has_key "search_after" (field "body" (brandRequestOf Sample.emptyCursor (VArr [])))
     = false
  /\ has_key "search_after" (Sample.request Sample.plain) = false.
Proof.
  destruct (cursor_in_request Sample.toLowerCase Sample.syntaxErrorMessage)
    as (P & N & B).
  assert (D : "W10=" <> "") by discriminate.
  destruct (P Sample.emptyCursor [] "W10=" (VArr []) (Sample.request Sample.emptyCursor)
              eq_refl D eq_refl eq_refl) as [H F].
  destruct (B Sample.emptyCursor "W10=" (VArr []) eq_refl D eq_refl) as (_ & Hb & _).
  assert (D' : "ŗzFd" <> "") by discriminate.
  split.
  { exact (proj2 (P Sample.lowByteCursor [] "ŗzFd" (VArr [VNum "1"])
                    (Sample.request Sample.lowByteCursor) eq_refl D' eq_refl eq_refl)). }
  split; [exact F|]. split; [exact H|]. split; [exact Hb|].
  exact (N Sample.plain [] (Sample.request Sample.plain) eq_refl eq_refl).
Defined.

(** X20 on the sample: two popular terms. *)
Lemma queryTerms_terms_witness :
  result (Sample.popularTerms Sample.global (Some "sh")) = Ok [VStr "shoes"; VStr "shirts"].
Proof.
  refine (proj1 (proj1 (queryTerms_terms Sample.searchTerms queryterms Sample.global
                          (Some "sh"))
                   Sample.termsPage
                   [Sample.termHit "shoes" 12; Sample.termHit "shirts" 3]
                   [VStr "shoes"; VStr "shirts"] eq_refl eq_refl _)).
  repeat constructor; eexists; split; reflexivity.
Defined.

(** X21 on the sample: the term [Shoes] tracked and looked up under the
    global scope. *)
Lemma terms_written_and_read_witness :
  get ["body"; "upsert"; "q"]
    (Es.trackRequest Sample.toLowerCase Sample.digest Sample.global "Shoes")
  = VStr "shoes"
  /\ get ["body"; "query"; "bool"; "should"]
       (termsRequest queryterms Sample.global (Some "Shoes"))
     = VArr [VObj [("term", VObj [("q", VStr "Shoes")])]].
Proof.
  destruct (terms_written_and_read Sample.toLowerCase Sample.digest Sample.global
              "Shoes" 1%Z) as (_ & _ & _ & _ & _ & _ & _ & _ & Q & _ & L).
  split; [exact Q|]. apply L. discriminate.
Defined.

(** X22 on the sample: the sources of two hits. *)
Lemma getDomainBoostedKeywords_sources_witness :
  result (Sample.getDomainBoostedKeywords Sample.global)
  = Ok [field "_source" (Sample.termHit "shoes" 12);
        field "_source" (Sample.termHit "shirts" 3)].
Proof.
  refine (proj1 (proj2 (getDomainBoostedKeywords_sources Sample.searchTerms Sample.global))
            Sample.termsPage
            [Sample.termHit "shoes" 12; Sample.termHit "shirts" 3] _ eq_refl eq_refl _).
  repeat constructor.
Defined.

(** X23 on the sample: two documents deleted for one keyword. *)
Lemma deleteTerms_counts_witness :
  result (Sample.deletePopularTerms Sample.global (Some ["shoes"])) = Ok (num 2).
Proof.
  destruct (deleteTerms_counts Sample.deleteByQuery queryterms Sample.global)
    as (_ & _ & _ & D & _).
  exact (D "shoes" [] (VObj [("took", num 7); ("deleted", num 2)]) eq_refl).
Defined.

(** X24 on the sample: two products. *)
Lemma saveProducts_bulk_witness :
  Sample.saveProducts [Sample.product "sku-1"; Sample.product "sku-2"] = ret true.
Proof.
  refine (proj1 (proj2 (saveProducts_bulk Js.value Sample.Deserialize "save-products"
                          Sample.bulkItems
                          [Sample.product "sku-1"; Sample.product "sku-2"] _))
            _ eq_refl).
  intros p [<-|[<-|[]]]; reflexivity.
Defined.

(** X25 on the sample: one brand, and a brand that serializes to [null]. *)
Lemma syncBrands_bulk_witness :
  result (Sample.syncBrands [Sample.product "nike"]) = Ok true
  /\ result (Sample.syncBrands [Sample.product "nike"; VNull])
     = Throw (TypeError "Cannot read properties of null (reading 'id')").
Proof.
  assert (H : forall brand, In brand [Sample.product "nike"] ->
                            nullish (Sample.Deserialize brand) = false).
  { intros p [<-|[]]. reflexivity. }
  destruct (syncBrands_bulk Js.value Sample.Deserialize "save-brands" Sample.inspect
              Sample.bulkItems [Sample.product "nike"] H) as (S & _ & N).
  split.
  - unfold Sample.syncBrands. now rewrite (S _ eq_refl).
  - exact (f_equal snd (N VNull [] eq_refl)).
Defined.

(** X26 on the sample: a reservation that the engine answers with an
    item, and one that it answers without any. *)
Lemma stock_updates_bulk_witness :
  result (Sample.reserveStocks [Sample.product "sku-1"]) = Ok true
  /\ result (Sample.reserveStocksNoItem [Sample.product "sku-1"])
     = Throw (Kobp (fromServer badGateway "ElasticSearch encountered an error"
                      (Some "Cannot read properties of undefined (reading 'update')"))).
Proof.
  assert (H : forall doc, In doc [Sample.product "sku-1"] -> nullish doc = false).
  { intros p [<-|[]]. reflexivity. }
  split.
  - destruct (stock_updates_bulk "update-stock" "reserve-stock" "paid-stock"
                "expired-stock" "cancel-stock" Sample.inspect unit Sample.bulkItems
                "reserve-stock" [Sample.product "sku-1"] H)
      as (_ & R & _ & _ & _ & I & _).
    unfold Sample.reserveStocks. rewrite R.
    now rewrite (I _ [] (VObj [("_id", VStr "sku-1"); ("status", num 200)])
                   eq_refl eq_refl eq_refl).
  - destruct (stock_updates_bulk "update-stock" "reserve-stock" "paid-stock"
                "expired-stock" "cancel-stock" Sample.inspect unit Sample.bulkNoItem
                "reserve-stock" [Sample.product "sku-1"] H)
      as (_ & R & _ & _ & _ & _ & E & _).
    unfold Sample.reserveStocksNoItem. rewrite R. exact (E eq_refl).
Defined.

(** X27 on the sample: a document that is found, and an engine that is
    down. *)
Lemma sku_operations_witness :
  result (Es.getProductBySku Sample.getDocument "sku-1") = Ok (Sample.product "sku-1")
  /\ result (Es.getProductBySku Sample.down "sku-1")
     = Throw (Kobp (fromUserInput notFound "Resource not found"))
  /\ result (Es.deleteProductBySku Sample.down "sku-1")
     = Throw (Kobp (fromUserInput notFound "Error Delete")).
Proof.
  split; [|split].
  - destruct (result (Es.getProductBySku Sample.getDocument "sku-1")) as [r|e] eqn:E;
      [|vm_compute in E; discriminate E].
    destruct (sku_operations Sample.getDocument Sample.down "sku-1")
      as (_ & _ & _ & _ & G & _).
    destruct (G r E) as (body & S & ->). now injection S as <-.
  - destruct (sku_operations Sample.down Sample.down "sku-1")
      as (_ & _ & _ & _ & _ & _ & G & _).
    exact (G _ eq_refl).
  - destruct (sku_operations Sample.down Sample.down "sku-1")
      as (_ & _ & _ & _ & _ & _ & _ & D).
    exact (D _ eq_refl).
Defined.

(** X28 on the sample: the last call on an engine that has the index. *)
Lemma configIndex_reopens_witness :
  exists before,
    calls (Es.configIndex Sample.existingEngine "products" Sample.indexSettings None [])
    = (before ++ [("indices.open", VObj [("index", VStr "products")])])%list.
Proof.
  exact (proj1 (configIndex_reopens Sample.existingEngine "products" Sample.indexSettings
                  None [])).
Defined.

(** X29 on the sample: an index that exists, with the deletion that is
    the default. *)
Lemma configIndex_existing_witness :
  calls (Es.configIndex Sample.existingEngine "products" Sample.indexSettings None [])
  = [("indices.exists", VObj [("index", VStr "products")]);
     ("indices.delete", VObj [("index", VStr "products")]);
     ("indices.open", VObj [("index", VStr "products")])]
  /\ ended (Es.configIndex Sample.existingEngine "products" Sample.indexSettings None [])
     = Raised (Error (Kobp (fromServer badGateway
                              "Unable to perform Setting Index on ES: Index: products already exists."
                              None))).
Proof.
  destruct (configIndex_existing Sample.existingEngine "products" Sample.indexSettings
              None [] (VBool true) eq_refl eq_refl) as (C & _ & _ & D).
  split; [exact C|].
  exact (proj1 (D eq_refl (obj1 "acknowledged" (VBool true))
                  (obj1 "acknowledged" (VBool true)) eq_refl eq_refl)).
Defined.

(** X30 on the sample: an index that does not exist yet. *)
Lemma configIndex_fresh_witness :
  ended (Es.configIndex Sample.freshEngine "products" Sample.indexSettings None [])
  = Returned Sample.indexSettings
  /\ List.length
       (calls (Es.configIndex Sample.freshEngine "products" Sample.indexSettings None []))
     = 6%nat.
Proof.
  assert (H : forall h c, fst c <> "indices.exists" ->
                          exists v, Sample.freshEngine h c = Ok v).
  { intros h c N. unfold Sample.freshEngine.
    destruct (String.eqb_spec (fst c) "indices.exists"); [contradiction|]. now eexists. }
  destruct (configIndex_fresh Sample.freshEngine "products" Sample.indexSettings None []
              (VBool false) eq_refl eq_refl H) as (C & E & _).
  split; [exact E|]. now rewrite C.
Defined.

End EsFacts.
